(** * PaddleMIX: LoRA loader, ControlNet img2img sampling loop, audio ASR task

    A shallow embedding of the parts of
      - [paddlemix/appflow/audio_asr.py],
      - [ppdiffusers/loaders/lora.py],
      - [ppdiffusers/pipelines/controlnet/pipeline_controlnet_img2img.py]
    that the specification talks about, and the proofs of its claims.

    Python values are modelled the way the code uses them: unbounded [int]
    as [Z]; [float] as the binary64 numbers of [PrimFloat] (the arithmetic
    Python delegates to the hardware); [str] as [string]; [dict] as [gmap];
    exceptions as an explicit result type threaded with the mutable state.
    Pretrained models, the scheduler and the tensor library are interfaces
    (type classes): the repository only orchestrates them.

    Part I holds the definitions, Part II the lemmas and theorems. *)

From Stdlib Require Import ZArith List Bool Lia Floats.
From stdpp Require Import base strings gmap.

Set Warnings "-inexact-float".
Local Open Scope Z_scope.

(** * Part I: definitions *)

(** ** Python basics: exceptions, results, the state-and-exception monad *)

Module Py.

Inductive exn_class :=
| ValueError | TypeError | AssertionError | KeyError | IndexError
| AttributeError | ZeroDivisionError | OverflowError | NameError
| ExternalError.

(** An exception: its class and the static part of its message. *)
Record exn := Exn { exn_cls : exn_class; exn_msg : string }.

Inductive result (A : Type) :=
| Ok (a : A)
| Raise (e : exn).
Arguments Ok {A} a.
Arguments Raise {A} e.

Definition is_ok {A} (r : result A) : bool :=
  match r with Ok _ => true | Raise _ => false end.

Definition raises {A} (c : exn_class) (r : result A) : Prop :=
  exists msg, r = Raise (Exn c msg).

(** A computation over a mutable state [S]: whatever was assigned before
    an exception is raised stays assigned. *)
Definition M (S A : Type) : Type := S -> result A * S.

Definition ret {S A} (a : A) : M S A := fun s => (Ok a, s).

Definition throw {S A} (c : exn_class) (msg : string) : M S A :=
  fun s => (Raise (Exn c msg), s).

Definition bind {S A B} (m : M S A) (k : A -> M S B) : M S B :=
  fun s => match m s with
           | (Ok a, s') => k a s'
           | (Raise e, s') => (Raise e, s')
           end.

Definition lift {S A} (r : result A) : M S A := fun s => (r, s).

Definition gets {S A} (f : S -> A) : M S A := fun s => (Ok (f s), s).

Definition modify {S} (f : S -> S) : M S unit := fun s => (Ok tt, f s).

(** Run [m] on a part of the state: [get] reads the part, [set] writes it
    back, also when [m] raises. *)
Definition zoom {S T A} (get : S -> T) (set : T -> S -> S) (m : M T A) : M S A :=
  fun s => let (r, t') := m (get s) in (r, set t' s).

(** [for x in l: body(x)] where [body] mutates the element [x] in place. *)
Fixpoint for_elems {A} (body : M A unit) : M (list A) unit :=
  fun l => match l with
           | [] => (Ok tt, [])
           | x :: l' =>
               match body x with
               | (Ok _, x') => let (r, l'') := for_elems body l' in (r, x' :: l'')
               | (Raise e, x') => (Raise e, x' :: l')
               end
           end.

(** The pure fragment, for code that touches no state. *)
Definition rbind {A B} (r : result A) (k : A -> result B) : result B :=
  match r with Ok a => k a | Raise e => Raise e end.

Fixpoint rmap {A B} (f : A -> result B) (l : list A) : result (list B) :=
  match l with
  | [] => Ok []
  | x :: l' =>
      rbind (f x) (fun y => rbind (rmap f l') (fun ys => Ok (y :: ys)))
  end.

(** Dynamically typed values, where the code inspects them at run time. *)
Inductive pyval :=
| VNone
| VBool (b : bool)
| VInt (n : Z)
| VFloat (x : float)
| VStr (s : string)
| VObj (tag : string).

Definition is_none (v : pyval) : bool :=
  match v with VNone => true | _ => false end.

(** [d.get(k, dflt)] and [d[k]] on a [dict] with [str] keys. *)
Definition dict_get {V} (d : gmap string V) (k : string) (dflt : V) : V :=
  default dflt (d !! k).

Definition getitem {V} (d : gmap string V) (k : string) : result V :=
  match d !! k with
  | Some v => Ok v
  | None => Raise (Exn KeyError k)
  end.

(** [all(p(k) for k in d.keys())] *)
Definition all_keys {V} (p : string -> bool) (d : gmap string V) : bool :=
  forallb p (map fst (map_to_list d)).

(** [s.startswith(p)] *)
Fixpoint startswith (p s : string) : bool :=
  match p, s with
  | EmptyString, _ => true
  | String a p', String b s' => if Ascii.eqb a b then startswith p' s' else false
  | String _ _, EmptyString => false
  end.

(** [sub in s] for two [str]. *)
Fixpoint str_in (sub s : string) : bool :=
  startswith sub s ||
  match s with
  | EmptyString => false
  | String _ s' => str_in sub s'
  end.

(** [s.endswith(p)] *)
Definition endswith (p s : string) : bool :=
  startswith (String.rev p) (String.rev s).

(** [l[a:]] on a list, for any [int] [a]. *)
Definition slice_from {A} (l : list A) (a : Z) : list A :=
  if a <? 0 then skipn (Z.to_nat (Z.max 0 (Z.of_nat (length l) + a))) l
  else skipn (Z.to_nat a) l.

(** [a // b] and [a % b] on [int]: floor division, [ZeroDivisionError]. *)
Definition floordiv (a b : Z) : result Z :=
  if b =? 0 then Raise (Exn ZeroDivisionError "integer division or modulo by zero")
  else Ok (a / b).

Definition modulo (a b : Z) : result Z :=
  if b =? 0 then Raise (Exn ZeroDivisionError "integer division or modulo by zero")
  else Ok (a mod b).

End Py.

Declare Scope py_scope.
Delimit Scope py_scope with py.
Notation "x <- c ;; k" := (Py.bind c (fun x => k))
  (at level 100, c at next level, right associativity) : py_scope.
Notation "c ;;; k" := (Py.bind c (fun _ => k))
  (at level 100, right associativity) : py_scope.
Notation "'let?' x := c 'in' k" := (Py.rbind c (fun x => k))
  (at level 100, x pattern, c at next level, right associativity) : py_scope.

(** ** Python [float] and its conversions *)

Module PyFloat.
Import Py.

(** [float(b)] for a [bool]. *)
Definition of_bool (b : bool) : float := if b then 1%float else 0%float.

(** [x > y] and [x >= y]. *)
Definition gtb (x y : float) : bool := PrimFloat.ltb y x.
Definition geb (x y : float) : bool := PrimFloat.leb y x.

(** The exact integer [n] as an unnormalised binary datum. *)
Definition SF_of_Z (n : Z) : spec_float :=
  match n with
  | Z0 => S754_zero false
  | Zpos p => S754_finite false p 0
  | Zneg p => S754_finite true p 0
  end.

Definition is_inf_SF (x : spec_float) : bool :=
  match x with S754_infinity _ => true | _ => false end.

(** [float(n)] for an [int]: the nearest binary64 number (ties to even);
    [OverflowError] beyond the largest finite one. *)
Definition of_int (n : Z) : result float :=
  let x := binary_normalize prec emax n 0 false in
  if is_inf_SF x
  then Raise (Exn OverflowError "int too large to convert to float")
  else Ok (SF2Prim x).

(** [a / b] for two [int]s: the correctly rounded quotient. *)
Definition int_truediv (a b : Z) : result float :=
  if b =? 0 then Raise (Exn ZeroDivisionError "division by zero")
  else
    let q := SFdiv prec emax (SF_of_Z a) (SF_of_Z b) in
    if is_inf_SF q
    then Raise (Exn OverflowError "integer division result too large for a float")
    else Ok (SF2Prim q).

(** [int(x)] for a [float]: truncation towards zero. *)
Definition trunc_SF (x : spec_float) : result Z :=
  match x with
  | S754_zero _ => Ok 0
  | S754_finite s m e =>
      let a := match e with
               | Zneg k => Z.shiftr (Zpos m) (Zpos k)
               | _ => Z.shiftl (Zpos m) e
               end in
      Ok (if s then - a else a)
  | S754_infinity _ =>
      Raise (Exn OverflowError "cannot convert float infinity to integer")
  | S754_nan => Raise (Exn ValueError "cannot convert float NaN to integer")
  end.

Definition to_int (x : float) : result Z := trunc_SF (Prim2SF x).

(** [n * x] for an [int] and a [float]. *)
Definition int_mul (n : Z) (x : float) : result float :=
  match of_int n with
  | Ok f => Ok (f * x)%float
  | Raise e => Raise e
  end.

(** The exponent binary64 wants for a number of [d] digits plus exponent. *)
Abbreviation fexp64 := (fexp prec emax).

(** The outcome of the rounding step of the binary64 operations, from the
    mantissa and exponent it ends with. *)
Definition round_result (sx : bool) (m e : Z) : spec_float :=
  match m with
  | Z0 => S754_zero sx
  | Zpos p => if e <=? 971 then S754_finite sx p e else S754_infinity sx
  | Zneg _ => S754_nan
  end.

End PyFloat.

(** ** [paddlemix/appflow/audio_asr.py] *)

Module AudioASR.
Import Py.
Local Open Scope py_scope.

Abbreviation dict := (gmap string pyval).

(** Objects live in a store; a [dict] passed around is a reference. *)
Definition loc := positive.

Record state := State {
  heap : gmap loc dict;
  log : list string            (* lines written by [logger.info] *)
}.

(** The keyword arguments of the executor call. *)
Record whisper_args := WhisperArgs {
  wa_model : pyval;
  wa_task : pyval;
  wa_sample_rate : pyval;
  wa_config : pyval;
  wa_ckpt_path : pyval;
  wa_audio_file : pyval
}.

(** What the task gets from outside this file: the pretrained executor
    ([paddlespeech.cli.whisper.WhisperExecutor]) and the builtin
    [str.format]. *)
Class Env := {
  whisper_executor : whisper_args -> result dict;
  str_format : string -> list pyval -> result string
}.

Section Task.
Context `{Env}.

Definition deref (r : loc) : M state dict :=
  fun s => match heap s !! r with
           | Some d => (Ok d, s)
           | None => (Raise (Exn ExternalError "dangling reference"), s)
           end.

(** [inputs[k] = v] *)
Definition setitem (r : loc) (k : string) (v : pyval) : M state unit :=
  d <- deref r ;;
  modify (fun s => State (<[r := <[k := v]> d]> (heap s)) (log s)).

Definition logger_info (line : string) : M state unit :=
  modify (fun s => State (heap s) (log s ++ [line])).

(** The method call [v.format(text)]: only [str] has the method. *)
Definition format_method (v : pyval) (args : list pyval) : result string :=
  match v with
  | VStr s => str_format s args
  | _ => Raise (Exn AttributeError "object has no attribute 'format'")
  end.

(** [AudioASRTask._preprocess], lines 41-47. *)
Definition _preprocess (inputs : loc) : M state loc :=
  d <- deref inputs ;;
  let audio := dict_get d "audio" VNone in
  if is_none audio then throw AssertionError "The image is None"
  else
    let prompt := dict_get d "prompt" VNone in
    if is_none prompt then throw AssertionError "The prompt is None"
    else ret inputs.

(** [AudioASRTask._run_model], lines 49-72. *)
Definition _run_model (inputs : loc) : M state loc :=
  d <- deref inputs ;;
  let _model := dict_get d "model" (VStr "whisper") in
  let _task := dict_get d "task" (VStr "transcribe") in
  let _sample_rate := dict_get d "sample_rate" (VInt 16000) in
  let _config := dict_get d "config" VNone in
  let _ckpt_path := dict_get d "ckpt_path" VNone in
  audio <- lift (getitem d "audio") ;;
  result <- lift (whisper_executor
                    (WhisperArgs _model _task _sample_rate _config _ckpt_path audio)) ;;
  text <- lift (getitem result "text") ;;
  line <- lift (str_format "Audio File ASR Result: {}" [text]) ;;
  logger_info line ;;;
  prompt <- lift (getitem d "prompt") ;;
  new_prompt <- lift (format_method prompt [text]) ;;
  setitem inputs "prompt" (VStr new_prompt) ;;;
  ret inputs.

(** [AudioASRTask._postprocess], lines 74-79. *)
Definition _postprocess (inputs : loc) : M state loc := ret inputs.

(** The keyword arguments [_run_model] builds from the input dict. *)
Definition executor_args (d : dict) (audio : pyval) : whisper_args :=
  WhisperArgs (dict_get d "model" (VStr "whisper"))
    (dict_get d "task" (VStr "transcribe"))
    (dict_get d "sample_rate" (VInt 16000))
    (dict_get d "config" VNone) (dict_get d "ckpt_path" VNone) audio.

(** The dict lacks the key [k], or maps it to [None]. *)
Definition missing (d : dict) (k : string) : Prop :=
  d !! k = None \/ d !! k = Some VNone.

End Task.
End AudioASR.

(** ** [ppdiffusers/loaders/lora.py] *)

Module Lora.
Import Py.
Local Open Scope py_scope.

Section Loader.
(** Objects of the tensor framework and of the model zoo. *)
Context {Tensor Unet LoraLayer Linear UnetConfig HubArgs : Type}.

Abbreviation state_dict := (gmap string Tensor).
Abbreviation alphas := (gmap string float).

(** A projection of the text encoder: a plain linear layer, or one wrapped
    in a [PatchedLoraProjection]. *)
Inductive proj :=
| Plain (w : Linear)
| Patched (p : LoraLayer).

Definition is_patched (p : proj) : bool :=
  match p with Patched _ => true | Plain _ => false end.

Record attn_module := AttnModule {
  q_proj : proj; k_proj : proj; v_proj : proj; out_proj : proj
}.

Record mlp_module := MlpModule { fc1 : proj; fc2 : proj }.

(** What [text_encoder_attn_modules] and [text_encoder_mlp_modules]
    enumerate, by name. *)
Record text_encoder_t := TextEncoder {
  attn_modules : list (string * attn_module);
  mlp_modules : list (string * mlp_module)
}.

(** The pipeline object, as far as the loader mixin touches it. A field
    that is [None] stands for an attribute the object does not have. *)
Record pipeline := Pipeline {
  num_fused_loras : Z;
  unet : Unet;
  text_encoder : option text_encoder_t;
  text_encoder_2 : option text_encoder_t;
  _lora_scale : option float;
  warnings : list string       (* [logger.warn] and [deprecate] output *)
}.

(** Keyword arguments of [load_lora_weights] that the file reads. A field
    that is [None] stands for a keyword the caller did not pass. *)
Record kwargs := Kwargs {
  kw_from_diffusers : option bool;
  kw_weight_name : option string;
  kw_unet_config : option UnetConfig;
  kw_use_safetensors : option bool;
  kw_low_cpu_mem_usage : option bool;
  kw_hub : HubArgs             (* cache, proxy, revision, ... for the hub *)
}.

(** What the file imports: constants of [ppdiffusers.utils], the hub
    and checkpoint readers, the Kohya converters of
    [lora_conversion_utils], and the methods of the sub-models. *)
Class Env := {
  FROM_DIFFUSERS : bool;
  LOW_CPU_MEM_USAGE_DEFAULT : bool;
  USE_PPPEFT_BACKEND : bool;
  (* [version.parse(__version__) > version.parse("0.23")] *)
  version_gt_0_23 : bool;
  _get_model_file : string -> string -> bool -> HubArgs -> result (option string);
  (* the data format found and the entries read from the file *)
  load_state_dict : string -> result (string * state_dict);
  _maybe_map_sgm_blocks_to_diffusers :
    state_dict -> UnetConfig -> result state_dict;
  _convert_kohya_lora_to_diffusers :
    state_dict -> result (state_dict * option alphas);
  (* [load_lora_into_unet], lines 389-453, and [load_lora_into_text_encoder],
     lines 456-560: opaque mutations of the sub-models *)
  load_lora_into_unet :
    state_dict -> option alphas -> option bool -> option string -> bool ->
    M pipeline unit;
  load_lora_into_text_encoder :
    state_dict -> option alphas -> bool (* second encoder *) -> option string ->
    float -> option bool -> option string -> bool -> M pipeline unit;
  config_of_unet : Unet -> UnetConfig;          (* [self.unet.config] *)
  unet_fuse_lora : float -> bool -> M Unet unit;
  unet_unfuse_lora : M Unet unit;
  _fuse_lora : float -> bool -> M LoraLayer unit;
  _unfuse_lora : M LoraLayer unit
}.

Context `{Env}.

Definition TORCH_LORA_WEIGHT_NAME : string := "pytorch_lora_weights.bin".
Definition TORCH_LORA_WEIGHT_NAME_SAFE : string := "pytorch_lora_weights.safetensors".
Definition PADDLE_LORA_WEIGHT_NAME : string := "paddle_lora_weights.pdparams".
Definition PADDLE_LORA_WEIGHT_NAME_SAFE : string := "paddle_lora_weights.safetensors".

Definition LORA_DEPRECATION_MESSAGE : string :=
  "You are using an old version of LoRA backend. This will be deprecated in the next releases in favor of PEFT make sure to install the latest PEFT and transformers packages in the future.".

(** [x or y] for an optional [str] and a [str]: an empty string is falsy. *)
Definition str_or (x : option string) (y : string) : string :=
  match x with
  | Some (String a r) => String a r
  | _ => y
  end.

Definition is_kohya_key (k : string) : bool :=
  startswith "lora_te_" k || startswith "lora_unet_" k ||
  startswith "lora_te1_" k || startswith "lora_te2_" k.

(** [LoraLoaderMixin.lora_state_dict], lines 157-335. The first argument
    is a model id or path ([inl]) or a state dict ([inr]). *)
Definition lora_state_dict (src : string + state_dict) (kw : kwargs)
  : result (state_dict * option alphas * bool) :=
  let from_diffusers := default FROM_DIFFUSERS (kw_from_diffusers kw) in
  let weight_name := kw_weight_name kw in
  let unet_config := kw_unet_config kw in
  let use_safetensors := default true (kw_use_safetensors kw) in
  let? (state_dict, from_diffusers) :=
    match src with
    | inl path =>
        let try_safe :=
          (use_safetensors && negb (bool_decide (is_Some weight_name))) ||
          match weight_name with
          | Some w => endswith ".safetensors" w
          | None => false
          end in
        let model_file : option string :=
          if try_safe then
            match _get_model_file path
                    (if from_diffusers
                     then str_or weight_name TORCH_LORA_WEIGHT_NAME_SAFE
                     else str_or weight_name PADDLE_LORA_WEIGHT_NAME_SAFE)
                    from_diffusers (kw_hub kw) with
            | Ok f => f
            | Raise _ => None      (* except Exception: model_file = None *)
            end
          else None in
        let? model_file :=
          match model_file with
          | Some f => Ok (Some f)
          | None =>
              _get_model_file path
                (if from_diffusers
                 then str_or weight_name TORCH_LORA_WEIGHT_NAME
                 else str_or weight_name PADDLE_LORA_WEIGHT_NAME)
                from_diffusers (kw_hub kw)
          end in
        let? model_file :=
          match model_file with
          | Some f => Ok f
          | None => Raise (Exn AssertionError "Could not find the model file!")
          end in
        let? (data_format, loaded) := load_state_dict model_file in
        let from_diffusers :=
          if String.eqb data_format "pt" then true else from_diffusers in
        let from_diffusers :=
          if String.eqb data_format "pd" then false else from_diffusers in
        Ok (loaded, from_diffusers)
    | inr d => Ok (d, from_diffusers)
    end in
  if all_keys is_kohya_key state_dict then
    let? state_dict :=
      match unet_config with
      | Some cfg => _maybe_map_sgm_blocks_to_diffusers state_dict cfg
      | None => Ok state_dict
      end in
    let? (state_dict, network_alphas) :=
      _convert_kohya_lora_to_diffusers state_dict in
    Ok (state_dict, network_alphas, from_diffusers)
  else Ok (state_dict, None, from_diffusers).

(** The [lora_scale] property, lines 562-566. *)
Definition lora_scale (self : pipeline) : float :=
  default 1%float (_lora_scale self).

(** [self.text_encoder], an [AttributeError] when the pipeline has none. *)
Definition getattr_text_encoder : M pipeline text_encoder_t :=
  fun self => match text_encoder self with
              | Some te => (Ok te, self)
              | None => (Raise (Exn AttributeError "text_encoder"), self)
              end.

Definition getattr_text_encoder_2 : M pipeline text_encoder_t :=
  fun self => match text_encoder_2 self with
              | Some te => (Ok te, self)
              | None => (Raise (Exn AttributeError "text_encoder_2"), self)
              end.

(** The format check shared by the two [load_lora_weights], lines 128-130
    and 1263-1265. *)
Definition check_format (state_dict : state_dict) : result unit :=
  let is_correct_format := all_keys (str_in "lora") state_dict in
  if negb is_correct_format
  then Raise (Exn ValueError "Invalid LoRA checkpoint.")
  else Ok tt.

(** [LoraLoaderMixin.load_lora_weights], lines 132-154: the checkpoint goes
    into the UNet and the text encoder. *)
Definition load_into_models (state_dict : state_dict)
    (network_alphas : option alphas) (from_diffusers : bool)
    (adapter_name : option string) (kw : kwargs) : M pipeline unit :=
  let low_cpu_mem_usage :=
    default LOW_CPU_MEM_USAGE_DEFAULT (kw_low_cpu_mem_usage kw) in
  load_lora_into_unet state_dict network_alphas (Some low_cpu_mem_usage)
    adapter_name from_diffusers ;;;
  _ <- getattr_text_encoder ;;
  scale <- gets lora_scale ;;
  load_lora_into_text_encoder state_dict network_alphas false None scale
    (Some low_cpu_mem_usage) adapter_name from_diffusers.

(** [LoraLoaderMixin.load_lora_weights], lines 97-154. *)
Definition load_lora_weights (src : string + state_dict)
    (adapter_name : option string) (kw : kwargs) : M pipeline unit :=
  r <- lift (lora_state_dict src kw) ;;
  let '(state_dict, network_alphas, from_diffusers) := r in
  lift (check_format state_dict) ;;;
  load_into_models state_dict network_alphas from_diffusers adapter_name kw.

(** [{k: v for k, v in d.items() if sub in k}] *)
Definition keys_containing (sub : string) (d : state_dict) : state_dict :=
  filter (fun kv => str_in sub (fst kv) = true) d.

(** [StableDiffusionXLLoraLoaderMixin.load_lora_weights], lines 1267-1299:
    the checkpoint goes into the UNet and the two text encoders. *)
Definition sdxl_load_into_models (state_dict : state_dict)
    (network_alphas : option alphas) (from_diffusers : bool)
    (adapter_name : option string) : M pipeline unit :=
  load_lora_into_unet state_dict network_alphas None adapter_name
    from_diffusers ;;;
  let text_encoder_state_dict := keys_containing "text_encoder." state_dict in
  (if 0 <? Z.of_nat (size text_encoder_state_dict) then
     _ <- getattr_text_encoder ;;
     scale <- gets lora_scale ;;
     load_lora_into_text_encoder text_encoder_state_dict network_alphas false
       (Some "text_encoder") scale None adapter_name from_diffusers
   else ret tt) ;;;
  let text_encoder_2_state_dict := keys_containing "text_encoder_2." state_dict in
  if 0 <? Z.of_nat (size text_encoder_2_state_dict) then
    _ <- getattr_text_encoder_2 ;;
    scale <- gets lora_scale ;;
    load_lora_into_text_encoder text_encoder_2_state_dict network_alphas true
      (Some "text_encoder_2") scale None adapter_name from_diffusers
  else ret tt.

(** The keyword arguments of the SDXL call of [lora_state_dict], lines
    1258-1262: [unet_config=self.unet.config] beside the caller's
    [**kwargs]. When the caller's keywords hold [unet_config] as well, the
    call has the keyword twice and Python refuses it with a [TypeError]
    before [lora_state_dict] is entered. *)
Definition sdxl_kwargs (unet_config : UnetConfig) (kw : kwargs) : result kwargs :=
  match kw_unet_config kw with
  | Some _ =>
      Raise (Exn TypeError
               "lora_state_dict() got multiple values for keyword argument 'unet_config'")
  | None =>
      Ok (Kwargs (kw_from_diffusers kw) (kw_weight_name kw) (Some unet_config)
            (kw_use_safetensors kw) (kw_low_cpu_mem_usage kw) (kw_hub kw))
  end.

(** [StableDiffusionXLLoraLoaderMixin.load_lora_weights], lines 1224-1299. *)
Definition sdxl_load_lora_weights (src : string + state_dict)
    (adapter_name : option string) (kw : kwargs) : M pipeline unit :=
  unet_config <- gets (fun self => config_of_unet (unet self)) ;;
  kw <- lift (sdxl_kwargs unet_config kw) ;;
  r <- lift (lora_state_dict src kw) ;;
  let '(state_dict, network_alphas, from_diffusers) := r in
  lift (check_format state_dict) ;;;
  sdxl_load_into_models state_dict network_alphas from_diffusers adapter_name.

(** [logger.warn(msg)] *)
Definition logger_warn (msg : string) : M pipeline unit :=
  modify (fun p => Pipeline (num_fused_loras p) (unet p) (text_encoder p)
                     (text_encoder_2 p) (_lora_scale p) (warnings p ++ [msg])).

(** Modelled from the spec: [deprecate] of [ppdiffusers.utils] is not part
    of the sources at hand; by the specification a deprecation path emits a
    warning and execution continues. *)
Definition deprecate (name version message : string) : M pipeline unit :=
  logger_warn message.

Definition on_unet {A} (m : M Unet A) : M pipeline A :=
  zoom unet
       (fun u p => Pipeline (num_fused_loras p) u (text_encoder p)
                     (text_encoder_2 p) (_lora_scale p) (warnings p))
       m.

(** Run [m] on [self.text_encoder] when the pipeline has one. *)
Definition if_has_text_encoder (m : M text_encoder_t unit) : M pipeline unit :=
  fun p => match text_encoder p with
           | Some te =>
               let (r, te') := m te in
               (r, Pipeline (num_fused_loras p) (unet p) (Some te')
                     (text_encoder_2 p) (_lora_scale p) (warnings p))
           | None => (Ok tt, p)
           end.

Definition if_has_text_encoder_2 (m : M text_encoder_t unit) : M pipeline unit :=
  fun p => match text_encoder_2 p with
           | Some te =>
               let (r, te') := m te in
               (r, Pipeline (num_fused_loras p) (unet p) (text_encoder p)
                     (Some te') (_lora_scale p) (warnings p))
           | None => (Ok tt, p)
           end.

(** [p.method()] for a method of [PatchedLoraProjection]. *)
Definition on_patched (m : M LoraLayer unit) : M proj unit :=
  fun p => match p with
           | Patched l => let (r, l') := m l in (r, Patched l')
           | Plain w => (Raise (Exn AttributeError "_fuse_lora"), Plain w)
           end.

Definition on_q_proj (m : M proj unit) : M attn_module unit :=
  zoom q_proj (fun x a => AttnModule x (k_proj a) (v_proj a) (out_proj a)) m.
Definition on_k_proj (m : M proj unit) : M attn_module unit :=
  zoom k_proj (fun x a => AttnModule (q_proj a) x (v_proj a) (out_proj a)) m.
Definition on_v_proj (m : M proj unit) : M attn_module unit :=
  zoom v_proj (fun x a => AttnModule (q_proj a) (k_proj a) x (out_proj a)) m.
Definition on_out_proj (m : M proj unit) : M attn_module unit :=
  zoom out_proj (fun x a => AttnModule (q_proj a) (k_proj a) (v_proj a) x) m.
Definition on_fc1 (m : M proj unit) : M mlp_module unit :=
  zoom fc1 (fun x a => MlpModule x (fc2 a)) m.
Definition on_fc2 (m : M proj unit) : M mlp_module unit :=
  zoom fc2 (fun x a => MlpModule (fc1 a) x) m.

(** The two loops shared by the inner functions [fuse_text_encoder_lora]
    (lines 904-915) and [unfuse_text_encoder_lora] (lines 964-975):
    [op] is the method called on each patched projection. *)
Definition each_patched_projection (op : M LoraLayer unit) : M text_encoder_t unit :=
  zoom attn_modules (fun l te => TextEncoder l (mlp_modules te))
    (for_elems (zoom snd (fun a na => (fst na, a))
       (q <- gets q_proj ;;
        if is_patched q then
          on_q_proj (on_patched op) ;;;
          on_k_proj (on_patched op) ;;;
          on_v_proj (on_patched op) ;;;
          on_out_proj (on_patched op)
        else ret tt))) ;;;
  zoom mlp_modules (fun l te => TextEncoder (attn_modules te) l)
    (for_elems (zoom snd (fun a na => (fst na, a))
       (f <- gets fc1 ;;
        if is_patched f then
          on_fc1 (on_patched op) ;;;
          on_fc2 (on_patched op)
        else ret tt))).

Definition set_num_fused_loras (n : Z) : M pipeline unit :=
  modify (fun p => Pipeline n (unet p) (text_encoder p) (text_encoder_2 p)
                     (_lora_scale p) (warnings p)).

(** [LoraLoaderMixin.fuse_lora], lines 852-921. With the PEFT backend the
    inner function [fuse_text_encoder_lora] is never bound. *)
Definition fuse_lora (fuse_unet fuse_text_encoder : bool)
    (lora_scale : float) (safe_fusing : bool) : M pipeline unit :=
  (if fuse_unet || fuse_text_encoder then
     n <- gets num_fused_loras ;;
     set_num_fused_loras (n + 1) ;;;
     n <- gets num_fused_loras ;;
     if 1 <? n then
       logger_warn "The current API is supported for operating with a single LoRA file. You are trying to load and fuse more than one LoRA which is not well-supported."
     else ret tt
   else ret tt) ;;;
  (if fuse_unet then on_unet (unet_fuse_lora lora_scale safe_fusing)
   else ret tt) ;;;
  (if USE_PPPEFT_BACKEND then ret tt
   else if version_gt_0_23
        then deprecate "fuse_text_encoder_lora" "0.25" LORA_DEPRECATION_MESSAGE
        else ret tt) ;;;
  let fuse_text_encoder_lora : M text_encoder_t unit :=
    if USE_PPPEFT_BACKEND
    then throw NameError "fuse_text_encoder_lora"
    else each_patched_projection (_fuse_lora lora_scale safe_fusing) in
  if fuse_text_encoder then
    if_has_text_encoder fuse_text_encoder_lora ;;;
    if_has_text_encoder_2 fuse_text_encoder_lora
  else ret tt.

(** [LoraLoaderMixin.unfuse_lora], lines 923-983. *)
Definition unfuse_lora (unfuse_unet unfuse_text_encoder : bool) : M pipeline unit :=
  (if unfuse_unet then
     if negb USE_PPPEFT_BACKEND then on_unet unet_unfuse_lora else ret tt
   else ret tt) ;;;
  (if USE_PPPEFT_BACKEND then ret tt
   else if version_gt_0_23
        then deprecate "unfuse_text_encoder_lora" "0.25" LORA_DEPRECATION_MESSAGE
        else ret tt) ;;;
  let unfuse_text_encoder_lora : M text_encoder_t unit :=
    if USE_PPPEFT_BACKEND
    then throw NameError "unfuse_text_encoder_lora"
    else each_patched_projection _unfuse_lora in
  (if unfuse_text_encoder then
     if_has_text_encoder unfuse_text_encoder_lora ;;;
     if_has_text_encoder_2 unfuse_text_encoder_lora
   else ret tt) ;;;
  n <- gets num_fused_loras ;;
  set_num_fused_loras (n - 1).

(** [m] leaves the counter of fused LoRAs alone, whether it returns or
    raises. *)
Definition keeps_counter {A} (m : M pipeline A) : Prop :=
  forall p, num_fused_loras (snd (m p)) = num_fused_loras p.

End Loader.
End Lora.

(** ** [ppdiffusers/pipelines/controlnet/pipeline_controlnet_img2img.py] *)

Module ControlNetImg2Img.
Import Py.
Local Open Scope py_scope.

(** An argument annotated [Union[float, List[float]]]. *)
Inductive float_or_list :=
| Scalar (x : float)
| FList (l : list float).

Inductive prompt_arg :=
| PromptNone
| PromptStr (s : string)
| PromptList (l : list string)
| PromptOther.

(** [callback_steps]: [None], an [int], or something else. *)
Inductive callback_steps_arg :=
| CbNone
| CbInt (n : Z)
| CbOther.

(** A conditioning image as [check_image] looks at it: tensors and arrays
    by their shape. *)
#[warnings="-register-all"]
Inductive image_arg :=
| ImPIL
| ImTensor (shape : list Z)
| ImNdarray (shape : list Z)
| ImList (l : list image_arg)
| ImOther.

(** [self.controlnet]: one model, several, or neither; each model with the
    [global_pool_conditions] of its config. *)
Inductive controlnet_t :=
| ControlNetModel (global_pool_conditions : bool)
| MultiControlNetModel (nets : list bool)
| OtherControlNet.

Definition is_single (c : controlnet_t) : bool :=
  match c with ControlNetModel _ => true | _ => false end.

Definition is_im_list (i : image_arg) : bool :=
  match i with ImList _ => true | _ => false end.

Definition len_Z {A} (l : list A) : Z := Z.of_nat (length l).

(** [len(t)] and [t.shape[k]] for a tensor or array of shape [sh]. *)
Definition shape_len (sh : list Z) : result Z :=
  match sh with
  | n :: _ => Ok n
  | [] => Raise (Exn TypeError "len() of a 0-D tensor")
  end.

Definition shape_at (sh : list Z) (k : nat) : result Z :=
  match nth_error sh k with
  | Some n => Ok n
  | None => Raise (Exn IndexError "list index out of range")
  end.

(** [isinstance(image, list) and isinstance(image[0], ...)], where [p]
    tests the first element. *)
Definition list_of (p : image_arg -> bool) (image : image_arg) : result bool :=
  match image with
  | ImList [] => Raise (Exn IndexError "list index out of range")
  | ImList (x :: _) => Ok (p x)
  | _ => Ok false
  end.

(** [check_image], lines 424-453. *)
Definition check_image (image : image_arg) (prompt : prompt_arg)
    (prompt_embeds : option (list Z)) : result unit :=
  let image_is_pil := match image with ImPIL => true | _ => false end in
  let image_is_tensor := match image with ImTensor _ => true | _ => false end in
  let image_is_np := match image with ImNdarray _ => true | _ => false end in
  let? image_is_pil_list :=
    list_of (fun x => match x with ImPIL => true | _ => false end) image in
  let? image_is_tensor_list :=
    list_of (fun x => match x with ImTensor _ => true | _ => false end) image in
  let? image_is_np_list :=
    list_of (fun x => match x with ImNdarray _ => true | _ => false end) image in
  if negb image_is_pil && negb image_is_tensor && negb image_is_np &&
     negb image_is_pil_list && negb image_is_tensor_list && negb image_is_np_list
  then Raise (Exn TypeError "image must be passed and be one of PIL image, numpy array, paddle tensor, list of PIL images, list of numpy arrays or list of paddle tensors")
  else
    let? image_batch_size :=
      match image with
      | ImPIL => Ok 1
      | ImTensor sh | ImNdarray sh => shape_len sh
      | ImList l => Ok (len_Z l)
      | ImOther => Raise (Exn TypeError "object has no len()")
      end in
    (* [prompt_batch_size] stays unbound when neither input is given *)
    let prompt_batch_size : result Z :=
      match prompt with
      | PromptStr _ => Ok 1
      | PromptList l => Ok (len_Z l)
      | _ =>
          match prompt_embeds with
          | Some sh => shape_at sh 0
          | None => Raise (Exn NameError "prompt_batch_size")
          end
      end in
    if negb (image_batch_size =? 1) then
      let? pbs := prompt_batch_size in
      if negb (image_batch_size =? pbs)
      then Raise (Exn ValueError "If image batch size is not 1, image batch size must be same as prompt batch size.")
      else Ok tt
    else
      (* the shape of [prompt_embeds] is still read when no prompt is given *)
      match prompt, prompt_embeds with
      | PromptStr _, _ | PromptList _, _ => Ok tt
      | _, Some sh => let? _ := shape_at sh 0 in Ok tt
      | _, None => Ok tt
      end.

(** The arguments of [check_inputs]. *)
Record check_args := CheckArgs {
  ca_controlnet : controlnet_t;
  ca_prompt : prompt_arg;
  ca_image : image_arg;
  ca_callback_steps : callback_steps_arg;
  ca_negative_prompt : bool;                    (* is not None *)
  ca_prompt_embeds : option (list Z);           (* its shape *)
  ca_negative_prompt_embeds : option (list Z);
  ca_controlnet_conditioning_scale : float_or_list;
  ca_control_guidance_start : list float;
  ca_control_guidance_end : list float
}.

Fixpoint check_images (l : list image_arg) (prompt : prompt_arg)
    (prompt_embeds : option (list Z)) : result unit :=
  match l with
  | [] => Ok tt
  | x :: l' =>
      let? _ := check_image x prompt prompt_embeds in
      check_images l' prompt prompt_embeds
  end.

(** [check_inputs], lines 332-402: everything before the control guidance
    is looked at. (The warning of lines 359-363 is only logged.) *)
Definition check_inputs_head (a : check_args) : result unit :=
  let? _ :=
    match ca_callback_steps a with
    | CbInt n =>
        if n <=? 0
        then Raise (Exn ValueError "`callback_steps` has to be a positive integer")
        else Ok tt
    | _ => Raise (Exn ValueError "`callback_steps` has to be a positive integer")
    end in
  let? _ :=
    match ca_prompt a, ca_prompt_embeds a with
    | (PromptStr _ | PromptList _ | PromptOther), Some _ =>
        Raise (Exn ValueError "Cannot forward both `prompt` and `prompt_embeds`.")
    | PromptNone, None =>
        Raise (Exn ValueError "Provide either `prompt` or `prompt_embeds`.")
    | PromptOther, None =>
        Raise (Exn ValueError "`prompt` has to be of type `str` or `list`")
    | _, _ => Ok tt
    end in
  let? _ :=
    match ca_negative_prompt a, ca_negative_prompt_embeds a with
    | true, Some _ =>
        Raise (Exn ValueError "Cannot forward both `negative_prompt` and `negative_prompt_embeds`.")
    | _, _ => Ok tt
    end in
  let? _ :=
    match ca_prompt_embeds a, ca_negative_prompt_embeds a with
    | Some sh, Some nsh =>
        if negb (bool_decide (sh = nsh))
        then Raise (Exn ValueError "`prompt_embeds` and `negative_prompt_embeds` must have the same shape when passed directly")
        else Ok tt
    | _, _ => Ok tt
    end in
  let? _ :=
    match ca_controlnet a with
    | ControlNetModel _ =>
        check_image (ca_image a) (ca_prompt a) (ca_prompt_embeds a)
    | MultiControlNetModel nets =>
        match ca_image a with
        | ImList l =>
            if existsb is_im_list l
            then Raise (Exn ValueError "A single batch of multiple conditionings are supported at the moment.")
            else if negb (len_Z l =? len_Z nets)
            then Raise (Exn ValueError "For multiple controlnets: `image` must have the same length as the number of controlnets")
            else check_images l (ca_prompt a) (ca_prompt_embeds a)
        | _ => Raise (Exn TypeError "For multiple controlnets: `image` must be type `list`")
        end
    | OtherControlNet => Raise (Exn AssertionError "")
    end in
  match ca_controlnet a with
  | ControlNetModel _ =>
      match ca_controlnet_conditioning_scale a with
      | Scalar _ => Ok tt
      | FList _ =>
          Raise (Exn TypeError "For single controlnet: `controlnet_conditioning_scale` must be type `float`.")
      end
  | MultiControlNetModel nets =>
      (* the elements of a [List[float]] are no lists, and the [elif] that
         compares the length repeats the test of the [if]: neither raises *)
      Ok tt
  | OtherControlNet => Raise (Exn AssertionError "")
  end.

(** The loop of lines 412-422 over [zip(start, end)]. *)
Fixpoint check_guidance_pairs (l : list (float * float)) : result unit :=
  match l with
  | [] => Ok tt
  | (start, end_) :: l' =>
      if PyFloat.geb start end_
      then Raise (Exn ValueError "control guidance start cannot be larger or equal to control guidance end")
      else if PrimFloat.ltb start 0
      then Raise (Exn ValueError "control guidance start can't be smaller than 0.")
      else if PyFloat.gtb end_ 1
      then Raise (Exn ValueError "control guidance end can't be larger than 1.0.")
      else check_guidance_pairs l'
  end.

(** [check_inputs], lines 403-422. *)
Definition check_control_guidance (a : check_args) : result unit :=
  let control_guidance_start := ca_control_guidance_start a in
  let control_guidance_end := ca_control_guidance_end a in
  if negb (len_Z control_guidance_start =? len_Z control_guidance_end)
  then Raise (Exn ValueError "`control_guidance_start` and `control_guidance_end` must have the same number of elements.")
  else
    let? _ :=
      match ca_controlnet a with
      | MultiControlNetModel nets =>
          if negb (len_Z control_guidance_start =? len_Z nets)
          then Raise (Exn ValueError "`control_guidance_start` must have as many elements as there are controlnets.")
          else Ok tt
      | _ => Ok tt
      end in
    check_guidance_pairs (combine control_guidance_start control_guidance_end).

(** [check_inputs], lines 322-422. *)
Definition check_inputs (a : check_args) : result unit :=
  let? _ := check_inputs_head a in
  check_control_guidance a.

(** [__call__], lines 665-681: a float, or a list of floats, for each of
    the two ends of the guidance window; made into two lists. *)
Definition normalize_control_guidance (controlnet : controlnet_t)
    (control_guidance_start control_guidance_end : float_or_list)
  : list float * list float :=
  match control_guidance_start, control_guidance_end with
  | Scalar s, FList e => (repeat s (length e), e)
  | FList s, Scalar e => (s, repeat e (length s))
  | Scalar s, Scalar e =>
      let mult := match controlnet with
                  | MultiControlNetModel nets => length nets
                  | _ => 1%nat
                  end in
      (repeat s mult, repeat e mult)
  | FList s, FList e => (s, e)
  end.

(** [__call__], lines 695-698. *)
Definition normalize_conditioning_scale (controlnet : controlnet_t)
    (controlnet_conditioning_scale : float_or_list) : float_or_list :=
  match controlnet, controlnet_conditioning_scale with
  | MultiControlNetModel nets, Scalar c => FList (repeat c (length nets))
  | _, c => c
  end.

(** [do_classifier_free_guidance], line 692. *)
Definition do_classifier_free_guidance (guidance_scale : float) : bool :=
  PyFloat.gtb guidance_scale 1.

(** The list comprehension of lines 752-756, for step [i] of [n]. *)
Definition keeps (i n : Z) (control_guidance : list (float * float))
  : result (list float) :=
  rmap (fun se : float * float =>
          let (s, e) := se in
          let? x := PyFloat.int_truediv i n in
          if PrimFloat.ltb x s then Ok (1 - PyFloat.of_bool true)%float
          else
            let? y := PyFloat.int_truediv (i + 1) n in
            Ok (1 - PyFloat.of_bool (PyFloat.gtb y e))%float)
       control_guidance.


(** [cond_scale], lines 775-781. *)
Definition cond_scale (controlnet_conditioning_scale keep : float_or_list)
  : result float_or_list :=
  match keep with
  | FList ks =>
      match controlnet_conditioning_scale with
      | FList cs =>
          Ok (FList (map (fun cs : float * float => (fst cs * snd cs)%float)
                       (combine cs ks)))
      | Scalar _ => Raise (Exn TypeError "'float' object is not iterable")
      end
  | Scalar k =>
      match controlnet_conditioning_scale with
      | Scalar c => Ok (Scalar (c * k)%float)
      | FList _ =>
          Raise (Exn TypeError "can't multiply sequence by non-int of type 'float'")
      end
  end.


(** A pair [(start, end)] that [check_inputs] must refuse. *)
Definition bad_window (start end_ : float) : bool :=
  PyFloat.geb start end_ || PrimFloat.ltb start 0 || PyFloat.gtb end_ 1.

(** The step that spans the fractions [x = i/N] to [y = (i+1)/N] of the
    run lies in the window from [s] to [e]: it does not begin before [s]
    and has not passed [e]. *)
Definition in_window (x y s e : float) : bool :=
  negb (PrimFloat.ltb x s) && negb (PyFloat.gtb y e).

(** The keep factor of a step: 1.0 in the window, 0.0 outside. *)
Definition keep_factor (x y : float) (se : float * float) : float :=
  if in_window x y (fst se) (snd se) then 1%float else 0%float.

(** [i / n] as the float it is when the division returns. *)
Definition fraction (i n : Z) : float :=
  match PyFloat.int_truediv i n with
  | Ok x => x
  | Raise _ => PrimFloat.nan
  end.


Definition is_scalar (v : float_or_list) : bool :=
  match v with Scalar _ => true | FList _ => false end.

Section Sampling.
(** Objects of the tensor framework, the models and the scheduler. *)
Context {Tensor Timestep Generator Dtype StepKwargs AttnKwargs Ext : Type}.

Inductive tensor_or_list :=
| OneTensor (t : Tensor)
| TensorList (l : list Tensor).

(** [generator]: [None], one generator, or a list of them. *)
Inductive generator_arg :=
| GenNone
| GenOne (g : Generator)
| GenList (l : list Generator).

(** The [image] handed to [prepare_latents]. *)
Inductive latent_image :=
| LTensor (t : Tensor)
| LPIL
| LList
| LOther.

(** A call into a model, the scheduler or the random generator, with what
    it returned. *)
Inductive event :=
| EvScaleModelInput (sample : Tensor) (t : Timestep) (out : Tensor)
| EvControlNet (sample : Tensor) (t : Timestep) (encoder_hidden_states : Tensor)
    (controlnet_cond : tensor_or_list) (conditioning_scale : float_or_list)
    (guess_mode : bool) (out : list Tensor * Tensor)
| EvUNet (sample : Tensor) (t : Timestep) (encoder_hidden_states : Tensor)
    (cross_attention_kwargs : AttnKwargs)
    (down_block_additional_residuals : list Tensor)
    (mid_block_additional_residual : Tensor) (out : Tensor)
| EvSchedulerStep (model_output : Tensor) (t : Timestep) (sample : Tensor)
    (kwargs : StepKwargs) (out : Tensor)
| EvVaeEncodeSample (x : Tensor) (g : option Generator) (out : Tensor)
| EvRandn (shape : list Z) (g : generator_arg) (dtype : Dtype) (out : Tensor)
| EvAddNoise (original : Tensor) (noise : Tensor) (t : Tensor) (out : Tensor)
| EvProgressBarUpdate
| EvCallback (i : Z) (t : Timestep) (latents : Tensor).

Record world := World {
  timesteps_of_scheduler : list Timestep;   (* [self.scheduler.timesteps] *)
  ext : Ext;               (* what the models, scheduler and generators hide *)
  trace : list event;
  warnings : list string
}.

(** What the pipeline calls: the tensor library (pure), and the models and
    the scheduler (on their hidden state; any of them may raise). *)
Class Env := {
  shape : Tensor -> list Z;
  cast : Tensor -> Dtype -> Tensor;
  concat : list Tensor -> Tensor;             (* [paddle.concat(x=..., axis=0)] *)
  chunk : Tensor -> nat -> list Tensor;       (* [t.chunk(chunks=n)] *)
  zeros_like : Tensor -> Tensor;
  tadd : Tensor -> Tensor -> Tensor;
  tsub : Tensor -> Tensor -> Tensor;
  smul : float -> Tensor -> Tensor;
  row_slice : Tensor -> Z -> Z -> Tensor;     (* [t[i:j]] *)
  scheduler_order : positive;                 (* [self.scheduler.order] *)
  vae_scaling_factor : float;                 (* [self.vae.config.scaling_factor] *)
  vae_encode_sample : Tensor -> option Generator -> Ext -> result Tensor * Ext;
  randn_tensor : list Z -> generator_arg -> Dtype -> Ext -> result Tensor * Ext;
  scheduler_add_noise : Tensor -> Tensor -> Tensor -> Ext -> result Tensor * Ext;
  scheduler_scale_model_input : Tensor -> Timestep -> Ext -> result Tensor * Ext;
  scheduler_step :
    Tensor -> Timestep -> Tensor -> StepKwargs -> Ext -> result Tensor * Ext;
  controlnet_forward :
    Tensor -> Timestep -> Tensor -> tensor_or_list -> float_or_list -> bool ->
    Ext -> result (list Tensor * Tensor) * Ext;
  unet_forward :
    Tensor -> Timestep -> Tensor -> AttnKwargs -> list Tensor -> Tensor ->
    Ext -> result Tensor * Ext;
  callback_fn : Z -> Timestep -> Tensor -> Ext -> result unit * Ext
}.

Context `{Env}.

(** Make an external call and, when it returns, log it. *)
Definition call {A} (f : Ext -> result A * Ext) (ev : A -> event) : M world A :=
  fun w =>
    let (r, x') := f (ext w) in
    match r with
    | Ok a => (Ok a, World (timesteps_of_scheduler w) x' (trace w ++ [ev a]) (warnings w))
    | Raise e => (Raise e, World (timesteps_of_scheduler w) x' (trace w) (warnings w))
    end.

Definition emit (ev : event) : M world unit :=
  modify (fun w => World (timesteps_of_scheduler w) (ext w) (trace w ++ [ev]) (warnings w)).

(** Modelled from the spec: [deprecate] of [ppdiffusers.utils] is not part
    of the sources at hand; by the specification a deprecation path emits a
    warning and execution continues. *)
Definition deprecate (name version message : string) : M world unit :=
  modify (fun w => World (timesteps_of_scheduler w) (ext w) (trace w)
                     (warnings w ++ [message])).

(** [get_timesteps], lines 477-482. *)
Definition get_timesteps (num_inference_steps : Z) (strength : float)
  : M world (list Timestep * Z) :=
  p <- lift (PyFloat.int_mul num_inference_steps strength) ;;
  k <- lift (PyFloat.to_int p) ;;
  let init_timestep := Z.min k num_inference_steps in
  let t_start := Z.max (num_inference_steps - init_timestep) 0 in
  ts <- gets timesteps_of_scheduler ;;
  let timesteps := slice_from ts (t_start * Zpos scheduler_order) in
  ret (timesteps, num_inference_steps - t_start).

(** The list comprehension of lines 505-508: one image and one generator
    at a time, [generator[i]] for [i] in [range(batch_size)]. *)
Fixpoint encode_each (image : Tensor) (i : Z) (gs : list Generator)
  : M world (list Tensor) :=
  match gs with
  | [] => ret []
  | g :: gs' =>
      x <- call (vae_encode_sample (row_slice image i (i + 1)) (Some g))
             (EvVaeEncodeSample (row_slice image i (i + 1)) (Some g)) ;;
      xs <- encode_each image (i + 1) gs' ;;
      ret (x :: xs)
  end.

(** [prepare_latents], lines 491-513: the initial latents, the image itself
    when it has four channels, its VAE encoding otherwise. *)
Definition encode_init_latents (image : latent_image) (batch_size : Z)
    (dtype : Dtype) (generator : generator_arg) : M world Tensor :=
  image <- match image with
           | LTensor t => ret (cast t dtype)
           | LPIL | LList => throw AttributeError "cast"
           | LOther =>
               throw ValueError "`image` has to be of type `paddle.Tensor`, `PIL.Image.Image` or list"
           end ;;
  channels <- lift (shape_at (shape image) 1) ;;
  if channels =? 4 then ret image
  else
    init_latents <-
      match generator with
      | GenList gs =>
          if negb (len_Z gs =? batch_size) then
            throw ValueError "You have passed a list of generators whose length does not match the requested effective batch size."
          else
            xs <- encode_each image 0 gs ;;
            ret (concat xs)
      | GenOne g =>
          call (vae_encode_sample image (Some g)) (EvVaeEncodeSample image (Some g))
      | GenNone =>
          call (vae_encode_sample image None) (EvVaeEncodeSample image None)
      end ;;
    ret (smul vae_scaling_factor init_latents).

Definition DUPLICATION_DEPRECATION_MESSAGE : string :=
  "You have passed more text prompts (`prompt`) than initial images (`image`). Initial images are now duplicating to match the number of text prompts. Note that this behavior is deprecated and will be removed in a version 1.0.0. Please make sure to update your script to pass as many initial images as text prompts to suppress this warning.".

(** [prepare_latents], lines 514-533: the initial latents against the
    effective batch size. *)
Definition match_batch_size (batch_size : Z) (init_latents : Tensor)
  : M world Tensor :=
  n <- lift (shape_at (shape init_latents) 0) ;;
  if n <? batch_size then
    r <- lift (modulo batch_size n) ;;
    if r =? 0 then
      deprecate "len(prompt) != len(image)" "1.0.0"
        DUPLICATION_DEPRECATION_MESSAGE ;;;
      additional_image_per_prompt <- lift (floordiv batch_size n) ;;
      ret (concat (repeat init_latents (Z.to_nat additional_image_per_prompt)))
    else
      throw ValueError "Cannot duplicate `image` to the requested number of text prompts."
  else ret (concat [init_latents]).

(** [prepare_latents], lines 534-538: noise is added for the first
    timestep. *)
Definition add_initial_noise (init_latents timestep : Tensor) (dtype : Dtype)
    (generator : generator_arg) : M world Tensor :=
  let shape_ := shape init_latents in
  noise <- call (randn_tensor shape_ generator dtype) (EvRandn shape_ generator dtype) ;;
  latents <- call (scheduler_add_noise init_latents noise timestep)
               (EvAddNoise init_latents noise timestep) ;;
  ret latents.

(** [prepare_latents], lines 484-538. *)
Definition prepare_latents (image : latent_image) (timestep : Tensor)
    (batch_size num_images_per_prompt : Z) (dtype : Dtype)
    (generator : generator_arg) : M world Tensor :=
  let batch_size := batch_size * num_images_per_prompt in
  init_latents <- encode_init_latents image batch_size dtype generator ;;
  init_latents <- match_batch_size batch_size init_latents ;;
  add_initial_noise init_latents timestep dtype generator.

(** What the denoising loop reads and does not change. *)
Record loop_args := LoopArgs {
  la_controlnet : controlnet_t;
  la_guidance_scale : float;
  la_guess_mode : bool;
  la_prompt_embeds : Tensor;
  la_control_image : tensor_or_list;
  la_controlnet_conditioning_scale : float_or_list;
  la_controlnet_keep : list float_or_list;
  la_cross_attention_kwargs : AttnKwargs;
  la_extra_step_kwargs : StepKwargs;
  la_timesteps : list Timestep;
  la_num_inference_steps : Z;
  la_callback : bool;                         (* is not None *)
  la_callback_steps : Z
}.

(** [l[i]] on a list. *)
Definition list_item {A} (l : list A) (i : nat) : result A :=
  match nth_error l i with
  | Some a => Ok a
  | None => Raise (Exn IndexError "list index out of range")
  end.

(** [a, b = l] *)
Definition unpack2 {A} (l : list A) : result (A * A) :=
  match l with
  | [a; b] => Ok (a, b)
  | _ => Raise (Exn ValueError "wrong number of values to unpack")
  end.

(** One iteration of the denoising loop, lines 763-822, at index [i] and
    timestep [t]: from the current latents to the next ones. *)
Definition denoise_step (a : loop_args) (i : nat) (t : Timestep)
    (latents : Tensor) : M world Tensor :=
  let do_cfg := do_classifier_free_guidance (la_guidance_scale a) in
  let guess_mode := la_guess_mode a in
  let prompt_embeds := la_prompt_embeds a in
  let latent_model_input :=
    if do_cfg then concat [latents; latents] else latents in
  latent_model_input <-
    call (scheduler_scale_model_input latent_model_input t)
         (EvScaleModelInput latent_model_input t) ;;
  ci <- (if guess_mode && do_cfg then
           control_model_input <-
             call (scheduler_scale_model_input latents t)
                  (EvScaleModelInput latents t) ;;
           controlnet_prompt_embeds <- lift (list_item (chunk prompt_embeds 2) 1) ;;
           ret (control_model_input, controlnet_prompt_embeds)
         else ret (latent_model_input, prompt_embeds)) ;;
  let control_model_input := fst ci in
  let controlnet_prompt_embeds := snd ci in
  keep <- lift (list_item (la_controlnet_keep a) i) ;;
  cond_scale <- lift (cond_scale (la_controlnet_conditioning_scale a) keep) ;;
  res <- call (controlnet_forward control_model_input t controlnet_prompt_embeds
                 (la_control_image a) cond_scale guess_mode)
              (EvControlNet control_model_input t controlnet_prompt_embeds
                 (la_control_image a) cond_scale guess_mode) ;;
  let down_block_res_samples :=
    if guess_mode && do_cfg
    then map (fun d => concat [zeros_like d; d]) (fst res) else fst res in
  let mid_block_res_sample :=
    if guess_mode && do_cfg
    then concat [zeros_like (snd res); snd res] else snd res in
  noise_pred <-
    call (unet_forward latent_model_input t prompt_embeds
            (la_cross_attention_kwargs a) down_block_res_samples mid_block_res_sample)
         (EvUNet latent_model_input t prompt_embeds
            (la_cross_attention_kwargs a) down_block_res_samples mid_block_res_sample) ;;
  noise_pred <-
    (if do_cfg then
       ut <- lift (unpack2 (chunk noise_pred 2)) ;;
       let noise_pred_uncond := fst ut in
       let noise_pred_text := snd ut in
       ret (tadd noise_pred_uncond
              (smul (la_guidance_scale a) (tsub noise_pred_text noise_pred_uncond)))
     else ret noise_pred) ;;
  latents <- call (scheduler_step noise_pred t latents (la_extra_step_kwargs a))
               (EvSchedulerStep noise_pred t latents (la_extra_step_kwargs a)) ;;
  let n := len_Z (la_timesteps a) in
  let num_warmup_steps :=
    n - la_num_inference_steps a * Zpos scheduler_order in
  let i := Z.of_nat i in
  (if (i =? n - 1) ||
      ((num_warmup_steps <? i + 1) && ((i + 1) mod Zpos scheduler_order =? 0))
   then
     emit EvProgressBarUpdate ;;;
     if la_callback a then
       r <- lift (modulo i (la_callback_steps a)) ;;
       if r =? 0 then call (callback_fn i t latents) (fun _ => EvCallback i t latents)
       else ret tt
     else ret tt
   else ret tt) ;;;
  ret latents.

(** [for i, t in enumerate(timesteps)], lines 762-822, from index [i]. *)
Fixpoint denoising_loop (a : loop_args) (i : nat) (ts : list Timestep)
    (latents : Tensor) : M world Tensor :=
  match ts with
  | [] => ret latents
  | t :: ts' =>
      latents <- denoise_step a i t latents ;;
      denoising_loop a (S i) ts' latents
  end.

(** The calls that the specification orders: ControlNet, UNet, scheduler
    step. *)
Definition is_model_call (ev : event) : bool :=
  match ev with
  | EvControlNet _ _ _ _ _ _ _ | EvUNet _ _ _ _ _ _ _
  | EvSchedulerStep _ _ _ _ _ => true
  | _ => false
  end.

(** The state with one more warning. *)
Definition warned (w : world) (message : string) : world :=
  World (timesteps_of_scheduler w) (ext w) (trace w) (warnings w ++ [message]).

End Sampling.
End ControlNetImg2Img.

(** ** More of Python: what a computation leaves alone *)

Module PyFrame.
Import Py.

(** [m] leaves the part [f] of the state as it is, whether it returns or
    raises. *)
Definition keeps {S A B} (f : S -> B) (m : M S A) : Prop :=
  forall s, f (snd (m s)) = f s.

(** The same for the states whose part [f] satisfies [Q]. *)
Definition keeps_when {S A B} (Q : B -> Prop) (f : S -> B) (m : M S A) : Prop :=
  forall s, Q (f s) -> f (snd (m s)) = f s.

End PyFrame.

(** ** More of Python: methods of [str] *)

Module PyStr.
Import Py.

(** [s.replace(old, new)] for a non-empty [old]: the occurrences of [old]
    are found from left to right and do not overlap; [skip] counts the
    characters of an occurrence still to be dropped. *)
Fixpoint replace_from (old new : string) (skip : nat) (s : string) : string :=
  match s with
  | EmptyString => EmptyString
  | String c s' =>
      match skip with
      | S k => replace_from old new k s'
      | O =>
          if startswith old s
          then (new ++ replace_from old new (String.length old - 1) s')%string
          else String c (replace_from old new 0 s')
      end
  end.

(** [s.replace("", new)]: [new] before every character and at the end. *)
Fixpoint intersperse (new s : string) : string :=
  match s with
  | EmptyString => new
  | String c s' => (new ++ String c (intersperse new s'))%string
  end.

Definition replace (old new s : string) : string :=
  match old with
  | EmptyString => intersperse new s
  | String _ _ => replace_from old new 0 s
  end.

(** [s.split(sep)[0]] for a non-empty [sep]: what comes before the first
    occurrence of [sep], all of [s] when there is none. *)
Fixpoint first_field (sep s : string) : string :=
  match s with
  | EmptyString => EmptyString
  | String c s' =>
      if startswith sep s then EmptyString else String c (first_field sep s')
  end.

(** [s.lower()] on ASCII text (Python lowers the letters beyond ASCII as
    well; none of them becomes an ASCII letter of the words this file
    looks for). *)
Definition lower_char (c : Ascii.ascii) : Ascii.ascii :=
  let n := Ascii.nat_of_ascii c in
  if (65 <=? n)%nat && (n <=? 90)%nat then Ascii.ascii_of_nat (n + 32) else c.

Fixpoint lower (s : string) : string :=
  match s with
  | EmptyString => EmptyString
  | String c s' => String (lower_char c) (lower s')
  end.

(** [os.path.join(a, b)] on POSIX. *)
Definition path_join (a b : string) : string :=
  if startswith "/" b then b
  else if String.eqb a "" || endswith "/" a then (a ++ b)%string
  else (a ++ "/" ++ b)%string.

(** What follows the prefix [p] in [s], when [s] starts with it. *)
Fixpoint after_prefix (p s : string) : option string :=
  match p, s with
  | EmptyString, _ => Some s
  | String a p', String b s' => if Ascii.eqb a b then after_prefix p' s' else None
  | String _ _, EmptyString => None
  end.

(** [x in l] for a [str] and a list of them. *)
Definition in_list (x : string) (l : list string) : bool :=
  existsb (String.eqb x) l.

End PyStr.

(** ** More of Python: a [dict] with its order *)

Module PyDict.
Import Py.

(** A [dict] keeps its entries in the order of insertion and holds no key
    twice. *)
Definition odict (V : Type) : Type := list (string * V).

Definition keys {V} (d : odict V) : list string := map fst d.

(** [d.get(k)] *)
Fixpoint get {V} (d : odict V) (k : string) : option V :=
  match d with
  | [] => None
  | (k', v) :: d' => if String.eqb k' k then Some v else get d' k
  end.

(** [d[k] = v]: a key that is there keeps its place. *)
Fixpoint set {V} (d : odict V) (k : string) (v : V) : odict V :=
  match d with
  | [] => [(k, v)]
  | (k', v') :: d' =>
      if String.eqb k' k then (k', v) :: d' else (k', v') :: set d' k v
  end.

(** [d.update(d2)] *)
Definition update {V} (d d2 : odict V) : odict V :=
  fold_left (fun acc kv => set acc (fst kv) (snd kv)) d2 d.

(** [{f(k): v for k, v in d.items() if p(k)}] *)
Definition comprehension {V} (p : string -> bool) (f : string -> string)
    (d : odict V) : odict V :=
  fold_left (fun acc kv => if p (fst kv) then set acc (f (fst kv)) (snd kv) else acc)
    d [].

(** [d.pop(k, None)] *)
Definition pop {V} (d : odict V) (k : string) : option V * odict V :=
  (get d k, List.filter (fun kv => negb (String.eqb (fst kv) k)) d).

(** [d[k]] *)
Definition getitem {V} (d : odict V) (k : string) : result V :=
  match get d k with
  | Some v => Ok v
  | None => Raise (Exn KeyError k)
  end.

(** What holds of every [dict]: no key twice. *)
Definition wf {V} (d : odict V) : Prop := NoDup (keys d).

End PyDict.

(** ** [lora.py]: weight files, and the state dict on its way to the UNet *)

Module LoraIO.
Import Py PyStr PyDict.
Local Open Scope py_scope.

Section Files.
(** Objects of the tensor framework, a [save_function] of the caller, and
    what is hidden from this file: the file system, the hub, the UNet. *)
Context {Tensor Layer SaveFunction Ext : Type}.

(** An argument annotated [Union[nn.Layer, Dict[str, paddle.Tensor]]]. *)
Inductive layers_arg :=
| LayersModule (m : Layer)
| LayersDict (d : odict Tensor).

(** The function that [write_lora_layers] ends up calling. *)
Inductive saver :=
| TorchSafeSaveFilePt      (* [partial(torch_safe_save_file, metadata={"format": "pt"})] *)
| NumpySafeSaveFilePt      (* [partial(np_safe_save_file, metadata={"format": "pt"})] *)
| TorchSave                (* [torch.save] *)
| NumpySafeSaveFilePd      (* [partial(np_safe_save_file, metadata={"format": "pd"})] *)
| PaddleSave               (* [paddle.save] *)
| UserSaveFunction (f : SaveFunction).

Inductive level := LInfo | LWarning | LError.

(** A call that leaves this file, with its arguments. *)
Inductive event :=
| EvLoadAttnProcs (state_dict : odict Tensor) (network_alphas : option (odict float))
    (low_cpu_mem_usage from_diffusers : bool)
| EvMakedirs (path : string)
| EvSave (f : saver) (state_dict : odict Tensor) (path : string).

Record world := World {
  ext : Ext;
  trace : list event;
  log : list (level * string)
}.

Class Env := {
  FROM_DIFFUSERS : bool;
  TO_DIFFUSERS : bool;
  LOW_CPU_MEM_USAGE_DEFAULT : bool;
  is_torch_available : bool;
  is_safetensors_available : bool;
  (* [unet.load_attn_procs(state_dict, network_alphas=..., low_cpu_mem_usage=...,
     _pipeline=..., from_diffusers=...)] *)
  unet_load_attn_procs :
    odict Tensor -> option (odict float) -> bool -> bool -> Ext -> result unit * Ext;
  layer_state_dict : Layer -> result (odict Tensor);        (* [layers.state_dict()] *)
  layer_bool : Layer -> bool;                               (* [bool(layers)] *)
  (* changes the dict it is given in place; here it returns the new content *)
  convert_paddle_state_dict_to_pytorch :
    Layer -> odict Tensor -> result (odict Tensor);
  os_path_isfile : string -> Ext -> bool;
  os_path_isdir : string -> Ext -> bool;
  os_listdir : string -> Ext -> result (list string);
  (* [[f.rfilename for f in model_info(repo).siblings]] *)
  model_info_siblings : string -> Ext -> result (list string);
  os_makedirs : string -> Ext -> result unit * Ext;         (* [exist_ok=True] *)
  run_saver : saver -> odict Tensor -> string -> Ext -> result unit * Ext
}.

Context `{Env}.

Definition logger (l : level) (msg : string) : M world unit :=
  modify (fun w => World (ext w) (trace w) (log w ++ [(l, msg)])).

(** Make an external call and, when it returns, record it. *)
Definition call {A} (f : Ext -> result A * Ext) (ev : event) : M world A :=
  fun w =>
    let (r, x') := f (ext w) in
    match r with
    | Ok a => (Ok a, World x' (trace w ++ [ev]) (log w))
    | Raise e => (Raise e, World x' (trace w) (log w))
    end.

Definition OLD_FORMAT_WARNING : string :=
  "You have saved the LoRA weights using the old format. To convert the old LoRA weights to the new format, you can first load them in a dictionary and then create a new dictionary like the following: `new_state_dict = {f'unet.{module_name}': params for module_name, params in old_state_dict.items()}`.".

(** The keys that start with [prefix], with every [prefix + "."] in them
    removed: the two dict comprehensions of lines 432-439. *)
Definition select_and_strip {V} (prefix : string) (d : odict V) : odict V :=
  let selected := List.filter (startswith prefix) (keys d) in
  comprehension (fun k => in_list k selected) (replace (prefix ++ ".") "") d.

(** [LoraLoaderMixin.load_lora_into_unet], lines 389-453. *)
Definition load_lora_into_unet (state_dict : odict Tensor)
    (network_alphas : option (odict float)) (low_cpu_mem_usage : option bool)
    (adapter_name : option string) (from_diffusers : option bool) : M world unit :=
  let from_diffusers := default FROM_DIFFUSERS from_diffusers in
  let low_cpu_mem_usage := default LOW_CPU_MEM_USAGE_DEFAULT low_cpu_mem_usage in
  let keys_ := keys state_dict in
  r <- (if forallb (fun key => startswith "unet" key || startswith "text_encoder" key)
             keys_
        then
          logger LInfo "Loading unet." ;;;
          ret (select_and_strip "unet" state_dict,
               option_map (select_and_strip "unet") network_alphas)
        else
          logger LWarning OLD_FORMAT_WARNING ;;;
          ret (state_dict, network_alphas)) ;;
  call (unet_load_attn_procs (fst r) (snd r) low_cpu_mem_usage from_diffusers)
       (EvLoadAttnProcs (fst r) (snd r) low_cpu_mem_usage from_diffusers).

(** [pack_weights], lines 1341-1346; the same code stands twice in lines
    724-745, with the prefix from [cls.unet_name], [cls.text_encoder_name]. *)
Definition pack_weights (to_diffusers : bool) (layers : layers_arg) (prefix : string)
  : result (odict Tensor) :=
  let? layers_weights :=
    match layers with
    | LayersModule m =>
        let? weights := layer_state_dict m in
        if to_diffusers then convert_paddle_state_dict_to_pytorch m weights
        else Ok weights
    | LayersDict d => Ok d
    end in
  Ok (comprehension (fun _ => true) (fun module_name => prefix ++ "." ++ module_name)%string
        layers_weights).

(** The name [write_lora_layers] gives the file when it is told none,
    lines 776-786. *)
Definition default_weight_name (to_diffusers safe_serialization : bool) : string :=
  if to_diffusers then
    if safe_serialization then Lora.TORCH_LORA_WEIGHT_NAME_SAFE
    else Lora.TORCH_LORA_WEIGHT_NAME
  else
    if safe_serialization then Lora.PADDLE_LORA_WEIGHT_NAME_SAFE
    else Lora.PADDLE_LORA_WEIGHT_NAME.

(** The choice of the save function, lines 794-814. The safetensors
    writers are only imported when the package is there. *)
Definition choose_save_function (to_diffusers safe_serialization : bool)
  : M world saver :=
  if to_diffusers then
    safe_serialization <-
      (if negb is_torch_available && negb safe_serialization then
         logger LWarning "PyTorch is not installed, and `safe_serialization` is currently set to `False`. To ensure proper model saving, we will automatically set `safe_serialization=True`. If you want to keep `safe_serialization=False`, please make sure PyTorch is installed." ;;;
         ret true
       else ret safe_serialization) ;;
    if safe_serialization then
      if is_torch_available then
        if is_safetensors_available then ret TorchSafeSaveFilePt
        else throw NameError "name 'torch_safe_save_file' is not defined"
      else
        if is_safetensors_available then ret NumpySafeSaveFilePt
        else throw NameError "name 'np_safe_save_file' is not defined"
    else ret TorchSave
  else
    if safe_serialization then
      if is_safetensors_available then ret NumpySafeSaveFilePd
      else throw NameError "name 'np_safe_save_file' is not defined"
    else ret PaddleSave.

(** [LoraLoaderMixin.write_lora_layers], lines 759-819. *)
Definition write_lora_layers (state_dict : odict Tensor) (save_directory : string)
    (is_main_process : bool) (weight_name : option string)
    (save_function : option SaveFunction) (safe_serialization : bool)
    (to_diffusers : option bool) : M world unit :=
  let to_diffusers := default TO_DIFFUSERS to_diffusers in
  is_file <- gets (fun w => os_path_isfile save_directory (ext w)) ;;
  if is_file then
    logger LError
      ("Provided path (" ++ save_directory ++ ") should be a directory, not a file")
  else
    call (os_makedirs save_directory) (EvMakedirs save_directory) ;;;
    let (weight_name, to_diffusers) :=
      match weight_name with
      | None => (default_weight_name to_diffusers safe_serialization, to_diffusers)
      | Some name =>
          (name,
           if str_in "paddle" (lower name) || str_in "pdparams" (lower name) then false
           else if str_in "torch" (lower name) || str_in "bin" (lower name) then true
           else to_diffusers)
      end in
    save <- match save_function with
            | Some f => ret (UserSaveFunction f)
            | None => choose_save_function to_diffusers safe_serialization
            end ;;
    let path := path_join save_directory weight_name in
    call (run_saver save state_dict path) (EvSave save state_dict path) ;;;
    logger LInfo ("Model weights saved in " ++ path).

(** [LoraLoaderMixin.save_lora_weights], lines 685-756. *)
Definition save_lora_weights (save_directory : string)
    (unet_lora_layers text_encoder_lora_layers : option layers_arg)
    (is_main_process : bool) (weight_name : option string)
    (save_function : option SaveFunction) (safe_serialization : bool)
    (to_diffusers : option bool) : M world unit :=
  let to_diffusers := default TO_DIFFUSERS to_diffusers in
  let state_dict : odict Tensor := [] in
  state_dict <-
    match unet_lora_layers with
    | Some layers =>
        unet_lora_state_dict <- lift (pack_weights to_diffusers layers "unet") ;;
        ret (update state_dict unet_lora_state_dict)
    | None => ret state_dict
    end ;;
  state_dict <-
    match text_encoder_lora_layers with
    | Some layers =>
        text_encoder_lora_state_dict <-
          lift (pack_weights to_diffusers layers "text_encoder") ;;
        ret (update state_dict text_encoder_lora_state_dict)
    | None => ret state_dict
    end ;;
  write_lora_layers state_dict save_directory is_main_process weight_name
    save_function safe_serialization (Some to_diffusers).

(** [bool(layers)] for a dict or a layer. *)
Definition truthy (layers : layers_arg) : bool :=
  match layers with
  | LayersDict d => negb (Nat.eqb (length d) 0)
  | LayersModule m => layer_bool m
  end.

(** [bool(layers)] for an argument that may be [None]. *)
Definition given (layers : option layers_arg) : bool :=
  match layers with
  | Some l => truthy l
  | None => false
  end.

(** [StableDiffusionXLLoraLoaderMixin.save_lora_weights], lines 1302-1368. *)
Definition sdxl_save_lora_weights (save_directory : string)
    (unet_lora_layers text_encoder_lora_layers text_encoder_2_lora_layers
       : option layers_arg)
    (is_main_process : bool) (weight_name : option string)
    (save_function : option SaveFunction) (safe_serialization : bool)
    (to_diffusers : option bool) : M world unit :=
  let to_diffusers := default TO_DIFFUSERS to_diffusers in
  let state_dict : odict Tensor := [] in
  if negb (given unet_lora_layers || given text_encoder_lora_layers ||
           given text_encoder_2_lora_layers)
  then throw ValueError "You must pass at least one of `unet_lora_layers`, `text_encoder_lora_layers` or `text_encoder_2_lora_layers`."
  else
    state_dict <-
      match unet_lora_layers with
      | Some layers =>
          if truthy layers then
            packed <- lift (pack_weights to_diffusers layers "unet") ;;
            ret (update state_dict packed)
          else ret state_dict
      | None => ret state_dict
      end ;;
    state_dict <-
      match text_encoder_lora_layers, text_encoder_2_lora_layers with
      | Some layers, Some layers_2 =>
          if truthy layers && truthy layers_2 then
            packed <- lift (pack_weights to_diffusers layers "text_encoder") ;;
            let state_dict := update state_dict packed in
            packed_2 <- lift (pack_weights to_diffusers layers_2 "text_encoder_2") ;;
            ret (update state_dict packed_2)
          else ret state_dict
      | _, _ => ret state_dict
      end ;;
    write_lora_layers state_dict save_directory is_main_process weight_name
      save_function safe_serialization (Some to_diffusers).

(** [LoraLoaderMixin._best_guess_weight_name], lines 338-371; it only
    reads the file system or the hub. *)
Definition _best_guess_weight_name (pretrained_model_name_or_path : string)
    (file_extension : string) (x : Ext) : result (option string) :=
  if os_path_isfile pretrained_model_name_or_path x then Ok None
  else
    let? targeted_files :=
      if os_path_isdir pretrained_model_name_or_path x then
        let? files := os_listdir pretrained_model_name_or_path x in
        Ok (List.filter (endswith file_extension) files)
      else
        let? files_in_repo := model_info_siblings pretrained_model_name_or_path x in
        Ok (List.filter (endswith file_extension) files_in_repo) in
    if Nat.eqb (length targeted_files) 0 then Ok None
    else
      let unallowed_substrings := ["scheduler"; "optimizer"; "checkpoint"] in
      let targeted_files :=
        List.filter
          (fun x => forallb (fun substring => negb (str_in substring x))
                      unallowed_substrings)
          targeted_files in
      let targeted_files :=
        if existsb (endswith Lora.TORCH_LORA_WEIGHT_NAME) targeted_files then
          List.filter (endswith Lora.TORCH_LORA_WEIGHT_NAME) targeted_files
        else if existsb (endswith Lora.TORCH_LORA_WEIGHT_NAME_SAFE) targeted_files then
          List.filter (endswith Lora.TORCH_LORA_WEIGHT_NAME_SAFE) targeted_files
        else targeted_files in
      if (1 <? length targeted_files)%nat then
        Raise (Exn ValueError "Provided path contains more than one weights file in the ")
      else
        match targeted_files with
        | weight_name :: _ => Ok (Some weight_name)
        | [] => Raise (Exn IndexError "list index out of range")
        end.

(** The entries of [d] under [prefix + "."], with that prefix taken off. *)
Fixpoint under_prefix {V} (prefix : string) (d : odict V) : odict V :=
  match d with
  | [] => []
  | (k, v) :: d' =>
      match after_prefix (prefix ++ ".") k with
      | Some name => (name, v) :: under_prefix prefix d'
      | None => under_prefix prefix d'
      end
  end.

(** In every key of [d] that starts with [prefix], [prefix + "."] occurs
    at the start and nowhere else. *)
Definition cleanly_prefixed {V} (prefix : string) (d : odict V) : Prop :=
  Forall (fun k => startswith prefix k = true ->
                   exists name, k = (prefix ++ "." ++ name)%string /\
                                str_in (prefix ++ ".") name = false)
         (keys d).

End Files.
End LoraIO.

(** ** [lora.py]: the shape of a text encoder *)

Module LoraLayout.
Import Py Lora.

Section Layout.
Context {LoraLayer Linear : Type}.

Abbreviation attn_module := (@attn_module LoraLayer Linear).
Abbreviation mlp_module := (@mlp_module LoraLayer Linear).
Abbreviation text_encoder_t := (@text_encoder_t LoraLayer Linear).

(** Which projections of a module are [PatchedLoraProjection]s. *)
Definition attn_layout (a : attn_module) : list bool :=
  map is_patched [q_proj a; k_proj a; v_proj a; out_proj a].

Definition mlp_layout (m : mlp_module) : list bool :=
  map is_patched [fc1 m; fc2 m].

(** The modules of a text encoder by name, and which of their projections
    are patched. *)
Definition layout (te : text_encoder_t)
  : list (string * list bool) * list (string * list bool) :=
  (map (fun na => (fst na, attn_layout (snd na))) (attn_modules te),
   map (fun nm => (fst nm, mlp_layout (snd nm))) (mlp_modules te)).

(** No module passes the test the file uses for "monkey-patched":
    [isinstance(attn_module.q_proj, PatchedLoraProjection)] for an attention
    module, [isinstance(mlp_module.fc1, PatchedLoraProjection)] for an MLP. *)
Definition unpatched (te : text_encoder_t) : bool :=
  forallb (fun na => negb (is_patched (q_proj (snd na)))) (attn_modules te) &&
  forallb (fun nm => negb (is_patched (fc1 (snd nm)))) (mlp_modules te).

End Layout.
End LoraLayout.

(** ** [pipeline_controlnet_img2img.py]: reading a trace of calls *)

Module ControlNetTrace.
Import Py ControlNetImg2Img.

Inductive call_kind := KControlNet | KUNet | KSchedulerStep | KOther.

Section Trace.
Context {Tensor Timestep Generator Dtype StepKwargs AttnKwargs : Type}.

Abbreviation event := (@event Tensor Timestep Generator Dtype StepKwargs AttnKwargs).

Definition kind_of (ev : event) : call_kind :=
  match ev with
  | EvControlNet _ _ _ _ _ _ _ => KControlNet
  | EvUNet _ _ _ _ _ _ _ => KUNet
  | EvSchedulerStep _ _ _ _ _ => KSchedulerStep
  | _ => KOther
  end.

(** The calls of [scheduler.step] in a trace: timestep, sample given,
    sample returned. *)
Definition scheduler_steps (tr : list event) : list (Timestep * Tensor * Tensor) :=
  flat_map (fun ev : event =>
              match ev with
              | EvSchedulerStep _ t sample _ out => [(t, sample, out)]
              | _ => []
              end) tr.

(** The timesteps at which the ControlNet was called. *)
Definition controlnet_timesteps (tr : list event) : list Timestep :=
  flat_map (fun ev : event =>
              match ev with
              | EvControlNet _ t _ _ _ _ _ => [t]
              | _ => []
              end) tr.

(** The timesteps at which the UNet was called. *)
Definition unet_timesteps (tr : list event) : list Timestep :=
  flat_map (fun ev : event =>
              match ev with
              | EvUNet _ t _ _ _ _ _ => [t]
              | _ => []
              end) tr.

(** The indices at which the callback was called. *)
Definition callback_indices (tr : list event) : list Z :=
  flat_map (fun ev : event =>
              match ev with
              | EvCallback i _ _ => [i]
              | _ => []
              end) tr.

(** Each step starts from the sample the step before it returned: the
    steps lead from [first] to [last]. *)
Fixpoint chained (first : Tensor) (steps : list (Timestep * Tensor * Tensor))
    (last : Tensor) : Prop :=
  match steps with
  | [] => first = last
  | (_, sample, out) :: rest => sample = first /\ chained out rest last
  end.

End Trace.
End ControlNetTrace.

(** ** Sample instances of the interfaces, for the examples of Part II *)

Module Samples.
Import Py.

(** A [str.format] for templates with one [{}] field and a [str] argument. *)
Fixpoint fill (template text : string) : string :=
  match template with
  | EmptyString => EmptyString
  | String c r =>
      if startswith "{}" template
      then (text ++ match r with String _ r' => r' | EmptyString => EmptyString end)%string
      else String c (fill r text)
  end.

Definition format1 (template : string) (args : list pyval) : result string :=
  match args with
  | [VStr text] => Ok (fill template text)
  | _ => Raise (Exn IndexError "Replacement index out of range")
  end.

(** An executor that hears the same sentence in every file. *)
#[export] Instance asr_env : AudioASR.Env := {|
  AudioASR.whisper_executor := fun _ => Ok {[ "text" := VStr "hello world" ]};
  AudioASR.str_format := format1
|}.

Definition asr_inputs : AudioASR.dict :=
  {[ "audio" := VStr "speech.wav"; "prompt" := VStr "Summarise: {}" ]}.

Definition asr_state : AudioASR.state :=
  AudioASR.State {[ 1%positive := asr_inputs ]} [].

(** A LoRA backend on toy models: a tensor is a number, the UNet a log of
    the methods called on it, a LoRA layer the flag "fused". No hub: only
    state dicts can be loaded. The Kohya converter returns what it is given,
    with no alphas. *)
#[export] Instance lora_env : @Lora.Env Z (list string) bool unit unit unit := {|
  Lora.FROM_DIFFUSERS := false;
  Lora.LOW_CPU_MEM_USAGE_DEFAULT := true;
  Lora.USE_PPPEFT_BACKEND := false;
  Lora.version_gt_0_23 := true;
  Lora._get_model_file := fun _ _ _ _ => Raise (Exn ExternalError "no hub");
  Lora.load_state_dict := fun _ => Raise (Exn ExternalError "no file");
  Lora._maybe_map_sgm_blocks_to_diffusers := fun d _ => Ok d;
  Lora._convert_kohya_lora_to_diffusers := fun d => Ok (d, Some ∅);
  Lora.load_lora_into_unet := fun _ _ _ _ _ =>
    modify (fun p => Lora.Pipeline (Lora.num_fused_loras p)
                       ("load_attn_procs" :: Lora.unet p) (Lora.text_encoder p)
                       (Lora.text_encoder_2 p) (Lora._lora_scale p) (Lora.warnings p));
  Lora.load_lora_into_text_encoder := fun _ _ _ _ _ _ _ _ => ret tt;
  Lora.config_of_unet := fun _ => tt;
  Lora.unet_fuse_lora := fun _ _ => modify (cons "fuse_lora");
  Lora.unet_unfuse_lora := modify (cons "unfuse_lora");
  Lora._fuse_lora := fun _ _ => modify (fun _ => true);
  Lora._unfuse_lora := modify (fun _ => false)
|}.

Definition lora_kwargs : @Lora.kwargs unit unit :=
  Lora.Kwargs None None None None None tt.

Definition lora_text_encoder : @Lora.text_encoder_t bool unit :=
  Lora.TextEncoder
    [("layers.0.self_attn",
      Lora.AttnModule (Lora.Patched false) (Lora.Patched false)
        (Lora.Patched false) (Lora.Patched false))]
    [("layers.0.mlp", Lora.MlpModule (Lora.Plain tt) (Lora.Plain tt))].

Definition lora_pipeline : @Lora.pipeline (list string) bool unit :=
  Lora.Pipeline 0 [] (Some lora_text_encoder) None None [].

(** A state dict with a key that is no LoRA weight. *)
Definition bad_state_dict : gmap string Z :=
  {[ "unet.down_blocks.0.lora.up.weight" := 1; "unet.conv_in.weight" := 2 ]}.

(** A toy diffusion stack: a tensor is its batch of numbers (four channels
    each, by decree), the VAE and the scheduler's input scaling do nothing,
    the scheduler steps by subtracting the predicted noise, the ControlNet
    and the UNet echo their sample, nothing is hidden. *)
Definition toy_chunk (t : list float) (n : nat) : list (list float) :=
  let h := Nat.div (length t) 2 in [firstn h t; skipn h t].

#[export] Instance sampling_env
  : @ControlNetImg2Img.Env (list float) Z unit unit unit unit unit := {|
  ControlNetImg2Img.shape := fun t => [Z.of_nat (length t); 4];
  ControlNetImg2Img.cast := fun t _ => t;
  ControlNetImg2Img.concat := @List.concat float;
  ControlNetImg2Img.chunk := toy_chunk;
  ControlNetImg2Img.zeros_like := map (fun _ => 0%float);
  ControlNetImg2Img.tadd := zip_with PrimFloat.add;
  ControlNetImg2Img.tsub := zip_with PrimFloat.sub;
  ControlNetImg2Img.smul := fun g => map (PrimFloat.mul g);
  ControlNetImg2Img.row_slice :=
    fun t i j => firstn (Z.to_nat (j - i)) (skipn (Z.to_nat i) t);
  ControlNetImg2Img.scheduler_order := 1%positive;
  ControlNetImg2Img.vae_scaling_factor := 0.5%float;
  ControlNetImg2Img.vae_encode_sample := fun x _ e => (Ok x, e);
  ControlNetImg2Img.randn_tensor :=
    fun sh _ _ e => (Ok (repeat 0%float (Z.to_nat (hd 0 sh))), e);
  ControlNetImg2Img.scheduler_add_noise :=
    fun x n _ e => (Ok (zip_with PrimFloat.add x n), e);
  ControlNetImg2Img.scheduler_scale_model_input := fun x _ e => (Ok x, e);
  ControlNetImg2Img.scheduler_step :=
    fun noise_pred _ sample _ e => (Ok (zip_with PrimFloat.sub sample noise_pred), e);
  ControlNetImg2Img.controlnet_forward := fun x _ _ _ _ _ e => (Ok ([x], x), e);
  ControlNetImg2Img.unet_forward := fun x _ _ _ _ _ e => (Ok x, e);
  ControlNetImg2Img.callback_fn := fun _ _ _ e => (Ok tt, e)
|}.

Definition toy_world : @ControlNetImg2Img.world (list float) Z unit unit unit unit unit :=
  ControlNetImg2Img.World [900; 800; 700; 600; 500; 400; 300; 200; 100; 0] tt [] [].

(** Two steps with classifier-free guidance and one ControlNet that is kept
    at both. *)
Definition toy_loop_args : @ControlNetImg2Img.loop_args (list float) Z unit unit :=
  ControlNetImg2Img.LoopArgs (ControlNetImg2Img.ControlNetModel false)
    7.5%float false [0.5%float; 0.25%float]
    (ControlNetImg2Img.OneTensor [0.125%float])
    (ControlNetImg2Img.Scalar 0.8%float)
    [ControlNetImg2Img.Scalar 1%float; ControlNetImg2Img.Scalar 1%float]
    tt tt [900; 800] 2 false 1.

(** A single ControlNet, a valid prompt and image, and a guidance window
    that ends before it starts. *)
Definition bad_check_args : ControlNetImg2Img.check_args :=
  ControlNetImg2Img.CheckArgs (ControlNetImg2Img.ControlNetModel false)
    (ControlNetImg2Img.PromptStr "a bird") ControlNetImg2Img.ImPIL
    (ControlNetImg2Img.CbInt 1) false None None
    (ControlNetImg2Img.Scalar 0.8%float) [0.5%float] [0.25%float].

End Samples.

(** ** More sample inputs: the edges of the three files *)

Module EdgeSamples.
Import Py.

(** A request whose prompt is a number, and one without an audio file. *)
Definition asr_inputs_int_prompt : AudioASR.dict :=
  {[ "audio" := VStr "speech.wav"; "prompt" := VInt 3 ]}.

Definition asr_state_int_prompt : AudioASR.state :=
  AudioASR.State {[ 1%positive := asr_inputs_int_prompt ]} [].

Definition asr_state_no_audio : AudioASR.state :=
  AudioASR.State {[ 1%positive := {[ "prompt" := VStr "Summarise: {}" ]} ]} [].

(** The toy LoRA backend of [Samples.lora_env] with the PEFT backend
    switched on. *)
#[export] Instance peft_env : @Lora.Env Z (list string) bool unit unit unit := {|
  Lora.FROM_DIFFUSERS := false;
  Lora.LOW_CPU_MEM_USAGE_DEFAULT := true;
  Lora.USE_PPPEFT_BACKEND := true;
  Lora.version_gt_0_23 := true;
  Lora._get_model_file := fun _ _ _ _ => Raise (Exn ExternalError "no hub");
  Lora.load_state_dict := fun _ => Raise (Exn ExternalError "no file");
  Lora._maybe_map_sgm_blocks_to_diffusers := fun d _ => Ok d;
  Lora._convert_kohya_lora_to_diffusers := fun d => Ok (d, Some ∅);
  Lora.load_lora_into_unet := fun _ _ _ _ _ => ret tt;
  Lora.load_lora_into_text_encoder := fun _ _ _ _ _ _ _ _ => ret tt;
  Lora.config_of_unet := fun _ => tt;
  Lora.unet_fuse_lora := fun _ _ => modify (cons "fuse_lora");
  Lora.unet_unfuse_lora := modify (cons "unfuse_lora");
  Lora._fuse_lora := fun _ _ => modify (fun _ => true);
  Lora._unfuse_lora := modify (fun _ => false)
|}.

(** The toy backend with a hub that holds one pickled PyTorch checkpoint
    per repository and no safetensors file. *)
#[export] Instance hub_env : @Lora.Env Z (list string) bool unit unit unit := {|
  Lora.FROM_DIFFUSERS := false;
  Lora.LOW_CPU_MEM_USAGE_DEFAULT := true;
  Lora.USE_PPPEFT_BACKEND := false;
  Lora.version_gt_0_23 := true;
  Lora._get_model_file := fun path name _ _ =>
    if endswith ".safetensors" name
    then Raise (Exn ExternalError "404 Not Found")
    else Ok (Some (path ++ "/" ++ name)%string);
  Lora.load_state_dict := fun _ => Ok ("pt", {[ "unet.attn.lora.up.weight" := 1 ]});
  Lora._maybe_map_sgm_blocks_to_diffusers := fun d _ => Ok d;
  Lora._convert_kohya_lora_to_diffusers := fun d => Ok (d, Some ∅);
  Lora.load_lora_into_unet := fun _ _ _ _ _ => ret tt;
  Lora.load_lora_into_text_encoder := fun _ _ _ _ _ _ _ _ => ret tt;
  Lora.config_of_unet := fun _ => tt;
  Lora.unet_fuse_lora := fun _ _ => modify (cons "fuse_lora");
  Lora.unet_unfuse_lora := modify (cons "unfuse_lora");
  Lora._fuse_lora := fun _ _ => modify (fun _ => true);
  Lora._unfuse_lora := modify (fun _ => false)
|}.

(** A text encoder that was never patched, and a pipeline around it. *)
Definition plain_text_encoder : @Lora.text_encoder_t bool unit :=
  Lora.TextEncoder
    [("layers.0.self_attn",
      Lora.AttnModule (Lora.Plain tt) (Lora.Plain tt) (Lora.Plain tt) (Lora.Plain tt))]
    [("layers.0.mlp", Lora.MlpModule (Lora.Plain tt) (Lora.Plain tt))].

Definition plain_pipeline : @Lora.pipeline (list string) bool unit :=
  Lora.Pipeline 0 [] (Some plain_text_encoder) None None [].

(** Valid arguments for one ControlNet, and arguments for two ControlNets
    with a single conditioning scale in the list. *)
Definition good_check_args : ControlNetImg2Img.check_args :=
  ControlNetImg2Img.CheckArgs (ControlNetImg2Img.ControlNetModel false)
    (ControlNetImg2Img.PromptStr "a bird") ControlNetImg2Img.ImPIL
    (ControlNetImg2Img.CbInt 1) false None None
    (ControlNetImg2Img.Scalar 0.8%float) [0%float] [1%float].


(** Keyword arguments that ask for the pickled Paddle weights. *)
Definition pickled_paddle_kwargs : @Lora.kwargs unit unit :=
  Lora.Kwargs (Some false) None None (Some false) None tt.

(** A toy world for the weight files: a tensor is a number, the hidden
    state the list of the files there are; a listing shows the names of
    the files in a directory; saving makes a file; the UNet takes
    anything. *)
#[export] Instance io_env : @LoraIO.Env Z unit unit (list string) := {|
  LoraIO.FROM_DIFFUSERS := false;
  LoraIO.TO_DIFFUSERS := false;
  LoraIO.LOW_CPU_MEM_USAGE_DEFAULT := true;
  LoraIO.is_torch_available := false;
  LoraIO.is_safetensors_available := true;
  LoraIO.unet_load_attn_procs := fun _ _ _ _ x => (Ok tt, x);
  LoraIO.layer_state_dict := fun _ => Ok [];
  LoraIO.layer_bool := fun _ => true;
  LoraIO.convert_paddle_state_dict_to_pytorch := fun _ d => Ok d;
  LoraIO.os_path_isfile := fun p x => PyStr.in_list p x;
  LoraIO.os_path_isdir := fun p x => existsb (startswith (p ++ "/")) x;
  LoraIO.os_listdir := fun p x =>
    Ok (omap (PyStr.after_prefix (p ++ "/")) x);
  LoraIO.model_info_siblings := fun _ _ => Raise (Exn ExternalError "no hub");
  LoraIO.os_makedirs := fun _ x => (Ok tt, x);
  LoraIO.run_saver := fun _ _ p x => (Ok tt, x ++ [p])
|}.

Definition io_world (files : list string) : @LoraIO.world Z unit (list string) :=
  LoraIO.World files [] [].

Definition unet_weights : PyDict.odict Z :=
  [("down.attn.lora.up.weight", 1); ("down.attn.lora.down.weight", 2)].

Definition text_encoder_weights : PyDict.odict Z :=
  [("layers.0.q_proj.lora.up.weight", 3)].

End EdgeSamples.

(** * Part II: lemmas and theorems *)

(** ** Binary64 arithmetic: digits, shifts, rounding, comparisons *)

Module Binary64.
Import Py PyFloat.

(** *** The number of binary digits *)

Lemma digits2_pos_size p : digits2_pos p = Pos.size p.
Proof. induction p; simpl; congruence. Qed.

Lemma Zdigits2_log2 m : 0 < m -> Zdigits2 m = Z.log2 m + 1.
Proof.
  destruct m as [|p|p]; try lia. intros _. simpl.
  rewrite digits2_pos_size. destruct p; simpl; lia.
Qed.

Lemma Zdigits2_nonneg m : 0 <= Zdigits2 m.
Proof. destruct m; simpl; lia. Qed.

Lemma Zdigits2_pos_iff m : 0 <= m -> (0 < Zdigits2 m <-> 0 < m).
Proof. destruct m; simpl; lia. Qed.

Lemma Zdigits2_le m n : 0 <= m -> m <= n -> Zdigits2 m <= Zdigits2 n.
Proof.
  intros Hm Hmn. destruct (Z.eq_dec m 0) as [->|Hne].
  - apply Zdigits2_nonneg.
  - rewrite !Zdigits2_log2 by lia. pose proof (Z.log2_le_mono m n Hmn). lia.
Qed.

Lemma Zdigits2_succ m : 0 <= m -> Zdigits2 (m + 1) <= Zdigits2 m + 1.
Proof.
  intros Hm. destruct (Z.eq_dec m 0) as [->|Hne]; [simpl; lia|].
  rewrite !Zdigits2_log2 by lia.
  pose proof (Z.log2_succ_le m). unfold Z.succ in *. lia.
Qed.

Lemma Zdigits2_shiftr m n :
  0 <= m -> 0 <= n -> 0 < Z.shiftr m n -> Zdigits2 (Z.shiftr m n) = Zdigits2 m - n.
Proof.
  intros Hm Hn Hpos.
  assert (0 < m).
  { destruct (Z.eq_dec m 0) as [->|]; [rewrite Z.shiftr_0_l in Hpos|]; lia. }
  rewrite !Zdigits2_log2 by lia.
  rewrite Z.log2_shiftr by lia.
  assert (Z.log2 (Z.shiftr m n) = Z.max 0 (Z.log2 m - n)) by (apply Z.log2_shiftr; lia).
  destruct (Z.le_gt_cases (Z.log2 m) (n - 1)).
  - exfalso. rewrite Z.shiftr_div_pow2 in Hpos by lia.
    assert (m < 2 ^ n).
    { apply Z.log2_lt_pow2; lia. }
    rewrite Z.div_small in Hpos; lia.
  - lia.
Qed.

Lemma Zdigits2_shiftr_zero m n :
  0 <= m -> 0 <= n -> Z.shiftr m n = 0 -> Zdigits2 m <= n.
Proof.
  intros Hm Hn Hz. destruct (Z.eq_dec m 0) as [->|Hne]; [simpl; lia|].
  rewrite Zdigits2_log2 by lia.
  rewrite Z.shiftr_div_pow2 in Hz by lia.
  destruct (Z.le_gt_cases n (Z.log2 m)); [|lia].
  exfalso.
  assert (2 ^ n <= m).
  { transitivity (2 ^ Z.log2 m). apply Z.pow_le_mono_r; lia. apply Z.log2_spec; lia. }
  assert (0 < m / 2 ^ n). { apply Z.div_str_pos. lia. }
  lia.
Qed.

Lemma Zdigits2_lt_pow2 m k : 0 <= m -> 0 <= k -> m < 2 ^ k -> Zdigits2 m <= k.
Proof.
  intros Hm Hk Hlt. destruct (Z.eq_dec m 0) as [->|Hne]; [simpl; lia|].
  rewrite Zdigits2_log2 by lia.
  assert (Z.log2 m < k) by (apply Z.log2_lt_pow2; lia). lia.
Qed.

Lemma Zdigits2_ge_pow2 m k : 0 <= k -> 2 ^ k <= m -> k + 1 <= Zdigits2 m.
Proof.
  intros Hk Hle. assert (0 < 2 ^ k) by (apply Z.pow_pos_nonneg; lia).
  rewrite Zdigits2_log2 by lia.
  assert (k <= Z.log2 m) by (apply Z.log2_le_pow2; lia). lia.
Qed.

Lemma Zdigits2_bounds m : 0 < m -> 2 ^ (Zdigits2 m - 1) <= m < 2 ^ Zdigits2 m.
Proof.
  intros Hm. rewrite Zdigits2_log2 by lia.
  replace (Z.log2 m + 1 - 1) with (Z.log2 m) by lia.
  pose proof (Z.log2_spec m Hm). unfold Z.succ in *. lia.
Qed.

(** *** Right shifts *)

Lemma shr_1_m mrs : 0 <= shr_m mrs -> shr_m (shr_1 mrs) = Z.shiftr (shr_m mrs) 1.
Proof.
  destruct mrs as [m r s]; simpl. intros Hm.
  destruct m as [|p|p]; try lia; [reflexivity|].
  destruct p; reflexivity.
Qed.

Lemma shr_1_nonneg mrs : 0 <= shr_m mrs -> 0 <= shr_m (shr_1 mrs).
Proof.
  intros H. rewrite shr_1_m by assumption. apply Z.shiftr_nonneg. assumption.
Qed.

Lemma iter_shr_1_m p : forall mrs, 0 <= shr_m mrs ->
  shr_m (SpecFloat.iter_pos shr_1 p mrs) = Z.shiftr (shr_m mrs) (Zpos p).
Proof.
  induction p as [p IH|p IH|]; intros mrs Hm; simpl.
  - assert (H1 : 0 <= shr_m (shr_1 mrs)) by (apply shr_1_nonneg; assumption).
    assert (H2 : 0 <= shr_m (SpecFloat.iter_pos shr_1 p (shr_1 mrs))).
    { rewrite IH by assumption. apply Z.shiftr_nonneg. assumption. }
    rewrite IH by assumption. rewrite IH by assumption. rewrite shr_1_m by assumption.
    rewrite !Z.shiftr_shiftr by lia. f_equal. lia.
  - assert (H2 : 0 <= shr_m (SpecFloat.iter_pos shr_1 p mrs)).
    { rewrite IH by assumption. apply Z.shiftr_nonneg. assumption. }
    rewrite IH by assumption. rewrite IH by assumption.
    rewrite !Z.shiftr_shiftr by lia. f_equal. lia.
  - apply shr_1_m. assumption.
Qed.

Lemma shr_record_of_loc_m m l : shr_m (shr_record_of_loc m l) = m.
Proof. destruct l as [|[| |]]; reflexivity. Qed.

Lemma fexp64_eq d : fexp64 d = Z.max (d - 53) (-1074).
Proof. reflexivity. Qed.

(** What [shr_fexp] computes on a non-negative mantissa. *)
Lemma shr_fexp_spec m e l :
  0 <= m ->
  let n := Z.max 0 (fexp64 (Zdigits2 m + e) - e) in
  shr_m (fst (shr_fexp prec emax m e l)) = Z.shiftr m n /\
  snd (shr_fexp prec emax m e l) = e + n.
Proof.
  intros Hm n. unfold shr_fexp, shr. subst n.
  destruct (fexp64 (Zdigits2 m + e) - e) as [|p|p] eqn:E; simpl fst; simpl snd.
  - rewrite shr_record_of_loc_m. simpl. split; [reflexivity|lia].
  - rewrite iter_shr_1_m by (rewrite shr_record_of_loc_m; assumption).
    rewrite shr_record_of_loc_m. split; [f_equal; lia | lia].
  - rewrite shr_record_of_loc_m. simpl. split; [reflexivity|lia].
Qed.

Lemma round_nearest_even_bounds m l :
  m <= round_nearest_even m l <= m + 1.
Proof.
  unfold round_nearest_even. destruct l as [|[| |]]; try lia.
  destruct (Z.even m); lia.
Qed.

(** *** The rounding step

    [binary_round_aux] shifts the mantissa [m] to the exponent the format
    wants for it ([m1], [e1]), rounds to nearest ([mr]) and shifts again
    ([m2], [e2]). A shift that leaves something keeps digits plus exponent. *)
Lemma binary_round_aux_facts sx m e l :
  0 <= m ->
  exists m1 mr m2 e1 e2,
    binary_round_aux prec emax sx m e l = round_result sx m2 e2 /\
    0 <= m1 /\ m1 <= mr <= m1 + 1 /\ 0 <= m2 <= mr /\
    e1 = Z.max e (fexp64 (Zdigits2 m + e)) /\
    e2 = Z.max e1 (fexp64 (Zdigits2 mr + e1)) /\
    (0 < m1 -> Zdigits2 m1 + e1 = Zdigits2 m + e) /\
    (m1 = 0 -> Zdigits2 m + e <= e1) /\
    Zdigits2 m1 <= Zdigits2 mr <= Zdigits2 m1 + 1 /\
    (0 < m2 -> Zdigits2 m2 + e2 = Zdigits2 mr + e1).
Proof.
  intros Hm. unfold binary_round_aux.
  pose proof (shr_fexp_spec m e l Hm) as [H1m H1e].
  destruct (shr_fexp prec emax m e l) as [mrs1 e1] eqn:E1.
  simpl fst in H1m; simpl snd in H1e.
  set (n1 := Z.max 0 (fexp64 (Zdigits2 m + e) - e)) in *.
  set (mr := round_nearest_even (shr_m mrs1) (loc_of_shr_record mrs1)).
  assert (Hm1 : 0 <= shr_m mrs1) by (rewrite H1m; apply Z.shiftr_nonneg; assumption).
  pose proof (round_nearest_even_bounds (shr_m mrs1) (loc_of_shr_record mrs1)) as Hr.
  fold mr in Hr.
  assert (Hmr : 0 <= mr) by lia.
  pose proof (shr_fexp_spec mr e1 loc_Exact Hmr) as [H2m H2e].
  destruct (shr_fexp prec emax mr e1 loc_Exact) as [mrs2 e2] eqn:E2.
  simpl fst in H2m; simpl snd in H2e.
  set (n2 := Z.max 0 (fexp64 (Zdigits2 mr + e1) - e1)) in *.
  exists (shr_m mrs1), mr, (shr_m mrs2), e1, e2.
  assert (Hn1 : 0 <= n1) by (unfold n1; lia).
  assert (Hn2 : 0 <= n2) by (unfold n2; lia).
  assert (Hm2 : 0 <= shr_m mrs2) by (rewrite H2m; apply Z.shiftr_nonneg; assumption).
  assert (Hm2le : shr_m mrs2 <= mr).
  { rewrite H2m, Z.shiftr_div_pow2 by assumption.
    assert (0 < 2 ^ n2) by (apply Z.pow_pos_nonneg; lia).
    apply Z.div_le_upper_bound; [assumption|nia]. }
  assert (F1 : match shr_m mrs2 with
               | Z0 => S754_zero sx
               | Zpos p => if e2 <=? emax - prec then S754_finite sx p e2
                           else S754_infinity sx
               | Zneg _ => S754_nan
               end = round_result sx (shr_m mrs2) e2).
  { unfold round_result. destruct (shr_m mrs2); reflexivity. }
  assert (F2 : 0 < shr_m mrs1 -> Zdigits2 (shr_m mrs1) + e1 = Zdigits2 m + e).
  { intros Hpos. rewrite H1m in Hpos |- *.
    rewrite Zdigits2_shiftr by assumption. lia. }
  assert (F3 : shr_m mrs1 = 0 -> Zdigits2 m + e <= e1).
  { intros Hz. rewrite H1m in Hz.
    pose proof (Zdigits2_shiftr_zero m n1 Hm Hn1 Hz). lia. }
  assert (F4 : Zdigits2 (shr_m mrs1) <= Zdigits2 mr) by (apply Zdigits2_le; lia).
  assert (F5 : Zdigits2 mr <= Zdigits2 (shr_m mrs1) + 1).
  { transitivity (Zdigits2 (shr_m mrs1 + 1)).
    - apply Zdigits2_le; lia.
    - apply Zdigits2_succ; assumption. }
  assert (F6 : 0 < shr_m mrs2 -> Zdigits2 (shr_m mrs2) + e2 = Zdigits2 mr + e1).
  { intros Hpos. rewrite H2m in Hpos |- *.
    rewrite Zdigits2_shiftr by assumption. lia. }
  unfold n1 in H1e. unfold n2 in H2e.
  repeat split; try assumption; lia.
Qed.

(** Rounding a non-negative mantissa never yields NaN and keeps the sign. *)
Lemma binary_round_aux_sign sx m e l :
  0 <= m ->
  match binary_round_aux prec emax sx m e l with
  | S754_zero s | S754_infinity s | S754_finite s _ _ => s = sx
  | S754_nan => False
  end.
Proof.
  intros Hm.
  destruct (binary_round_aux_facts sx m e l Hm)
    as (m1 & mr & m2 & e1 & e2 & -> & _ & _ & [Hm2 _] & _).
  unfold round_result. destruct m2; try lia; [reflexivity|].
  destruct (e2 <=? 971); reflexivity.
Qed.

(** No overflow when the magnitude stays below [2^1023]. *)
Lemma binary_round_aux_finite sx m e l :
  0 <= m -> Zdigits2 m + e <= 1023 -> e <= 971 ->
  binary_round_aux prec emax sx m e l = S754_zero sx \/
  exists m2 e2, binary_round_aux prec emax sx m e l = S754_finite sx m2 e2 /\
     Zdigits2 (Zpos m2) + e2 <= Z.max (Zdigits2 m + e) (Z.max e (-1074)) + 1.
Proof.
  intros Hm HD He.
  destruct (binary_round_aux_facts sx m e l Hm)
    as (m1 & mr & m2 & e1 & e2 & -> & Hm1 & Hmr & Hm2 & He1 & He2 & HD1 & HZ1 & Hdr & HD2).
  rewrite fexp64_eq in He1, He2.
  unfold round_result. destruct m2 as [|p|p]; try lia; [left; reflexivity|right].
  assert (Hp : 0 < Z.pos p) by lia. specialize (HD2 Hp).
  assert (Hmrpos : 0 < mr) by lia.
  assert (Hdmr : 0 < Zdigits2 mr) by (apply Zdigits2_pos_iff; lia).
  assert (Hbound : Zdigits2 mr + e1 <= Z.max (Zdigits2 m + e) (Z.max e (-1074)) + 1).
  { destruct (Z.eq_dec m1 0) as [Hz|Hnz].
    - specialize (HZ1 Hz). rewrite Hz in Hdr. simpl in Hdr. lia.
    - assert (Hp1 : 0 < m1) by lia. specialize (HD1 Hp1). lia. }
  assert (Hle : (e2 <=? 971) = true) by (apply Z.leb_le; lia).
  rewrite Hle. exists p, e2. split; [reflexivity|lia].
Qed.

(** On an input with at least as many digits as the format keeps, the
    result is a valid binary64 datum. *)
Lemma binary_round_aux_valid sx m e l :
  0 <= m -> e <= fexp64 (Zdigits2 m + e) ->
  valid_binary (binary_round_aux prec emax sx m e l) = true.
Proof.
  intros Hm Hal.
  destruct (binary_round_aux_facts sx m e l Hm)
    as (m1 & mr & m2 & e1 & e2 & -> & Hm1 & Hmr & Hm2 & He1 & He2 & HD1 & HZ1 & Hdr & HD2).
  rewrite fexp64_eq in He1, He2, Hal.
  unfold round_result. destruct m2 as [|p|p]; try reflexivity.
  destruct (e2 <=? 971) eqn:Hle; [|reflexivity].
  cbn [valid_binary]. unfold bounded, canonical_mantissa.
  apply andb_true_intro; split; [apply Z.eqb_eq | exact Hle].
  assert (Hp : 0 < Z.pos p) by lia. specialize (HD2 Hp).
  change (Zpos (digits2_pos p)) with (Zdigits2 (Zpos p)).
  rewrite HD2. rewrite fexp64_eq.
  assert (Hmrpos : 0 < mr) by lia.
  assert (Hdmr : 0 < Zdigits2 mr) by (apply Zdigits2_pos_iff; lia).
  destruct (Z.eq_dec m1 0) as [Hz|Hnz].
  - specialize (HZ1 Hz). rewrite Hz in Hdr. simpl in Hdr. lia.
  - assert (Hp1 : 0 < m1) by lia. specialize (HD1 Hp1). lia.
Qed.

(** *** Comparisons *)

Lemma SFcompare_antisym x y :
  SFcompare y x = option_map CompOpp (SFcompare x y).
Proof.
  destruct x as [sx|sx| |sx mx ex], y as [sy|sy| |sy my ey]; simpl;
    try reflexivity; try (destruct sx; reflexivity); try (destruct sy; reflexivity);
    try (destruct sx, sy; reflexivity).
  f_equal. rewrite (Z.compare_antisym ex ey).
  pose proof (Pos.compare_cont_antisym mx my Eq) as Hm. simpl in Hm.
  rewrite <- Hm.
  destruct sx, sy; try reflexivity; destruct (ex ?= ey); reflexivity.
Qed.

Lemma SFcompare_refl x : x <> S754_nan -> SFcompare x x = Some Eq.
Proof.
  destruct x as [s|s| |s m e]; simpl; intros H; try congruence.
  - destruct s; reflexivity.
  - f_equal. rewrite Z.compare_refl.
    change (Pos.compare_cont Eq m m) with (Pos.compare m m).
    rewrite Pos.compare_refl. destruct s; reflexivity.
Qed.

Lemma is_nan_Prim2SF x : is_nan x = false <-> Prim2SF x <> S754_nan.
Proof.
  unfold is_nan. rewrite FloatAxioms.eqb_spec. unfold SFeqb. split.
  - intros H E. rewrite E in H. discriminate.
  - intros H. rewrite SFcompare_refl by assumption. reflexivity.
Qed.

Lemma SFcompare_None x y :
  SFcompare x y = None <-> x = S754_nan \/ y = S754_nan.
Proof.
  destruct x as [sx|sx| |sx mx ex], y as [sy|sy| |sy my ey]; simpl;
    split; intros H; try discriminate; auto;
    destruct H as [H|H]; discriminate.
Qed.

Lemma leb_true_ltb_false x y : (x <=? y)%float = true -> (y <? x)%float = false.
Proof.
  rewrite FloatAxioms.leb_spec, FloatAxioms.ltb_spec. unfold SFleb, SFltb.
  rewrite (SFcompare_antisym (Prim2SF x) (Prim2SF y)).
  destruct (SFcompare (Prim2SF x) (Prim2SF y)) as [[| |]|]; simpl; congruence.
Qed.

Lemma ltb_negb_leb x y :
  is_nan x = false -> is_nan y = false -> (x <? y)%float = negb (y <=? x)%float.
Proof.
  rewrite !is_nan_Prim2SF. intros Hx Hy.
  rewrite FloatAxioms.leb_spec, FloatAxioms.ltb_spec. unfold SFleb, SFltb.
  rewrite (SFcompare_antisym (Prim2SF x) (Prim2SF y)).
  destruct (SFcompare (Prim2SF x) (Prim2SF y)) as [[| |]|] eqn:E; simpl; try reflexivity.
  apply SFcompare_None in E. tauto.
Qed.

(** *** Fractions: the floats from 0.0 to 1.0 *)

Lemma Prim2SF_zero : Prim2SF 0%float = S754_zero false.
Proof. reflexivity. Qed.
Lemma Prim2SF_one : Prim2SF 1%float = S754_finite false 4503599627370496 (-52).
Proof. vm_compute. reflexivity. Qed.

(** Such a float is a zero, or positive with value at most 1. *)
Lemma unit_interval_SF s :
  (0 <=? s)%float = true -> (s <=? 1)%float = true ->
  (exists sg, Prim2SF s = S754_zero sg) \/
  (exists m e, Prim2SF s = S754_finite false m e /\ Zdigits2 (Zpos m) + e <= 1 /\ e <= -52).
Proof.
  rewrite !FloatAxioms.leb_spec, Prim2SF_zero, Prim2SF_one.
  pose proof (Prim2SF_valid s) as Hv.
  destruct (Prim2SF s) as [sg|sg| |sg m e]; unfold SFleb, SFcompare.
  - intros _ _. left. eauto.
  - destruct sg; discriminate.
  - discriminate.
  - destruct sg; [discriminate|]. intros _ H. right. exists m, e.
    split; [reflexivity|].
    cbn [valid_binary] in Hv. unfold bounded, canonical_mantissa in Hv.
    apply andb_true_iff in Hv. destruct Hv as [Hc _]. apply Z.eqb_eq in Hc.
    rewrite fexp64_eq in Hc. change (Zpos (digits2_pos m)) with (Zdigits2 (Zpos m)) in Hc.
    destruct (e ?= -52) eqn:Ec.
    + apply Z.compare_eq in Ec. subst e. lia.
    + rewrite Z.compare_lt_iff in Ec. lia.
    + discriminate.
Qed.

(** *** From [int] to [float], and a product *)

Lemma digits2_pos_iter p d :
  Zpos (digits2_pos (Pos.iter xO p d)) = Zpos (digits2_pos p) + Zpos d.
Proof.
  induction d as [|d IH] using Pos.peano_ind.
  - simpl. lia.
  - rewrite Pos.iter_succ. simpl digits2_pos. lia.
Qed.

Lemma shl_align_facts mx ex ex' :
  snd (shl_align mx ex ex') = Z.min ex ex' /\
  Zdigits2 (Zpos (fst (shl_align mx ex ex'))) + snd (shl_align mx ex ex')
    = Zdigits2 (Zpos mx) + ex.
Proof.
  unfold shl_align. destruct (ex' - ex) as [|d|d] eqn:E; simpl fst; simpl snd.
  - split; lia.
  - split; lia.
  - split; [lia|]. unfold Zdigits2. rewrite digits2_pos_iter. lia.
Qed.

Lemma binary_round_valid sx p e :
  valid_binary (binary_round prec emax sx p e) = true.
Proof.
  unfold binary_round.
  pose proof (shl_align_facts p e (fexp64 (Zpos (digits2_pos p) + e))) as [H1 H2].
  destruct (shl_align p e _) as [mz ez]. simpl fst in *; simpl snd in *.
  apply binary_round_aux_valid; [lia|].
  rewrite H2. unfold Zdigits2. lia.
Qed.

Lemma binary_round_finite sx p e :
  Zdigits2 (Zpos p) + e <= 1023 ->
  binary_round prec emax sx p e = S754_zero sx \/
  exists m2 e2, binary_round prec emax sx p e = S754_finite sx m2 e2 /\
     Zdigits2 (Zpos m2) + e2 <= Z.max (Zdigits2 (Zpos p) + e) (-1074) + 1.
Proof.
  intros HD. unfold binary_round.
  pose proof (shl_align_facts p e (fexp64 (Zpos (digits2_pos p) + e))) as [H1 H2].
  destruct (shl_align p e _) as [mz ez]. simpl fst in *; simpl snd in *.
  change (Zpos (digits2_pos p)) with (Zdigits2 (Zpos p)) in H1.
  rewrite fexp64_eq in H1.
  destruct (binary_round_aux_finite sx (Zpos mz) ez loc_Exact) as [Hz|(m2 & e2 & Hf & Hb)];
    try lia.
  - left; assumption.
  - right. exists m2, e2. split; [assumption|lia].
Qed.

(** [float(n)] exists for [0 <= n < 2^1000], and is not negative. *)
Lemma of_int_nonneg n :
  0 <= n < 2 ^ 1000 ->
  exists f, of_int n = Ok f /\
    (Prim2SF f = S754_zero false \/
     exists m e, Prim2SF f = S754_finite false m e /\ Zdigits2 (Zpos m) + e <= 1001).
Proof.
  intros [Hn Hlt]. unfold of_int.
  destruct n as [|p|p]; try lia.
  - simpl. eexists; split; [reflexivity|]. left. reflexivity.
  - cbn [binary_normalize].
    pose proof (binary_round_valid false p 0) as Hv.
    assert (HD : Zdigits2 (Zpos p) <= 1000) by (apply Zdigits2_lt_pow2; lia).
    destruct (binary_round_finite false p 0) as [Hz|(m2 & e2 & Hf & Hb)]; try lia.
    + rewrite Hz. simpl. eexists; split; [reflexivity|]. left. reflexivity.
    + rewrite Hf in Hv |- *. cbn [is_inf_SF]. eexists; split; [reflexivity|].
      right. exists m2, e2. rewrite Prim2SF_SF2Prim by assumption.
      split; [reflexivity|lia].
Qed.

Lemma Zdigits2_mul a b :
  0 <= a -> 0 <= b -> Zdigits2 (a * b) <= Zdigits2 a + Zdigits2 b.
Proof.
  intros Ha Hb.
  destruct (Z.eq_dec a 0) as [->|Ha0]; [simpl; apply Zdigits2_nonneg|].
  destruct (Z.eq_dec b 0) as [->|Hb0].
  { rewrite Z.mul_0_r. simpl. pose proof (Zdigits2_nonneg a). lia. }
  rewrite !Zdigits2_log2 by nia.
  pose proof (Z.log2_mul_above a b Ha Hb). lia.
Qed.

Lemma trunc_SF_nonneg x :
  match x with
  | S754_zero _ | S754_finite false _ _ => True
  | _ => False
  end ->
  exists k, trunc_SF x = Ok k /\ 0 <= k.
Proof.
  destruct x as [s|s| |s m e]; try tauto; intros H.
  - exists 0. split; [reflexivity|lia].
  - destruct s; [tauto|]. cbn [trunc_SF]. eexists; split; [reflexivity|].
    destruct e.
    + apply Z.shiftl_nonneg. lia.
    + apply Z.shiftl_nonneg. lia.
    + apply Z.shiftr_nonneg. lia.
Qed.

(** [int(n * s)] for a fraction [s] of a non-negative [n]. *)
Lemma int_mul_unit_interval n s :
  0 <= n < 2 ^ 1000 ->
  (0 <=? s)%float = true -> (s <=? 1)%float = true ->
  exists f k, int_mul n s = Ok f /\ to_int f = Ok k /\ 0 <= k.
Proof.
  intros Hn H0 H1. unfold int_mul, to_int.
  destruct (of_int_nonneg n Hn) as (f & -> & Hf).
  exists (f * s)%float. rewrite FloatAxioms.mul_spec. unfold SF64mul.
  pose proof (Prim2SF_valid f) as Hvf.
  destruct (unit_interval_SF s H0 H1) as [[sg Hs]|(ms & es & Hs & HDs & Hes)];
    rewrite Hs;
    destruct Hf as [Hf|(mf & ef & Hf & HDf)]; rewrite Hf in Hvf |- *.
  - cbn [SFmul]. destruct (trunc_SF_nonneg (S754_zero (xorb false sg)) I) as (k & Hk & Hk0).
    exists k. auto.
  - cbn [SFmul]. destruct (trunc_SF_nonneg (S754_zero (xorb false sg)) I) as (k & Hk & Hk0).
    exists k. auto.
  - cbn [SFmul]. destruct (trunc_SF_nonneg (S754_zero (xorb false false)) I) as (k & Hk & Hk0).
    exists k. auto.
  - cbn [SFmul xorb].
    cbn [valid_binary] in Hvf. unfold bounded in Hvf.
    apply andb_true_iff in Hvf. destruct Hvf as [_ Hef]. apply Z.leb_le in Hef.
    change (emax - prec) with 971 in Hef.
    pose proof (Zdigits2_mul (Zpos mf) (Zpos ms) ltac:(lia) ltac:(lia)) as Hmul.
    change (Zpos mf * Zpos ms) with (Zpos (mf * ms)) in Hmul.
    destruct (binary_round_aux_finite false (Zpos (mf * ms)) (ef + es) loc_Exact)
      as [Hz|(m2 & e2 & Hr & _)]; try lia.
    + rewrite Hz. destruct (trunc_SF_nonneg (S754_zero false) I) as (k & Hk & Hk0).
      exists k. auto.
    + rewrite Hr. destruct (trunc_SF_nonneg (S754_finite false m2 e2) I) as (k & Hk & Hk0).
      exists k. auto.
Qed.


Lemma binary_round_sign sx p e :
  match binary_round prec emax sx p e with
  | S754_zero s | S754_infinity s | S754_finite s _ _ => s = sx
  | S754_nan => False
  end.
Proof.
  unfold binary_round. destruct (shl_align p e _) as [mz ez].
  apply binary_round_aux_sign. lia.
Qed.

(** [float(n)] of a non-negative [int], when it exists, is not negative. *)
Lemma of_int_sign n f :
  0 <= n -> of_int n = Ok f ->
  Prim2SF f = S754_zero false \/ exists m e, Prim2SF f = S754_finite false m e.
Proof.
  intros Hn. unfold of_int. destruct n as [|p|p]; try lia.
  - cbn. intros [= <-]. left. reflexivity.
  - cbn [binary_normalize].
    pose proof (binary_round_valid false p 0) as Hv.
    pose proof (binary_round_sign false p 0) as Hs.
    destruct (binary_round prec emax false p 0) as [s|s| |s m e]; cbn [is_inf_SF];
      try discriminate; try tauto; intros Hf; injection Hf as <-; subst s.
    + left. reflexivity.
    + change (Prim2SF (SF2Prim (S754_finite false m e)) = S754_zero false \/
              exists m0 e0, Prim2SF (SF2Prim (S754_finite false m e))
                            = S754_finite false m0 e0).
      rewrite Prim2SF_SF2Prim by assumption. right. eauto.
Qed.

(** [int(f * s)], when it exists, is not negative for such an [f] and a
    fraction [s]. *)
Lemma to_int_mul_nonneg f s k :
  (Prim2SF f = S754_zero false \/ exists m e, Prim2SF f = S754_finite false m e) ->
  (0 <=? s)%float = true -> (s <=? 1)%float = true ->
  to_int (f * s) = Ok k -> 0 <= k.
Proof.
  intros Hf H0 H1. unfold to_int. rewrite FloatAxioms.mul_spec. unfold SF64mul.
  assert (Hcase : forall x, match x with
                            | S754_zero _ | S754_finite false _ _
                            | S754_infinity _ => True
                            | _ => False
                            end -> trunc_SF x = Ok k -> 0 <= k).
  { intros x Hx Hk. destruct x as [sg|sg| |sg m e]; try tauto; try discriminate.
    - cbn in Hk. injection Hk as <-. lia.
    - destruct sg; [tauto|].
      destruct (trunc_SF_nonneg (S754_finite false m e) I) as (k' & Hk' & Hk0).
      congruence. }
  apply Hcase.
  destruct (unit_interval_SF s H0 H1) as [[sg Hs]|(ms & es & Hs & _)]; rewrite Hs;
    destruct Hf as [Hf|(mf & ef & Hf)]; rewrite Hf; cbn [SFmul xorb]; try exact I.
  pose proof (binary_round_aux_sign false (Zpos (mf * ms)) (ef + es) loc_Exact
                ltac:(lia)) as Hsg.
  destruct (binary_round_aux prec emax false _ _ _) as [sg|sg| |sg m e];
    try tauto. subst sg. exact I.
Qed.

(** *** The quotient of two [int]s *)

(** The quotient and exponent that [SFdiv] hands to the rounding step. *)
Lemma SFdiv_core_facts m1 e1 m2 e2 :
  0 < m1 -> 0 < m2 ->
  let '(q, e', _) := SFdiv_core_binary prec emax m1 e1 m2 e2 in
  0 <= q /\ e' <= e1 - e2 /\
  e' <= fexp64 (Zdigits2 q + e') /\
  Zdigits2 q + e' <= Z.max (Zdigits2 m1 + e1 - (Zdigits2 m2 + e2) + 1) (e1 - e2).
Proof.
  intros Hm1 Hm2. unfold SFdiv_core_binary.
  set (d1 := Zdigits2 m1). set (d2 := Zdigits2 m2).
  set (e' := Z.min (fexp64 (d1 + e1 - (d2 + e2))) (e1 - e2)).
  set (s := e1 - e2 - e').
  set (m' := match s with Z.pos _ => Z.shiftl m1 s | Z0 => m1 | Z.neg _ => 0 end).
  assert (Hs : 0 <= s) by (unfold s, e'; lia).
  assert (Hm' : m' = m1 * 2 ^ s).
  { unfold m'. destruct s as [|p|p] eqn:Es; try lia.
    - rewrite Z.shiftl_mul_pow2 by lia. reflexivity. }
  pose proof (Z_div_mod m' m2 ltac:(lia)) as Hdm.
  assert (Hq : fst (Z.div_eucl m' m2) = m' / m2) by reflexivity.
  destruct (Z.div_eucl m' m2) as [q r]. simpl in Hq. subst q.
  pose proof (Zdigits2_bounds m1 Hm1) as [Hl1 Hu1]. fold d1 in Hl1, Hu1.
  pose proof (Zdigits2_bounds m2 Hm2) as [Hl2 Hu2]. fold d2 in Hl2, Hu2.
  assert (Hd1 : 0 < d1) by (apply Zdigits2_pos_iff; lia).
  assert (Hd2 : 0 < d2) by (apply Zdigits2_pos_iff; lia).
  assert (H2s : 0 < 2 ^ s) by (apply Z.pow_pos_nonneg; lia).
  assert (Hm'pos : 0 < m') by nia.
  assert (Hq0 : 0 <= m' / m2) by (apply Z.div_pos; lia).
  (* upper bound on the quotient *)
  assert (Hm'u : m' < 2 ^ (d1 + s)).
  { rewrite Hm', Z.pow_add_r by lia. nia. }
  assert (Hm'l : 2 ^ (d1 - 1 + s) <= m').
  { rewrite Hm', Z.pow_add_r by lia. nia. }
  assert (Hup : Zdigits2 (m' / m2) <= Z.max 0 (d1 + s - d2 + 1)).
  { destruct (Z.le_gt_cases 0 (d1 + s - d2 + 1)) as [HK|HK].
    - rewrite Z.max_r by lia. apply Zdigits2_lt_pow2; try lia.
      apply Z.div_lt_upper_bound; [lia|].
      assert (2 ^ (d1 + s) = 2 ^ (d2 - 1) * 2 ^ (d1 + s - d2 + 1)).
      { rewrite <- Z.pow_add_r by lia. f_equal. lia. }
      assert (0 < 2 ^ (d1 + s - d2 + 1)) by (apply Z.pow_pos_nonneg; lia).
      nia.
    - assert (m' < m2).
      { assert (2 ^ (d1 + s) <= 2 ^ (d2 - 1)) by (apply Z.pow_le_mono_r; lia). lia. }
      rewrite Z.div_small by lia. simpl. lia. }
  (* lower bound on the quotient *)
  assert (Hlow : 0 <= d1 - 1 + s - d2 -> d1 + s - d2 <= Zdigits2 (m' / m2)).
  { intros Hk.
    assert (2 ^ (d1 - 1 + s - d2) <= m' / m2).
    { apply Z.div_le_lower_bound; [lia|].
      assert (2 ^ (d1 - 1 + s) = 2 ^ d2 * 2 ^ (d1 - 1 + s - d2)).
      { rewrite <- Z.pow_add_r by lia. f_equal. lia. }
      assert (0 < 2 ^ (d1 - 1 + s - d2)) by (apply Z.pow_pos_nonneg; lia).
      nia. }
    pose proof (Zdigits2_ge_pow2 (m' / m2) (d1 - 1 + s - d2) Hk H). lia. }
  pose proof (Zdigits2_nonneg (m' / m2)) as Hdq.
  rewrite !fexp64_eq. unfold s, e' in *. rewrite !fexp64_eq in *.
  repeat split; lia.
Qed.

(** [a / b] for [0 <= a <= b]: a float, no exception, no NaN. *)
Lemma int_truediv_fraction a b :
  0 <= a <= b -> 0 < b ->
  exists x, int_truediv a b = Ok x /\ is_nan x = false.
Proof.
  intros Hab Hb. unfold int_truediv.
  destruct (Z.eqb_spec b 0) as [|_]; [lia|].
  destruct b as [|pb|pb]; try lia.
  destruct a as [|pa|pa]; try lia.
  - cbn. exists 0%float. split; reflexivity.
  - cbn [SF_of_Z SFdiv xorb].
    pose proof (SFdiv_core_facts (Zpos pa) 0 (Zpos pb) 0 ltac:(lia) ltac:(lia)) as Hc.
    destruct (SFdiv_core_binary prec emax (Zpos pa) 0 (Zpos pb) 0) as [[q e'] l].
    destruct Hc as (Hq & He' & Hal & HD).
    assert (Hdd : Zdigits2 (Zpos pa) <= Zdigits2 (Zpos pb)) by (apply Zdigits2_le; lia).
    pose proof (binary_round_aux_valid false q e' l Hq Hal) as Hv.
    destruct (binary_round_aux_finite false q e' l) as [Hz|(m2 & e2 & Hr & _)]; try lia.
    + rewrite Hz. cbn. exists 0%float. split; reflexivity.
    + rewrite Hr in Hv |- *. cbn [is_inf_SF].
      eexists. split; [reflexivity|].
      apply is_nan_Prim2SF. rewrite Prim2SF_SF2Prim by assumption. discriminate.
Qed.

(** *** Multiplying by 1.0 changes nothing *)

Lemma iter_shr_1_zeros n : forall m,
  SpecFloat.iter_pos shr_1 n (Build_shr_record (Zpos (Pos.iter xO m n)) false false)
  = Build_shr_record (Zpos m) false false.
Proof.
  induction n as [n IH|n IH|]; intros m; simpl.
  - rewrite !IH. reflexivity.
  - rewrite !IH. reflexivity.
  - reflexivity.
Qed.

Lemma SFmul_one_r x :
  valid_binary x = true -> SF64mul x (Prim2SF 1) = x.
Proof.
  rewrite Prim2SF_one. unfold SF64mul.
  destruct x as [s|s| |s m e]; cbn [SFmul]; rewrite ?xorb_false_r; try reflexivity.
  intros Hv. cbn [valid_binary] in Hv. unfold bounded, canonical_mantissa in Hv.
  apply andb_true_iff in Hv. destruct Hv as [Hc He].
  apply Z.eqb_eq in Hc. apply Z.leb_le in He.
  assert (Hm : (m * 4503599627370496)%positive = Pos.iter xO m 52).
  { rewrite Pos.mul_comm. reflexivity. }
  rewrite Hm. unfold binary_round_aux.
  assert (H1 : shr_fexp prec emax (Zpos (Pos.iter xO m 52)) (e + -52) loc_Exact
               = (Build_shr_record (Zpos m) false false, e)).
  { unfold shr_fexp. cbn [Zdigits2]. rewrite digits2_pos_iter.
    replace (Zpos (digits2_pos m) + 52 + (e + -52)) with (Zpos (digits2_pos m) + e) by lia.
    rewrite Hc. replace (e - (e + -52)) with 52 by lia.
    unfold shr. cbn [shr_record_of_loc]. rewrite iter_shr_1_zeros. f_equal. lia. }
  rewrite H1. cbn [loc_of_shr_record shr_m round_nearest_even].
  assert (H2 : shr_fexp prec emax (Zpos m) e loc_Exact
               = (Build_shr_record (Zpos m) false false, e)).
  { unfold shr_fexp. cbn [Zdigits2]. rewrite Hc, Z.sub_diag. reflexivity. }
  rewrite H2. cbn [shr_m]. apply Z.leb_le in He. rewrite He. reflexivity.
Qed.

Lemma mul_one_r (x : float) : (x * 1)%float = x.
Proof.
  apply Prim2SF_inj. rewrite FloatAxioms.mul_spec.
  apply SFmul_one_r, Prim2SF_valid.
Qed.

End Binary64.

(** ** Facts about the Python basics *)

Module PyFacts.
Import Py.
Local Open Scope py_scope.

Section Monad.
Context {S : Type}.

Lemma bind_ok {A B} (m : M S A) (k : A -> M S B) s a s1 :
  m s = (Ok a, s1) -> bind m k s = k a s1.
Proof. unfold bind. intros ->. reflexivity. Qed.

Lemma bind_raise {A B} (m : M S A) (k : A -> M S B) s e s1 :
  m s = (Raise e, s1) -> bind m k s = (Raise e, s1).
Proof. unfold bind. intros ->. reflexivity. Qed.

Lemma bind_ok_inv {A B} (m : M S A) (k : A -> M S B) s b s2 :
  bind m k s = (Ok b, s2) ->
  exists a s1, m s = (Ok a, s1) /\ k a s1 = (Ok b, s2).
Proof.
  unfold bind. destruct (m s) as [[a|e] s1]; intros Hk.
  - exists a, s1. auto.
  - discriminate.
Qed.

Lemma lift_ok_inv {A} (r : result A) (s : S) a s1 :
  lift r s = (Ok a, s1) -> r = Ok a /\ s1 = s.
Proof. unfold lift. intros [= -> ->]. auto. Qed.

Lemma ret_inv {A} (a b : A) (s s1 : S) :
  ret a s = (Ok b, s1) -> b = a /\ s1 = s.
Proof. unfold ret. intros [= -> ->]. auto. Qed.

End Monad.

Lemma rbind_ok_inv {A B} (r : result A) (k : A -> result B) b :
  rbind r k = Ok b -> exists a, r = Ok a /\ k a = Ok b.
Proof. destruct r as [a|e]; simpl; [eauto|discriminate]. Qed.

(** *** Strings *)

Lemma append_nil r : (EmptyString ++ r)%string = r.
Proof. reflexivity. Qed.

Lemma append_cons a s r : (String a s ++ r)%string = String a (s ++ r)%string.
Proof. reflexivity. Qed.

Lemma append_assoc s t u : ((s ++ t) ++ u)%string = (s ++ (t ++ u))%string.
Proof.
  induction s as [|a s IH]; [reflexivity|].
  rewrite !append_cons, IH. reflexivity.
Qed.

Lemma startswith_spec p s :
  startswith p s = true <-> exists r, s = (p ++ r)%string.
Proof.
  revert s. induction p as [|a p IH]; intros s; simpl.
  - split; [intros _; exists s; reflexivity | reflexivity].
  - destruct s as [|b s].
    + split; [discriminate | intros [r Hr]; discriminate].
    + destruct (Ascii.eqb_spec a b) as [->|Hne].
      * rewrite IH. split; intros [r Hr]; exists r.
        -- rewrite append_cons, Hr. reflexivity.
        -- rewrite append_cons in Hr. injection Hr as Hr. exact Hr.
      * split; [discriminate|]. intros [r Hr]. rewrite append_cons in Hr.
        injection Hr as Hab _. congruence.
Qed.

Lemma str_in_spec sub s :
  str_in sub s = true <-> exists l r, s = (l ++ sub ++ r)%string.
Proof.
  induction s as [|c s IH]; simpl.
  - rewrite orb_false_r, startswith_spec. split.
    + intros [r Hr]. exists EmptyString, r. assumption.
    + intros (l & r & Hlr). destruct l as [|a l]; [|discriminate].
      exists r. assumption.
  - rewrite orb_true_iff, IH, startswith_spec. split.
    + intros [[r Hr]|(l & r & Hlr)].
      * exists EmptyString, r. assumption.
      * exists (String c l), r. rewrite append_cons, Hlr. reflexivity.
    + intros (l & r & Hlr). destruct l as [|a l].
      * left. exists r. assumption.
      * right. exists l, r. rewrite append_cons in Hlr.
        injection Hlr as _ Hlr. exact Hlr.
Qed.

Lemma str_in_prefix sub p s :
  str_in sub p = true -> startswith p s = true -> str_in sub s = true.
Proof.
  rewrite !str_in_spec, startswith_spec.
  intros (l & r & ->) [t ->]. exists l, (r ++ t)%string.
  rewrite !append_assoc. reflexivity.
Qed.

(** *** Dictionaries *)

Lemma all_keys_spec {V} (p : string -> bool) (d : gmap string V) :
  all_keys p d = true <-> forall k, is_Some (d !! k) -> p k = true.
Proof.
  unfold all_keys. rewrite forallb_forall. split.
  - intros Hall k [v Hk]. apply Hall.
    apply in_map_iff. exists (k, v). split; [reflexivity|].
    apply list_elem_of_In. apply elem_of_map_to_list. assumption.
  - intros Hall k Hin. apply in_map_iff in Hin. destruct Hin as ([k' v] & <- & Hin).
    apply list_elem_of_In, elem_of_map_to_list in Hin. apply Hall. eauto.
Qed.

Lemma all_keys_false {V} (p : string -> bool) (d : gmap string V) k :
  is_Some (d !! k) -> p k = false -> all_keys p d = false.
Proof.
  intros Hk Hp. destruct (all_keys p d) eqn:E; [|reflexivity].
  rewrite all_keys_spec in E. rewrite (E k Hk) in Hp. discriminate.
Qed.


(** *** Slices *)

Lemma slice_from_nonneg {A} (l : list A) (a : Z) :
  0 <= a -> slice_from l a = skipn (Z.to_nat a) l.
Proof.
  intros Ha. unfold slice_from.
  destruct (Z.ltb_spec a 0); [lia|reflexivity].
Qed.

End PyFacts.

(** ** [audio_asr.py]: the three stages of the task *)

Module AudioASRProofs.
Import Py PyFacts AudioASR.
Local Open Scope py_scope.

Lemma is_none_dict_get (d : dict) k :
  is_none (dict_get d k VNone) = true <-> missing d k.
Proof.
  unfold dict_get, missing. destruct (d !! k) as [v|]; simpl.
  - destruct v; simpl; split; intros Hm; try discriminate; auto;
      destruct Hm as [Hm|Hm]; discriminate.
  - split; auto.
Qed.

Lemma deref_ok s r d : heap s !! r = Some d -> deref r s = (Ok d, s).
Proof. unfold deref. intros ->. reflexivity. Qed.

(** C8. [AudioASRTask._preprocess] raises an [AssertionError] exactly when
    the input dict lacks ["audio"] (or maps it to [None]) or lacks
    ["prompt"] (or maps it to [None]); otherwise it returns the very dict it
    was given; in both cases nothing is changed. *)
Theorem preprocess_validates (s : state) (inputs : loc) (d : dict) :
  heap s !! inputs = Some d ->
  ((missing d "audio" \/ missing d "prompt") <->
     raises AssertionError (fst (_preprocess inputs s))) /\
  (~ (missing d "audio" \/ missing d "prompt") ->
     _preprocess inputs s = (Ok inputs, s)) /\
  snd (_preprocess inputs s) = s.
Proof.
  intros Hd. unfold _preprocess.
  rewrite (bind_ok _ _ _ _ _ (deref_ok _ _ _ Hd)).
  pose proof (is_none_dict_get d "audio") as Ha.
  pose proof (is_none_dict_get d "prompt") as Hp.
  destruct (is_none (dict_get d "audio" VNone)) eqn:Ea.
  - repeat split.
    + intros _. eexists. reflexivity.
    + intros _. left. apply Ha. reflexivity.
    + intros Hn. exfalso. apply Hn. left. apply Ha. reflexivity.
  - destruct (is_none (dict_get d "prompt" VNone)) eqn:Ep.
    + repeat split.
      * intros _. eexists. reflexivity.
      * intros _. right. apply Hp. reflexivity.
      * intros Hn. exfalso. apply Hn. right. apply Hp. reflexivity.
    + repeat split.
      * intros [Hm|Hm]; [apply Ha in Hm | apply Hp in Hm]; discriminate.
      * intros [msg Hr]. discriminate.
Qed.

Lemma preprocess_validates_example :
  heap Samples.asr_state !! 1%positive = Some Samples.asr_inputs /\
  _preprocess 1%positive Samples.asr_state = (Ok 1%positive, Samples.asr_state).
Proof.
  assert (Hd : heap Samples.asr_state !! 1%positive = Some Samples.asr_inputs)
    by (vm_compute; reflexivity).
  split; [exact Hd|].
  apply (preprocess_validates Samples.asr_state 1%positive Samples.asr_inputs Hd).
  intros [[Hm|Hm]|[Hm|Hm]]; vm_compute in Hm; discriminate.
Defined.

Section RunModel.
Context `{Env}.

(** The state after [_run_model]: the dict at [inputs] has a new prompt,
    one line went to the log. *)
Lemma run_model_ok s inputs (d : dict) audio res text line p p' :
  heap s !! inputs = Some d ->
  d !! "audio" = Some audio ->
  d !! "prompt" = Some (VStr p) ->
  whisper_executor (executor_args d audio) = Ok res ->
  res !! "text" = Some text ->
  str_format "Audio File ASR Result: {}" [text] = Ok line ->
  str_format p [text] = Ok p' ->
  _run_model inputs s =
    (Ok inputs,
     State (<[inputs := <["prompt" := VStr p']> d]> (heap s)) (log s ++ [line])).
Proof.
  intros Hd Ha Hp Hw Ht Hl Hf. unfold _run_model.
  rewrite (bind_ok _ _ _ _ _ (deref_ok _ _ _ Hd)).
  unfold executor_args in Hw.
  unfold bind, lift, getitem, logger_info, modify, setitem, deref, ret.
  rewrite Ha, Hw, Ht, Hl, Hp. cbn [format_method heap log].
  rewrite Hf. unfold bind, modify. cbn [heap log]. rewrite Hd. reflexivity.
Qed.

Lemma run_model_ok_inv s inputs (d : dict) r' s' :
  heap s !! inputs = Some d ->
  _run_model inputs s = (Ok r', s') ->
  exists audio res text line p p',
    d !! "audio" = Some audio /\
    d !! "prompt" = Some (VStr p) /\
    whisper_executor (executor_args d audio) = Ok res /\
    res !! "text" = Some text /\
    str_format "Audio File ASR Result: {}" [text] = Ok line /\
    str_format p [text] = Ok p'.
Proof.
  intros Hd. unfold _run_model.
  rewrite (bind_ok _ _ _ _ _ (deref_ok _ _ _ Hd)).
  intros Hrun.
  apply bind_ok_inv in Hrun as (audio & s1 & Ha & Hrun).
  apply lift_ok_inv in Ha as [Ha ->].
  apply bind_ok_inv in Hrun as (res & s1 & Hw & Hrun).
  apply lift_ok_inv in Hw as [Hw ->].
  apply bind_ok_inv in Hrun as (text & s1 & Ht & Hrun).
  apply lift_ok_inv in Ht as [Ht ->].
  apply bind_ok_inv in Hrun as (line & s1 & Hl & Hrun).
  apply lift_ok_inv in Hl as [Hl ->].
  apply bind_ok_inv in Hrun as ([] & s1 & _ & Hrun).
  apply bind_ok_inv in Hrun as (prompt & s2 & Hp & Hrun).
  apply lift_ok_inv in Hp as [Hp ->].
  apply bind_ok_inv in Hrun as (p' & s2 & Hf & Hrun).
  apply lift_ok_inv in Hf as [Hf ->].
  unfold getitem in Ha, Ht, Hp.
  destruct (d !! "audio") as [a|] eqn:Ea; [|discriminate].
  destruct (res !! "text") as [t|] eqn:Et; [|discriminate].
  destruct (d !! "prompt") as [pv|] eqn:Ep; [|discriminate].
  injection Ha as <-. injection Ht as <-. injection Hp as <-.
  destruct pv as [| | | |p|]; cbn [format_method] in Hf; try discriminate.
  exists a, res, t, line, p, p'. repeat split; assumption || reflexivity.
Qed.

(** C9. [_run_model] returns the dict it was given (the same object) and
    writes only its ["prompt"] entry: every other key of the dict, and every
    other object, is as before; the new prompt is the old prompt string
    formatted with the text the executor returned. [_postprocess] hands its
    input on unchanged. The first part says when the call returns, the
    second what it has done when it returned. *)
Theorem run_model_frame (s : state) (inputs : loc) (d : dict) :
  heap s !! inputs = Some d ->
  _preprocess inputs s = (Ok inputs, s) ->
  (forall audio res text line p p',
     d !! "audio" = Some audio ->
     d !! "prompt" = Some (VStr p) ->
     whisper_executor (executor_args d audio) = Ok res ->
     res !! "text" = Some text ->
     str_format "Audio File ASR Result: {}" [text] = Ok line ->
     str_format p [text] = Ok p' ->
     fst (_run_model inputs s) = Ok inputs) /\
  (forall out s',
     _run_model inputs s = (Ok out, s') ->
     out = inputs /\
     (exists audio res text p p',
        d !! "audio" = Some audio /\
        d !! "prompt" = Some (VStr p) /\
        whisper_executor (executor_args d audio) = Ok res /\
        res !! "text" = Some text /\
        str_format p [text] = Ok p' /\
        heap s' !! inputs = Some (<["prompt" := VStr p']> d)) /\
     (forall d' k, heap s' !! inputs = Some d' -> k <> "prompt" ->
                   d' !! k = d !! k) /\
     (forall other, other <> inputs -> heap s' !! other = heap s !! other) /\
     _postprocess out s' = (Ok out, s')).
Proof.
  intros Hd _. split.
  - intros audio res text line p p' Ha Hp Hw Ht Hl Hf.
    rewrite (run_model_ok s inputs d audio res text line p p'); auto.
  - intros out s' Hrun.
    destruct (run_model_ok_inv s inputs d out s' Hd Hrun)
      as (audio & res & text & line & p & p' & Ha & Hp & Hw & Ht & Hl & Hf).
    rewrite (run_model_ok s inputs d audio res text line p p') in Hrun; auto.
    injection Hrun as <- <-. cbn [heap].
    split; [reflexivity|]. split; [|split; [|split]].
    + exists audio, res, text, p, p'. rewrite lookup_insert_eq. auto 10.
    + intros d' k Hd' Hk. rewrite lookup_insert_eq in Hd'. injection Hd' as <-.
      rewrite lookup_insert_ne by congruence. reflexivity.
    + intros other Hother. rewrite lookup_insert_ne by congruence. reflexivity.
    + reflexivity.
Qed.

End RunModel.

Lemma run_model_frame_example :
  heap Samples.asr_state !! 1%positive = Some Samples.asr_inputs /\
  fst (@_run_model Samples.asr_env 1%positive Samples.asr_state) = Ok 1%positive.
Proof.
  assert (Hd : heap Samples.asr_state !! 1%positive = Some Samples.asr_inputs)
    by (vm_compute; reflexivity).
  split; [exact Hd|].
  assert (Hpre : _preprocess 1%positive Samples.asr_state
                 = (Ok 1%positive, Samples.asr_state)) by (vm_compute; reflexivity).
  refine (proj1 (@run_model_frame Samples.asr_env Samples.asr_state 1%positive Samples.asr_inputs
                   Hd Hpre)
            (VStr "speech.wav") {[ "text" := VStr "hello world" ]}
            (VStr "hello world") "Audio File ASR Result: hello world"
            "Summarise: {}" "Summarise: hello world" _ _ _ _ _ _);
    vm_compute; reflexivity.
Defined.

End AudioASRProofs.

(** ** [lora.py]: loading, fusing and unfusing *)

Module LoraProofs.
Import Py PyFacts Lora.
Local Open Scope py_scope.

Lemma key_without_lora_not_kohya k :
  str_in "lora" k = false -> is_kohya_key k = false.
Proof.
  intros Hk. unfold is_kohya_key.
  assert (Hp : forall p, str_in "lora" p = true -> startswith p k = false).
  { intros p Hp. destruct (startswith p k) eqn:E; [|reflexivity].
    rewrite (str_in_prefix "lora" p k Hp E) in Hk. discriminate. }
  rewrite !Hp by reflexivity. reflexivity.
Qed.

Section Loading.
Context {Tensor Unet LoraLayer Linear UnetConfig HubArgs : Type}.
Context `{E : @Env Tensor Unet LoraLayer Linear UnetConfig HubArgs}.

Abbreviation pipeline := (@pipeline Unet LoraLayer Linear).
Abbreviation kwargs := (@kwargs UnetConfig HubArgs).

(** A supplied dict that is no Kohya checkpoint is returned as it is. *)
Lemma lora_state_dict_as_is (d : gmap string Tensor) (kw : kwargs) :
  all_keys is_kohya_key d = false ->
  lora_state_dict (inr d) kw
  = Ok (d, None, default FROM_DIFFUSERS (kw_from_diffusers kw)).
Proof. intros Hk. unfold lora_state_dict. cbn [rbind]. rewrite Hk. reflexivity. Qed.

Lemma check_format_rejects (sd : gmap string Tensor) k :
  is_Some (sd !! k) -> str_in "lora" k = false ->
  check_format sd = Raise (Exn ValueError "Invalid LoRA checkpoint.").
Proof.
  intros Hk Hl. unfold check_format.
  rewrite (all_keys_false _ sd k Hk Hl). reflexivity.
Qed.

(** C2. When the state dict that [lora_state_dict] hands to
    [load_lora_weights] (or to the SDXL override) has a key without the
    substring "lora", the call raises [ValueError("Invalid LoRA
    checkpoint.")] and leaves the pipeline, its UNet and its text encoders
    as they were. A dict passed in with such a key is such a state dict.
    The SDXL override gets a state dict only when the caller passes no
    [unet_config] of their own; with one the call of [lora_state_dict] is
    refused with a [TypeError], and the pipeline is again as it was. *)
Theorem invalid_checkpoint_rejected
    (src : string + gmap string Tensor) (adapter_name : option string)
    (kw : kwargs) (self : pipeline) :
  (forall sd na fd k,
     lora_state_dict src kw = Ok (sd, na, fd) ->
     is_Some (sd !! k) -> str_in "lora" k = false ->
     load_lora_weights src adapter_name kw self
     = (Raise (Exn ValueError "Invalid LoRA checkpoint."), self)) /\
  (forall kw' sd na fd k,
     sdxl_kwargs (config_of_unet (unet self)) kw = Ok kw' ->
     lora_state_dict src kw' = Ok (sd, na, fd) ->
     is_Some (sd !! k) -> str_in "lora" k = false ->
     sdxl_load_lora_weights src adapter_name kw self
     = (Raise (Exn ValueError "Invalid LoRA checkpoint."), self)) /\
  (forall (d : gmap string Tensor) k,
     src = inr d -> is_Some (d !! k) -> str_in "lora" k = false ->
     load_lora_weights src adapter_name kw self
     = (Raise (Exn ValueError "Invalid LoRA checkpoint."), self) /\
     (kw_unet_config kw = None ->
      sdxl_load_lora_weights src adapter_name kw self
      = (Raise (Exn ValueError "Invalid LoRA checkpoint."), self))) /\
  (forall cfg,
     kw_unet_config kw = Some cfg ->
     exists msg,
       sdxl_load_lora_weights src adapter_name kw self
       = (Raise (Exn TypeError msg), self)).
Proof.
  assert (H1 : forall sd na fd k,
     lora_state_dict src kw = Ok (sd, na, fd) ->
     is_Some (sd !! k) -> str_in "lora" k = false ->
     load_lora_weights src adapter_name kw self
     = (Raise (Exn ValueError "Invalid LoRA checkpoint."), self)).
  { intros sd na fd k Hsd Hk Hl. unfold load_lora_weights, bind, lift.
    rewrite Hsd, (check_format_rejects sd k Hk Hl). reflexivity. }
  assert (H2 : forall kw' sd na fd k,
     sdxl_kwargs (config_of_unet (unet self)) kw = Ok kw' ->
     lora_state_dict src kw' = Ok (sd, na, fd) ->
     is_Some (sd !! k) -> str_in "lora" k = false ->
     sdxl_load_lora_weights src adapter_name kw self
     = (Raise (Exn ValueError "Invalid LoRA checkpoint."), self)).
  { intros kw' sd na fd k Hkw Hsd Hk Hl.
    unfold sdxl_load_lora_weights, bind, lift, gets.
    rewrite Hkw, Hsd, (check_format_rejects sd k Hk Hl). reflexivity. }
  split; [exact H1|]. split; [exact H2|]. split.
  - intros d k -> Hk Hl.
    assert (Hnk : all_keys is_kohya_key d = false)
      by (apply (all_keys_false _ d k Hk), key_without_lora_not_kohya, Hl).
    split.
    + apply (H1 d None _ k (lora_state_dict_as_is d kw Hnk) Hk Hl).
    + intros Hcfg.
      assert (Hkw : exists kw', sdxl_kwargs (config_of_unet (unet self)) kw = Ok kw')
        by (unfold sdxl_kwargs; rewrite Hcfg; eauto).
      destruct Hkw as (kw' & Hkw).
      apply (H2 kw' d None _ k Hkw (lora_state_dict_as_is d kw' Hnk) Hk Hl).
  - intros cfg Hcfg. eexists.
    unfold sdxl_load_lora_weights, bind, lift, gets, sdxl_kwargs.
    rewrite Hcfg. reflexivity.
Qed.


(** *** The counter of fused LoRAs *)

Lemma keeps_counter_ret {A} (a : A) : keeps_counter (ret a : M pipeline A).
Proof. intros p. reflexivity. Qed.

Lemma keeps_counter_bind {A B} (m : M pipeline A) (k : A -> M pipeline B) :
  keeps_counter m -> (forall a, keeps_counter (k a)) -> keeps_counter (bind m k).
Proof.
  intros Hm Hk p. unfold bind. specialize (Hm p).
  destruct (m p) as [[a|e] p1]; simpl in *.
  - rewrite Hk. exact Hm.
  - exact Hm.
Qed.

Lemma keeps_counter_ok {A} (m : M pipeline A) p a p' :
  keeps_counter m -> m p = (Ok a, p') -> num_fused_loras p' = num_fused_loras p.
Proof. intros Hm Hrun. specialize (Hm p). rewrite Hrun in Hm. exact Hm. Qed.

Lemma keeps_counter_warn msg : keeps_counter (logger_warn msg : M pipeline unit).
Proof. intros p. reflexivity. Qed.

Lemma keeps_counter_on_unet {A} (m : M Unet A) :
  keeps_counter (on_unet m : M pipeline A).
Proof. intros p. unfold on_unet, zoom. destruct (m (unet p)). reflexivity. Qed.

Lemma keeps_counter_text_encoder m :
  keeps_counter (if_has_text_encoder m : M pipeline unit).
Proof.
  intros p. unfold if_has_text_encoder.
  destruct (text_encoder p) as [te|]; [destruct (m te)|]; reflexivity.
Qed.

Lemma keeps_counter_text_encoder_2 m :
  keeps_counter (if_has_text_encoder_2 m : M pipeline unit).
Proof.
  intros p. unfold if_has_text_encoder_2.
  destruct (text_encoder_2 p) as [te|]; [destruct (m te)|]; reflexivity.
Qed.

Create HintDb counter.
#[local] Hint Resolve keeps_counter_ret keeps_counter_warn keeps_counter_on_unet
  keeps_counter_text_encoder keeps_counter_text_encoder_2 : counter.

Ltac counter :=
  repeat first
    [ apply keeps_counter_bind; [|intros ?]
    | match goal with |- keeps_counter (if ?b then _ else _) => destruct b end
    | progress unfold deprecate
    | progress cbv zeta
    | solve [auto with counter] ].

(** [fuse_lora] with a flag set leaves the counter one higher, whether it
    returns or raises. *)
Lemma fuse_lora_counter fuse_unet fuse_text_encoder scale safe_fusing (p : pipeline) :
  fuse_unet || fuse_text_encoder = true ->
  num_fused_loras (snd (fuse_lora fuse_unet fuse_text_encoder scale safe_fusing p))
  = num_fused_loras p + 1.
Proof.
  intros Hflag. unfold fuse_lora. rewrite Hflag.
  match goal with
  | |- num_fused_loras (snd (bind ?m ?k p)) = _ =>
      assert (Hinc : exists p1, m p = (Ok tt, p1) /\
                       num_fused_loras p1 = num_fused_loras p + 1);
      [|assert (Hrest : keeps_counter (k tt)) by (cbv beta zeta; counter)]
  end.
  { unfold bind, gets, set_num_fused_loras, modify. cbn [num_fused_loras].
    destruct (1 <? num_fused_loras p + 1); eexists; split; reflexivity. }
  destruct Hinc as (p1 & Hm & Hp1).
  rewrite (bind_ok _ _ _ _ _ Hm), Hrest. exact Hp1.
Qed.

(** [unfuse_lora], when it returns, leaves the counter one lower. *)
Lemma unfuse_lora_counter unfuse_unet unfuse_text_encoder (p p' : pipeline) :
  unfuse_lora unfuse_unet unfuse_text_encoder p = (Ok tt, p') ->
  num_fused_loras p' = num_fused_loras p - 1.
Proof.
  unfold unfuse_lora. intros Hrun.
  apply bind_ok_inv in Hrun as ([] & p1 & H1 & Hrun).
  apply bind_ok_inv in Hrun as ([] & p2 & H2 & Hrun).
  apply bind_ok_inv in Hrun as ([] & p3 & H3 & Hrun).
  assert (K1 : num_fused_loras p1 = num_fused_loras p)
    by (eapply keeps_counter_ok; [|exact H1]; counter).
  assert (K2 : num_fused_loras p2 = num_fused_loras p1)
    by (eapply keeps_counter_ok; [|exact H2]; counter).
  assert (K3 : num_fused_loras p3 = num_fused_loras p2)
    by (eapply keeps_counter_ok; [|exact H3]; cbv zeta; counter).
  unfold bind, gets, set_num_fused_loras, modify in Hrun.
  injection Hrun as <-. cbn [num_fused_loras]. lia.
Qed.

(** C5. A [fuse_lora] call with [fuse_unet] or [fuse_text_encoder] set
    raises [num_fused_loras] by exactly one, an [unfuse_lora] call lowers it
    by exactly one: after the two the counter is back at its value before
    the fuse. *)
Theorem fuse_unfuse_restores_counter
    (fuse_unet fuse_text_encoder safe_fusing : bool) (scale : float)
    (self self1 self2 : pipeline) :
  fuse_unet || fuse_text_encoder = true ->
  fuse_lora fuse_unet fuse_text_encoder scale safe_fusing self = (Ok tt, self1) ->
  unfuse_lora fuse_unet fuse_text_encoder self1 = (Ok tt, self2) ->
  num_fused_loras self1 = num_fused_loras self + 1 /\
  num_fused_loras self2 = num_fused_loras self1 - 1 /\
  num_fused_loras self2 = num_fused_loras self.
Proof.
  intros Hflag Hfuse Hunfuse.
  pose proof (fuse_lora_counter fuse_unet fuse_text_encoder scale safe_fusing
                self Hflag) as H1.
  rewrite Hfuse in H1. cbn [snd] in H1.
  pose proof (unfuse_lora_counter _ _ _ _ Hunfuse) as H2.
  repeat split; lia.
Qed.

End Loading.

Lemma invalid_checkpoint_rejected_example :
  is_Some (Samples.bad_state_dict !! "unet.conv_in.weight") /\
  str_in "lora" "unet.conv_in.weight" = false /\
  @load_lora_weights _ _ _ _ _ _ Samples.lora_env (inr Samples.bad_state_dict)
    None Samples.lora_kwargs Samples.lora_pipeline
  = (Raise (Exn ValueError "Invalid LoRA checkpoint."), Samples.lora_pipeline) /\
  @sdxl_load_lora_weights _ _ _ _ _ _ Samples.lora_env (inr Samples.bad_state_dict)
    None Samples.lora_kwargs Samples.lora_pipeline
  = (Raise (Exn ValueError "Invalid LoRA checkpoint."), Samples.lora_pipeline).
Proof.
  assert (Hk : is_Some (Samples.bad_state_dict !! "unet.conv_in.weight"))
    by (vm_compute; eauto).
  assert (Hl : str_in "lora" "unet.conv_in.weight" = false) by reflexivity.
  split; [exact Hk|]. split; [exact Hl|].
  destruct (proj1 (proj2 (proj2 (@invalid_checkpoint_rejected _ _ _ _ _ _
                                   Samples.lora_env
                                   (inr Samples.bad_state_dict) None
                                   Samples.lora_kwargs Samples.lora_pipeline)))
              Samples.bad_state_dict "unet.conv_in.weight" eq_refl Hk Hl)
    as [Hbase Hsdxl].
  split; [exact Hbase|exact (Hsdxl eq_refl)].
Defined.



Lemma fuse_unfuse_restores_counter_example :
  exists self1 self2,
    @fuse_lora _ _ _ _ _ _ Samples.lora_env true true 1%float false
      Samples.lora_pipeline = (Ok tt, self1) /\
    @unfuse_lora _ _ _ _ _ _ Samples.lora_env true true self1 = (Ok tt, self2) /\
    num_fused_loras self1 = 1 /\ num_fused_loras self2 = 0.
Proof.
  eexists. eexists.
  assert (Hf : @fuse_lora _ _ _ _ _ _ Samples.lora_env true true 1%float false
                 Samples.lora_pipeline
               = (Ok tt, snd (@fuse_lora _ _ _ _ _ _ Samples.lora_env true true
                                1%float false Samples.lora_pipeline)))
    by (vm_compute; reflexivity).
  assert (Hu : @unfuse_lora _ _ _ _ _ _ Samples.lora_env true true
                 (snd (@fuse_lora _ _ _ _ _ _ Samples.lora_env true true
                         1%float false Samples.lora_pipeline))
               = (Ok tt, snd (@unfuse_lora _ _ _ _ _ _ Samples.lora_env true true
                   (snd (@fuse_lora _ _ _ _ _ _ Samples.lora_env true true
                           1%float false Samples.lora_pipeline)))))
    by (vm_compute; reflexivity).
  split; [exact Hf|]. split; [exact Hu|].
  destruct (@fuse_unfuse_restores_counter _ _ _ _ _ _ Samples.lora_env
              true true false 1%float _ _ _ eq_refl Hf Hu) as (H1 & H2 & H3).
  split; [exact H1|]. rewrite H3. reflexivity.
Defined.

End LoraProofs.

(** ** [pipeline_controlnet_img2img.py]: validation, timesteps, latents, loop *)

Module ControlNetProofs.
Import Py PyFacts ControlNetImg2Img.
Local Open Scope py_scope.

(** *** [check_inputs] on the control guidance *)

Lemma check_guidance_pairs_bad l s e :
  In (s, e) l -> bad_window s e = true ->
  raises ValueError (check_guidance_pairs l).
Proof.
  unfold bad_window. induction l as [|[s0 e0] l IH]; simpl; [tauto|].
  intros [Heq|Hin] Hbad.
  - injection Heq as -> ->.
    destruct (PyFloat.geb s e); [eexists; reflexivity|].
    destruct (PrimFloat.ltb s 0); [eexists; reflexivity|].
    destruct (PyFloat.gtb e 1); [eexists; reflexivity|].
    discriminate.
  - destruct (PyFloat.geb s0 e0); [eexists; reflexivity|].
    destruct (PrimFloat.ltb s0 0); [eexists; reflexivity|].
    destruct (PyFloat.gtb e0 1); [eexists; reflexivity|].
    auto.
Qed.

Lemma check_control_guidance_refuses (a : check_args) :
  length (ca_control_guidance_start a) <> length (ca_control_guidance_end a) \/
  (exists s e,
     In (s, e) (combine (ca_control_guidance_start a) (ca_control_guidance_end a)) /\
     bad_window s e = true) ->
  raises ValueError (check_control_guidance a).
Proof.
  unfold check_control_guidance, len_Z. intros Hbad.
  destruct (Z.eqb_spec (Z.of_nat (length (ca_control_guidance_start a)))
              (Z.of_nat (length (ca_control_guidance_end a)))) as [Hlen|Hlen]; simpl.
  - destruct Hbad as [Hne|(s & e & Hin & Hbad)]; [lia|].
    destruct (ca_controlnet a) as [g|nets|]; cbn [rbind];
      try (eapply check_guidance_pairs_bad; eassumption).
    destruct (Z.of_nat (length (ca_control_guidance_start a)) =? Z.of_nat (length nets));
      cbn [negb rbind]; [|eexists; reflexivity].
    eapply check_guidance_pairs_bad; eassumption.
  - eexists; reflexivity.
Qed.

(** C6. When [control_guidance_start] and [control_guidance_end] differ in
    length, or some pair [(start, end)] of the two has [start >= end], or
    [start < 0.0], or [end > 1.0], [check_inputs] does not return: it raises,
    and what it raises is a [ValueError] whenever the checks that come before
    the control guidance (lines 332-402) have passed. *)
Theorem check_inputs_refuses_bad_guidance (a : check_args) :
  length (ca_control_guidance_start a) <> length (ca_control_guidance_end a) \/
  (exists start end_,
     In (start, end_)
        (combine (ca_control_guidance_start a) (ca_control_guidance_end a)) /\
     (PyFloat.geb start end_ = true \/ PrimFloat.ltb start 0 = true \/
      PyFloat.gtb end_ 1 = true)) ->
  is_ok (check_inputs a) = false /\
  (check_inputs_head a = Ok tt -> raises ValueError (check_inputs a)).
Proof.
  intros Hbad.
  assert (Hr : raises ValueError (check_control_guidance a)).
  { apply check_control_guidance_refuses.
    destruct Hbad as [Hlen|(s & e & Hin & Hb)]; [left; exact Hlen|right].
    exists s, e. split; [exact Hin|]. unfold bad_window.
    destruct Hb as [-> | [-> | ->]]; rewrite ?orb_true_r; reflexivity. }
  unfold check_inputs. destruct (check_inputs_head a) as [[]|e]; cbn [rbind].
  - destruct Hr as [msg ->]. split; [reflexivity|]. intros _. eexists; reflexivity.
  - split; [reflexivity|]. discriminate.
Qed.

Lemma check_inputs_refuses_bad_guidance_example :
  In (0.5%float, 0.25%float)
     (combine (ca_control_guidance_start Samples.bad_check_args)
              (ca_control_guidance_end Samples.bad_check_args)) /\
  PyFloat.geb 0.5 0.25 = true /\
  raises ValueError (check_inputs Samples.bad_check_args).
Proof.
  assert (Hin : In (0.5%float, 0.25%float)
                  (combine (ca_control_guidance_start Samples.bad_check_args)
                           (ca_control_guidance_end Samples.bad_check_args)))
    by (simpl; left; reflexivity).
  assert (Hge : PyFloat.geb 0.5 0.25 = true) by reflexivity.
  split; [exact Hin|]. split; [exact Hge|].
  apply (check_inputs_refuses_bad_guidance Samples.bad_check_args).
  - right. exists 0.5%float, 0.25%float. split; [exact Hin|]. left. exact Hge.
  - reflexivity.
Defined.


(** *** The conditioning-scale schedule *)

(** In [__call__], after [check_inputs]: the conditioning scale is a float
    for one ControlNet and a list for several; two floats for the guidance
    window of one ControlNet make one pair. *)
Lemma conditioning_scale_shape (a : check_args) :
  check_inputs_head a = Ok tt ->
  is_scalar (normalize_conditioning_scale (ca_controlnet a)
               (ca_controlnet_conditioning_scale a))
  = is_single (ca_controlnet a).
Proof.
  unfold check_inputs_head. intros Hhead.
  apply rbind_ok_inv in Hhead as (? & _ & Hhead).
  apply rbind_ok_inv in Hhead as (? & _ & Hhead).
  apply rbind_ok_inv in Hhead as (? & _ & Hhead).
  apply rbind_ok_inv in Hhead as (? & _ & Hhead).
  apply rbind_ok_inv in Hhead as (? & _ & Hhead).
  destruct (ca_controlnet a) as [g|nets|]; [| |discriminate].
  - destruct (ca_controlnet_conditioning_scale a); [reflexivity|discriminate].
  - destruct (ca_controlnet_conditioning_scale a); reflexivity.
Qed.

Lemma guidance_window_of_floats g s e :
  normalize_control_guidance (ControlNetModel g) (Scalar s) (Scalar e) = ([s], [e]).
Proof. reflexivity. Qed.

Lemma rmap_ok {A B} (f : A -> result B) (g : A -> B) (l : list A) :
  (forall a, In a l -> f a = Ok (g a)) -> rmap f l = Ok (map g l).
Proof.
  induction l as [|a l IH]; intros Hf; simpl; [reflexivity|].
  rewrite (Hf a) by (left; reflexivity). cbn [rbind].
  rewrite IH by (intros b Hb; apply Hf; right; exact Hb). reflexivity.
Qed.



Lemma keeps_spec i n (pairs : list (float * float)) x y :
  PyFloat.int_truediv i n = Ok x -> PyFloat.int_truediv (i + 1) n = Ok y ->
  keeps i n pairs = Ok (map (keep_factor x y) pairs).
Proof.
  intros Hx Hy. unfold keeps. apply rmap_ok. intros [s e] _.
  rewrite Hx, Hy. cbn [rbind]. unfold keep_factor, in_window. cbn [fst snd].
  destruct (PrimFloat.ltb x s); [reflexivity|].
  destruct (PyFloat.gtb y e); reflexivity.
Qed.

Lemma fraction_ok i n :
  (i < n)%nat ->
  PyFloat.int_truediv (Z.of_nat i) (Z.of_nat n) = Ok (fraction (Z.of_nat i) (Z.of_nat n)) /\
  PyFloat.int_truediv (Z.of_nat i + 1) (Z.of_nat n)
    = Ok (fraction (Z.of_nat i + 1) (Z.of_nat n)) /\
  is_nan (fraction (Z.of_nat i) (Z.of_nat n)) = false /\
  is_nan (fraction (Z.of_nat i + 1) (Z.of_nat n)) = false.
Proof.
  intros Hi. unfold fraction.
  destruct (Binary64.int_truediv_fraction (Z.of_nat i) (Z.of_nat n))
    as (x & -> & Hx); [lia|lia|].
  destruct (Binary64.int_truediv_fraction (Z.of_nat i + 1) (Z.of_nat n))
    as (y & -> & Hy); [lia|lia|].
  auto.
Qed.



Section Sampling.
Context {Tensor Timestep Generator Dtype StepKwargs AttnKwargs Ext : Type}.
Context `{E : @Env Tensor Timestep Generator Dtype StepKwargs AttnKwargs Ext}.

Abbreviation world := (@world Tensor Timestep Generator Dtype StepKwargs AttnKwargs Ext).
Abbreviation generator_arg := (@generator_arg Generator).
Abbreviation event := (@event Tensor Timestep Generator Dtype StepKwargs AttnKwargs).
Abbreviation loop_args := (@loop_args Tensor Timestep StepKwargs AttnKwargs).
Abbreviation latent_image := (@latent_image Tensor).

(** *** [get_timesteps] *)

(** C4. For [num_inference_steps >= 1] and [strength] in [[0, 1]], with
    [k = int(num_inference_steps * strength)]: [get_timesteps] returns, as
    its second component, [num_inference_steps - t_start] for
    [t_start = max(num_inference_steps - min(k, num_inference_steps), 0)],
    which is [min(k, num_inference_steps)]; its first component is the
    scheduler's timesteps without the first [t_start * scheduler.order];
    the scheduler is left alone. The product is a float: [k] exists for
    every [num_inference_steps] below [2^1000] (beyond [2^1024] Python
    itself refuses to make the [int] a [float]). *)
Theorem get_timesteps_effective_steps
    (num_inference_steps : Z) (strength : float) (w : world) :
  1 <= num_inference_steps ->
  (0 <=? strength)%float = true -> (strength <=? 1)%float = true ->
  (forall p k,
     PyFloat.int_mul num_inference_steps strength = Ok p ->
     PyFloat.to_int p = Ok k ->
     let t_start := Z.max (num_inference_steps - Z.min k num_inference_steps) 0 in
     0 <= k /\
     num_inference_steps - t_start = Z.min k num_inference_steps /\
     get_timesteps num_inference_steps strength w
     = (Ok (skipn (Z.to_nat (t_start * Zpos scheduler_order))
              (timesteps_of_scheduler w),
            num_inference_steps - t_start), w)) /\
  (num_inference_steps < 2 ^ 1000 ->
   exists p k, PyFloat.int_mul num_inference_steps strength = Ok p /\
               PyFloat.to_int p = Ok k).
Proof.
  intros Hn H0 H1. split.
  - intros p k Hp Hk t_start.
    assert (Hk0 : 0 <= k).
    { unfold PyFloat.int_mul in Hp.
      destruct (PyFloat.of_int num_inference_steps) as [f|e] eqn:Hf; [|discriminate].
      injection Hp as <-.
      eapply Binary64.to_int_mul_nonneg; [|exact H0|exact H1|exact Hk].
      eapply Binary64.of_int_sign; [|exact Hf]. lia. }
    split; [exact Hk0|]. split; [subst t_start; lia|].
    unfold get_timesteps, bind, lift, gets, ret. rewrite Hp, Hk.
    fold t_start.
    rewrite slice_from_nonneg by (apply Z.mul_nonneg_nonneg; subst t_start; lia).
    reflexivity.
  - intros Hlt.
    destruct (Binary64.int_mul_unit_interval num_inference_steps strength
                ltac:(lia) H0 H1) as (f & k & Hf & Hk & _).
    exists f, k. auto.
Qed.

(** *** [prepare_latents] *)

Lemma match_batch_size_duplicates (batch_size n : Z) rest (init_latents : Tensor)
    (w : world) :
  shape init_latents = n :: rest -> 0 < n -> n < batch_size ->
  batch_size mod n = 0 ->
  match_batch_size batch_size init_latents w
  = (Ok (concat (repeat init_latents (Z.to_nat (batch_size / n)))),
     warned w DUPLICATION_DEPRECATION_MESSAGE).
Proof.
  intros Hsh Hn Hlt Hmod. unfold match_batch_size, bind, lift, shape_at.
  rewrite Hsh. cbn [nth_error].
  destruct (Z.ltb_spec n batch_size) as [_|]; [|lia].
  unfold modulo, floordiv. destruct (Z.eqb_spec n 0) as [|_]; [lia|].
  rewrite Hmod. reflexivity.
Qed.

Lemma match_batch_size_rejects (batch_size n : Z) rest (init_latents : Tensor)
    (w : world) :
  shape init_latents = n :: rest -> 0 < n -> n < batch_size ->
  batch_size mod n <> 0 ->
  match_batch_size batch_size init_latents w
  = (Raise (Exn ValueError
              "Cannot duplicate `image` to the requested number of text prompts."),
     w).
Proof.
  intros Hsh Hn Hlt Hmod. unfold match_batch_size, bind, lift, shape_at.
  rewrite Hsh. cbn [nth_error].
  destruct (Z.ltb_spec n batch_size) as [_|]; [|lia].
  unfold modulo. destruct (Z.eqb_spec n 0) as [|_]; [lia|].
  destruct (Z.eqb_spec (batch_size mod n) 0) as [|_]; [lia|]. reflexivity.
Qed.

(** C7. Once the initial latents are there, [n >= 1] of them, and the
    effective batch size [batch_size * num_images_per_prompt] is larger: if
    it is a multiple of [n], a deprecation warning is emitted and
    [prepare_latents] goes on, to the noise, with the latents concatenated
    with themselves [batch / n] times, which makes [batch] of them; if it
    is not, a [ValueError] is raised and no latents come back. *)
Theorem prepare_latents_batch_mismatch
    (image : latent_image) (timestep : Tensor)
    (batch_size num_images_per_prompt : Z) (dtype : Dtype)
    (generator : generator_arg) (w w1 : world)
    (init_latents : Tensor) (n : Z) (rest : list Z) :
  let batch := batch_size * num_images_per_prompt in
  encode_init_latents image batch dtype generator w = (Ok init_latents, w1) ->
  shape init_latents = n :: rest -> 0 < n -> n < batch ->
  (batch mod n = 0 ->
     let duplicated := concat (repeat init_latents (Z.to_nat (batch / n))) in
     n * (batch / n) = batch /\
     match_batch_size batch init_latents w1
     = (Ok duplicated, warned w1 DUPLICATION_DEPRECATION_MESSAGE) /\
     prepare_latents image timestep batch_size num_images_per_prompt dtype
       generator w
     = add_initial_noise duplicated timestep dtype generator
         (warned w1 DUPLICATION_DEPRECATION_MESSAGE)) /\
  (batch mod n <> 0 ->
     exists msg,
       prepare_latents image timestep batch_size num_images_per_prompt dtype
         generator w
       = (Raise (Exn ValueError msg), w1)).
Proof.
  intros batch Henc Hsh Hn Hlt. split.
  - intros Hmod duplicated.
    pose proof (match_batch_size_duplicates batch n rest init_latents w1
                  Hsh Hn Hlt Hmod) as Hdup.
    split; [|split; [exact Hdup|]].
    + symmetry. apply Z.div_exact; [lia|exact Hmod].
    + unfold prepare_latents. fold batch.
      rewrite (bind_ok _ _ _ _ _ Henc), (bind_ok _ _ _ _ _ Hdup). reflexivity.
  - intros Hmod. eexists. unfold prepare_latents. fold batch.
    rewrite (bind_ok _ _ _ _ _ Henc).
    rewrite (bind_raise _ _ _ _ _
               (match_batch_size_rejects batch n rest init_latents w1
                  Hsh Hn Hlt Hmod)).
    reflexivity.
Qed.


(** *** One iteration of the denoising loop *)

Lemma call_ok_inv {A} (f : Ext -> result A * Ext) (ev : A -> event) (w w' : world) a :
  call f ev w = (Ok a, w') ->
  trace w' = trace w ++ [ev a] /\
  exists x', f (ext w) = (Ok a, x') /\
    w' = World (timesteps_of_scheduler w) x' (trace w ++ [ev a]) (warnings w).
Proof.
  unfold call. destruct (f (ext w)) as [[b|e] x'] eqn:Hf; [|discriminate].
  intros [= -> <-]. split; [reflexivity|]. exists x'. auto.
Qed.

Lemma no_model_call_app (l l' : list event) :
  forallb (fun ev : event => negb (is_model_call ev)) l = true ->
  forallb (fun ev : event => negb (is_model_call ev)) l' = true ->
  forallb (fun ev : event => negb (is_model_call ev)) (l ++ l') = true.
Proof. intros Hl Hl'. rewrite forallb_app, Hl, Hl'. reflexivity. Qed.

(** C3. An iteration of the denoising loop that returns has called, in this
    order, the scheduler's input scaling, the ControlNet, the UNet and the
    scheduler's step, whose result is the next latents; no other call to a
    model or to the step comes in between or after. With
    [guidance_scale > 1.0] the sample that is scaled and given to the UNet is
    the latents concatenated with themselves, and the noise prediction given
    to the step is [uncond + guidance_scale * (text - uncond)] for the two
    halves of the UNet's output. With [guidance_scale <= 1.0] the sample is
    the latents, the ControlNet gets the sample and prompt embedding the
    UNet gets, and the step gets the UNet's output as it is. *)
Theorem denoise_step_guidance
    (a : loop_args) (i : nat) (t : Timestep) (latents latents' : Tensor)
    (w w' : world) :
  denoise_step a i t latents w = (Ok latents', w') ->
  let g := la_guidance_scale a in
  exists input lmi pre cmi emb cs res down mid raw noise_pred post,
    trace w'
    = trace w ++ [EvScaleModelInput input t lmi] ++ pre ++
      [EvControlNet cmi t emb (la_control_image a) cs (la_guess_mode a) res;
       EvUNet lmi t (la_prompt_embeds a) (la_cross_attention_kwargs a) down mid raw;
       EvSchedulerStep noise_pred t latents (la_extra_step_kwargs a) latents'] ++
      post /\
    forallb (fun ev : event => negb (is_model_call ev)) (pre ++ post) = true /\
    ((1 <? g)%float = true ->
       input = concat [latents; latents] /\
       exists uncond text,
         chunk raw 2 = [uncond; text] /\
         noise_pred = tadd uncond (smul g (tsub text uncond))) /\
    ((g <=? 1)%float = true ->
       input = latents /\ pre = [] /\ cmi = lmi /\ emb = la_prompt_embeds a /\
       down = fst res /\ mid = snd res /\ noise_pred = raw).
Proof.
  intros Hrun g. unfold denoise_step in Hrun. cbv zeta in Hrun.
  unfold do_classifier_free_guidance, PyFloat.gtb in Hrun. fold g in Hrun.
  (* the scaled model input *)
  apply bind_ok_inv in Hrun as (lmi & w1 & H1 & Hrun).
  apply call_ok_inv in H1 as (T1 & _).
  (* the inputs of the ControlNet *)
  apply bind_ok_inv in Hrun as (ci & w2 & H2 & Hrun).
  assert (Hpre : exists pre,
             trace w2 = trace w1 ++ pre /\
             forallb (fun ev : event => negb (is_model_call ev)) pre = true /\
             ((1 <? g)%float = false ->
              pre = [] /\ ci = (lmi, la_prompt_embeds a))).
  { destruct (la_guess_mode a && (1 <? g)%float) eqn:Hgm.
    - apply bind_ok_inv in H2 as (cmi & w1' & Hc & H2).
      apply call_ok_inv in Hc as (Tc & _).
      apply bind_ok_inv in H2 as (emb & w1'' & He & H2).
      apply lift_ok_inv in He as [_ ->]. apply ret_inv in H2 as [_ ->].
      eexists. split; [exact Tc|]. split; [reflexivity|].
      intros Hg. rewrite Hg, andb_false_r in Hgm. discriminate.
    - apply ret_inv in H2 as [-> ->]. exists []. rewrite app_nil_r. auto. }
  destruct Hpre as (pre & T2 & Hpre & Hplain).
  apply bind_ok_inv in Hrun as (keep & w2' & Hk & Hrun).
  apply lift_ok_inv in Hk as [_ ->].
  apply bind_ok_inv in Hrun as (cs & w2' & Hcs & Hrun).
  apply lift_ok_inv in Hcs as [_ ->].
  (* ControlNet, UNet *)
  apply bind_ok_inv in Hrun as (res & w3 & H3 & Hrun).
  apply call_ok_inv in H3 as (T3 & _).
  apply bind_ok_inv in Hrun as (raw & w4 & H4 & Hrun).
  apply call_ok_inv in H4 as (T4 & _).
  (* guidance *)
  apply bind_ok_inv in Hrun as (noise_pred & w4' & H5 & Hrun).
  assert (Hnp : w4' = w4 /\
            ((1 <? g)%float = true ->
             exists uncond text,
               chunk raw 2 = [uncond; text] /\
               noise_pred = tadd uncond (smul g (tsub text uncond))) /\
            ((1 <? g)%float = false -> noise_pred = raw)).
  { destruct (1 <? g)%float.
    - apply bind_ok_inv in H5 as (ut & w4'' & Hu & H5).
      apply lift_ok_inv in Hu as [Hu ->]. apply ret_inv in H5 as [-> ->].
      split; [reflexivity|]. split; [|discriminate]. intros _.
      unfold unpack2 in Hu.
      destruct (chunk raw 2) as [|u [|tx [|? ?]]]; try discriminate.
      injection Hu as <-. exists u, tx. auto.
    - apply ret_inv in H5 as [-> ->].
      split; [reflexivity|]. split; [discriminate|reflexivity]. }
  destruct Hnp as (-> & Hcfg & Hnocfg).
  (* the scheduler step, then progress bar and callback *)
  apply bind_ok_inv in Hrun as (next & w5 & H6 & Hrun).
  apply call_ok_inv in H6 as (T6 & _).
  apply bind_ok_inv in Hrun as ([] & w6 & H7 & Hrun).
  apply ret_inv in Hrun as [-> ->].
  assert (Hpost : exists post,
             trace w6 = trace w5 ++ post /\
             forallb (fun ev : event => negb (is_model_call ev)) post = true).
  { match type of H7 with (if ?c then _ else _) _ = _ => destruct c end.
    - apply bind_ok_inv in H7 as ([] & w5' & Hp & H7).
      unfold emit, modify in Hp. injection Hp as <-.
      destruct (la_callback a).
      + apply bind_ok_inv in H7 as (r & w5'' & Hm & H7).
        apply lift_ok_inv in Hm as [_ ->].
        destruct (r =? 0).
        * apply call_ok_inv in H7 as (Tc & _). cbn [trace] in Tc.
          exists [EvProgressBarUpdate; EvCallback (Z.of_nat i) t next].
          split; [|reflexivity]. rewrite Tc, <- app_assoc. reflexivity.
        * apply ret_inv in H7 as [_ ->]. exists [EvProgressBarUpdate].
          split; reflexivity.
      + apply ret_inv in H7 as [_ ->]. exists [EvProgressBarUpdate].
        split; reflexivity.
    - apply ret_inv in H7 as [_ ->]. exists []. rewrite app_nil_r. auto. }
  destruct Hpost as (post & T7 & Hpost).
  eexists _, lmi, pre, (fst ci), (snd ci), cs, res, _, _, raw, noise_pred, post.
  split; [|split; [|split]].
  - rewrite T7, T6, T4, T3, T2, T1. rewrite <- !app_assoc. reflexivity.
  - apply no_model_call_app; assumption.
  - intros Hg. rewrite Hg. split; [reflexivity|]. exact (Hcfg Hg).
  - intros Hle. pose proof (Binary64.leb_true_ltb_false _ _ Hle) as Hg.
    destruct (Hplain Hg) as [-> ->]. rewrite Hg, andb_false_r.
    repeat split; auto.
Qed.

End Sampling.

Lemma get_timesteps_effective_steps_example :
  @get_timesteps _ _ _ _ _ _ _ Samples.sampling_env 10 0.5%float Samples.toy_world
  = (Ok ([400; 300; 200; 100; 0], 5), Samples.toy_world).
Proof.
  assert (Hp : PyFloat.int_mul 10 0.5 = Ok 5%float) by (vm_compute; reflexivity).
  assert (Hk : PyFloat.to_int 5 = Ok 5) by (vm_compute; reflexivity).
  exact (proj2 (proj2 (proj1 (@get_timesteps_effective_steps _ _ _ _ _ _ _
                                Samples.sampling_env 10 0.5%float
                                Samples.toy_world ltac:(lia) eq_refl eq_refl)
                         5%float 5 Hp Hk))).
Defined.

Lemma denoise_step_guidance_example :
  (1 <? 7.5)%float = true /\
  exists w' input lmi,
    @denoise_step _ _ _ _ _ _ _ Samples.sampling_env Samples.toy_loop_args
      0 900 [1%float; 2%float] Samples.toy_world
    = (Ok [0%float; 0%float], w') /\
    hd_error (trace w') = Some (EvScaleModelInput input 900 lmi) /\
    input = [1%float; 2%float; 1%float; 2%float].
Proof.
  split; [reflexivity|].
  set (r := @denoise_step _ _ _ _ _ _ _ Samples.sampling_env Samples.toy_loop_args
              0 900 [1%float; 2%float] Samples.toy_world).
  assert (Hr : r = (Ok [0%float; 0%float], snd r)) by (vm_compute; reflexivity).
  destruct (@denoise_step_guidance _ _ _ _ _ _ _ Samples.sampling_env
              Samples.toy_loop_args 0 900 [1%float; 2%float] [0%float; 0%float]
              Samples.toy_world (snd r) Hr)
    as (input & lmi & pre & cmi & emb & cs & res & down & mid & raw & np & post
        & Htrace & _ & Hcfg & _).
  destruct (Hcfg eq_refl) as (Hinput & _).
  exists (snd r), input, lmi. split; [exact Hr|]. split; [|exact Hinput].
  rewrite Htrace. reflexivity.
Defined.

Lemma prepare_latents_batch_mismatch_example :
  @prepare_latents _ _ _ _ _ _ _ Samples.sampling_env
    (LTensor [1%float; 2%float]) [900%float] 2 2 tt GenNone Samples.toy_world
  = @add_initial_noise _ _ _ _ _ _ _ Samples.sampling_env
      [1%float; 2%float; 1%float; 2%float] [900%float] tt GenNone
      (warned Samples.toy_world DUPLICATION_DEPRECATION_MESSAGE) /\
  exists msg,
    @prepare_latents _ _ _ _ _ _ _ Samples.sampling_env
      (LTensor [1%float; 2%float]) [900%float] 3 1 tt GenNone Samples.toy_world
    = (Raise (Exn ValueError msg), Samples.toy_world).
Proof.
  split.
  - refine (proj2 (proj2 (proj1 (@prepare_latents_batch_mismatch _ _ _ _ _ _ _
              Samples.sampling_env (LTensor [1%float; 2%float]) [900%float] 2 2 tt
              GenNone Samples.toy_world Samples.toy_world [1%float; 2%float] 2 [4]
              _ _ _ _) _)));
      (reflexivity || lia).
  - refine (proj2 (@prepare_latents_batch_mismatch _ _ _ _ _ _ _
              Samples.sampling_env (LTensor [1%float; 2%float]) [900%float] 3 1 tt
              GenNone Samples.toy_world Samples.toy_world [1%float; 2%float] 2 [4]
              _ _ _ _) _);
      (reflexivity || lia || (vm_compute; discriminate)).
Defined.

End ControlNetProofs.

(** ** Frame reasoning for the state-and-exception monad *)

Module PyFrameFacts.
Import Py PyFacts PyFrame.
Local Open Scope py_scope.

Section Keeps.
Context {S B : Type} (Q : B -> Prop) (f : S -> B).

Lemma keeps_always {A} (m : M S A) : keeps f m -> keeps_when Q f m.
Proof. intros Hm s _. apply Hm. Qed.

Lemma keeps_when_true {A} (m : M S A) : keeps_when (fun _ => True) f m -> keeps f m.
Proof. intros Hm s. apply Hm. exact I. Qed.

Lemma keeps_when_ret {A} (a : A) : keeps_when Q f (ret a).
Proof. intros s _. reflexivity. Qed.

Lemma keeps_when_throw {A} c msg : keeps_when Q f (throw c msg : M S A).
Proof. intros s _. reflexivity. Qed.

Lemma keeps_when_lift {A} (r : result A) : keeps_when Q f (lift r).
Proof. intros s _. reflexivity. Qed.

Lemma keeps_when_gets {A} (g : S -> A) : keeps_when Q f (gets g).
Proof. intros s _. reflexivity. Qed.

Lemma keeps_when_modify (g : S -> S) :
  (forall s, f (g s) = f s) -> keeps_when Q f (modify g).
Proof. intros Hg s _. apply Hg. Qed.

Lemma keeps_when_bind {A C} (m : M S A) (k : A -> M S C) :
  keeps_when Q f m -> (forall a, keeps_when Q f (k a)) ->
  keeps_when Q f (bind m k).
Proof.
  intros Hm Hk s HQ. unfold bind. specialize (Hm s HQ).
  destruct (m s) as [[a|e] s1]; cbn [snd] in *.
  - rewrite Hk by (rewrite Hm; exact HQ). exact Hm.
  - exact Hm.
Qed.

Lemma keeps_when_if {A} (b : bool) (m1 m2 : M S A) :
  keeps_when Q f m1 -> keeps_when Q f m2 ->
  keeps_when Q f (if b then m1 else m2).
Proof. destruct b; auto. Qed.

Lemma keeps_when_run {A} (m : M S A) s r s' :
  keeps_when Q f m -> Q (f s) -> m s = (r, s') -> f s' = f s.
Proof. intros Hm HQ Hrun. specialize (Hm s HQ). rewrite Hrun in Hm. exact Hm. Qed.

End Keeps.

Section KeepsAlways.
Context {S B : Type} (f : S -> B).

Lemma keeps_ret {A} (a : A) : keeps f (ret a : M S A).
Proof. intros s. reflexivity. Qed.

Lemma keeps_bind {A C} (m : M S A) (k : A -> M S C) :
  keeps f m -> (forall a, keeps f (k a)) -> keeps f (bind m k).
Proof.
  intros Hm Hk. apply keeps_when_true, keeps_when_bind.
  - apply keeps_always, Hm.
  - intros a. apply keeps_always, Hk.
Qed.

Lemma keeps_run {A} (m : M S A) s r s' :
  keeps f m -> m s = (r, s') -> f s' = f s.
Proof. intros Hm Hrun. specialize (Hm s). rewrite Hrun in Hm. exact Hm. Qed.

End KeepsAlways.

(** A loop keeps, element by element, what its body keeps. *)
Lemma for_elems_keeps {A B} (f : A -> B) (body : M A unit) :
  keeps f body -> keeps (map f) (for_elems body).
Proof.
  intros Hb l. induction l as [|x l IH]; [reflexivity|].
  cbn [for_elems]. specialize (Hb x).
  destruct (body x) as [[[]|e] x']; cbn [snd] in Hb.
  - destruct (for_elems body l) as [r l']. cbn [snd map] in *.
    rewrite Hb, IH. reflexivity.
  - cbn [snd map]. rewrite Hb. reflexivity.
Qed.

(** A loop whose body does nothing on any element does nothing. *)
Lemma for_elems_skip {A} (body : M A unit) (l : list A) :
  Forall (fun x => body x = (Ok tt, x)) l -> for_elems body l = (Ok tt, l).
Proof.
  induction 1 as [|x l Hx _ IH]; [reflexivity|].
  cbn [for_elems]. rewrite Hx, IH. reflexivity.
Qed.

Lemma zoom_keeps {S T A B} (get : S -> T) (set : T -> S -> S) (f : S -> B)
    (m : M T A) :
  (forall t s, f (set t s) = f s) -> keeps f (zoom get set m).
Proof. intros Hset s. unfold zoom. destruct (m (get s)). apply Hset. Qed.

(** [zoom] on a part [get s] of the state: [f] is kept when it sees that
    part only through [g], which [m] keeps. *)
Lemma zoom_keeps_part {S T A B C} (get : S -> T) (set : T -> S -> S)
    (f : S -> B) (g : T -> C) (h : C -> S -> B) (m : M T A) :
  (forall t s, f (set t s) = h (g t) s) -> (forall s, f s = h (g (get s)) s) ->
  keeps g m -> keeps f (zoom get set m).
Proof.
  intros Hset Hget Hm s. unfold zoom. specialize (Hm (get s)).
  destruct (m (get s)) as [r t']. cbn [snd] in *.
  rewrite Hset, Hm, <- Hget. reflexivity.
Qed.

End PyFrameFacts.

(** ** More facts about strings *)

Module PyStrFacts.
Import Py PyFacts.

Lemma str_in_trans a b c :
  str_in a b = true -> str_in b c = true -> str_in a c = true.
Proof.
  rewrite !str_in_spec. intros (l & r & ->) (l' & r' & ->).
  exists (l' ++ l)%string, (r ++ r')%string. rewrite !append_assoc. reflexivity.
Qed.

Lemma str_in_false_trans a b c :
  str_in a b = true -> str_in a c = false -> str_in b c = false.
Proof.
  intros Hab Hac. destruct (str_in b c) eqn:Hbc; [|reflexivity].
  rewrite (str_in_trans a b c Hab Hbc) in Hac. discriminate.
Qed.

End PyStrFacts.

(** ** Binary64: the [int]s that are [float]s *)

Module Binary64Exact.
Import Py PyFloat Binary64.

(** A mantissa that already sits at the exponent the format wants is not
    touched by the rounding step. *)
Lemma binary_round_aux_exact sx p e :
  fexp64 (Zdigits2 (Zpos p) + e) = e -> e <= 971 ->
  binary_round_aux prec emax sx (Zpos p) e loc_Exact = S754_finite sx p e.
Proof.
  intros Hc He. unfold binary_round_aux, shr_fexp.
  rewrite Hc, Z.sub_diag. cbn [shr shr_record_of_loc loc_of_shr_record shr_m shr_r shr_s
    round_nearest_even].
  rewrite Hc, Z.sub_diag. cbn [shr shr_record_of_loc shr_m].
  assert (Hle : (e <=? emax - prec) = true) by (apply Z.leb_le; exact He).
  rewrite Hle. reflexivity.
Qed.

Lemma iter_xO_pow2 d p : Zpos (Pos.iter xO p d) = Zpos p * 2 ^ Zpos d.
Proof.
  induction d as [|d IH] using Pos.peano_ind.
  - cbn. lia.
  - rewrite Pos.iter_succ, Pos2Z.inj_xO, IH, Pos2Z.inj_succ, Z.pow_succ_r by lia. lia.
Qed.

(** [int(float(n)) == n] for [0 <= n < 2^53]. *)
Lemma to_int_of_int_exact n :
  0 <= n < 2 ^ 53 -> exists f, of_int n = Ok f /\ to_int f = Ok n.
Proof.
  intros [Hn Hlt]. unfold of_int, to_int.
  destruct n as [|p|p]; try lia.
  { eexists. split; reflexivity. }
  cbn [binary_normalize]. pose proof (binary_round_valid false p 0) as Hv.
  revert Hv. unfold binary_round.
  change (Zpos (digits2_pos p)) with (Zdigits2 (Zpos p)).
  assert (Hd : 1 <= Zdigits2 (Zpos p) <= 53).
  { split; [|apply Zdigits2_lt_pow2; lia].
    assert (0 < Zdigits2 (Zpos p)) by (apply Zdigits2_pos_iff; lia). lia. }
  rewrite Z.add_0_r, fexp64_eq, Z.max_l by lia.
  unfold shl_align. rewrite Z.sub_0_r.
  destruct (Zdigits2 (Zpos p) - 53) as [|d|d] eqn:Ed; try lia.
  - rewrite binary_round_aux_exact by (rewrite ?fexp64_eq; lia).
    intros Hv. cbn [is_inf_SF]. eexists. split; [reflexivity|].
    rewrite Prim2SF_SF2Prim by exact Hv. reflexivity.
  - assert (Hdig : Zdigits2 (Zpos (Pos.iter xO p d)) = 53).
    { unfold Zdigits2. rewrite digits2_pos_iter.
      change (Zpos (digits2_pos p)) with (Zdigits2 (Zpos p)). lia. }
    rewrite binary_round_aux_exact by (rewrite ?fexp64_eq, ?Hdig; lia).
    intros Hv. cbn [is_inf_SF]. eexists. split; [reflexivity|].
    rewrite Prim2SF_SF2Prim by exact Hv. cbn [trunc_SF]. f_equal.
    rewrite iter_xO_pow2, Z.shiftr_div_pow2 by lia.
    apply Z.div_mul. apply Z.pow_nonzero; lia.
Qed.

(** A product with [0.0] is a zero. *)
Lemma to_int_mul_zero f :
  (Prim2SF f = S754_zero false \/ exists m e, Prim2SF f = S754_finite false m e) ->
  to_int (f * 0) = Ok 0.
Proof.
  intros Hf. unfold to_int. rewrite FloatAxioms.mul_spec. unfold SF64mul.
  rewrite Prim2SF_zero. destruct Hf as [->|(m & e & ->)]; reflexivity.
Qed.

End Binary64Exact.

(** ** Facts about [str.replace] and ordered dicts *)

Module PyMoreFacts.
Import Py PyFacts PyStr PyDict.

Lemma startswith_app p r : startswith p (p ++ r) = true.
Proof. apply startswith_spec. exists r. reflexivity. Qed.

Lemma after_prefix_spec p s name :
  after_prefix p s = Some name <-> s = (p ++ name)%string.
Proof.
  revert s. induction p as [|a p IH]; intros s; cbn [after_prefix].
  - rewrite append_nil. split; [intros [= ->]|intros ->]; reflexivity.
  - destruct s as [|b s]; [split; discriminate|].
    rewrite append_cons. destruct (Ascii.eqb_spec a b) as [->|Hne].
    + rewrite IH. split; [intros ->; reflexivity|intros [= ->]; reflexivity].
    + split; [discriminate|]. intros [= Hab _]. congruence.
Qed.

Lemma after_prefix_startswith p s :
  startswith p s = false -> after_prefix p s = None.
Proof.
  intros Hp. destruct (after_prefix p s) as [name|] eqn:Ha; [|reflexivity].
  apply after_prefix_spec in Ha. subst s. rewrite startswith_app in Hp. discriminate.
Qed.

(** Where [old] does not occur, nothing is replaced. *)
Lemma replace_from_absent old new s :
  str_in old s = false -> replace_from old new 0 s = s.
Proof.
  induction s as [|c s IH]; [reflexivity|].
  cbn [str_in replace_from]. intros Hs. apply orb_false_iff in Hs as [Hp Hs].
  rewrite Hp, IH by exact Hs. reflexivity.
Qed.

(** Skipping exactly the characters of [x]. *)
Lemma replace_from_skip old new x r :
  replace_from old new (String.length x) (x ++ r) = replace_from old new 0 r.
Proof.
  induction x as [|c x IH]; [reflexivity|].
  rewrite append_cons. cbn [String.length replace_from]. exact IH.
Qed.

(** [(old + name).replace(old, "")] is [name] when [old] does not occur in
    [name]. *)
Lemma replace_prefix old name :
  old <> EmptyString -> str_in old name = false ->
  replace old "" (old ++ name) = name.
Proof.
  intros Hne Hname. destruct old as [|a old]; [congruence|].
  cbn [replace]. rewrite append_cons. cbn [replace_from].
  assert (Hlen : (String.length (String a old) - 1)%nat = String.length old)
    by (cbn [String.length]; lia).
  rewrite Hlen.
  change (String a (old ++ name)) with (String a old ++ name)%string at 1.
  rewrite startswith_app, append_nil.
  rewrite replace_from_skip. apply replace_from_absent. exact Hname.
Qed.

Lemma in_list_spec x l : in_list x l = true <-> In x l.
Proof.
  unfold in_list. rewrite existsb_exists. split.
  - intros (y & Hy & Heq). apply String.eqb_eq in Heq. subst y. exact Hy.
  - intros Hx. exists x. split; [exact Hx|apply String.eqb_refl].
Qed.

(** *** Ordered dicts *)

Lemma get_None {V} (d : odict V) k : get d k = None <-> ~ In k (keys d).
Proof.
  induction d as [|[k' v] d IH]; cbn [get keys map fst In]; [tauto|].
  destruct (String.eqb_spec k' k) as [->|Hne].
  - split; [discriminate|]. intros Hn. exfalso. auto.
  - fold (keys d). rewrite IH. split; [intros Hn [?|?]; auto|tauto].
Qed.

(** Setting a key that is not there appends the entry. *)
Lemma set_fresh {V} (d : odict V) k v :
  ~ In k (keys d) -> set d k v = d ++ [(k, v)].
Proof.
  induction d as [|[k' v'] d IH]; cbn [set keys map fst In app]; [reflexivity|].
  intros Hn. destruct (String.eqb_spec k' k) as [->|Hne]; [exfalso; auto|].
  rewrite IH by (fold (keys d) in Hn; tauto). reflexivity.
Qed.

Lemma keys_app {V} (d d' : odict V) : keys (d ++ d') = keys d ++ keys d'.
Proof. apply map_app. Qed.

(** A comprehension whose new keys are all different keeps, in their
    order, the entries it selects. *)
Lemma comprehension_fresh {V} (p : string -> bool) (f : string -> string)
    (d : odict V) :
  NoDup (map f (List.filter p (keys d))) ->
  comprehension p f d
  = flat_map (fun kv => if p (fst kv) then [(f (fst kv), snd kv)] else []) d.
Proof.
  unfold comprehension.
  assert (Hgen : forall acc,
            NoDup (keys acc ++ map f (List.filter p (keys d))) ->
            fold_left (fun acc kv => if p (fst kv) then set acc (f (fst kv)) (snd kv)
                                     else acc) d acc
            = acc ++ flat_map (fun kv => if p (fst kv) then [(f (fst kv), snd kv)]
                                         else []) d).
  { induction d as [|[k v] d IH]; intros acc Hnd; cbn [fold_left flat_map fst snd].
    - rewrite app_nil_r. reflexivity.
    - cbn [keys map fst List.filter] in Hnd. fold (keys d) in Hnd.
      destruct (p k) eqn:Hp.
      + cbn [map] in Hnd.
        assert (Hfresh : ~ In (f k) (keys acc)).
        { intros Hin. apply NoDup_app in Hnd as (_ & Hdisj & _).
          apply (Hdisj (f k)); [apply list_elem_of_In, Hin|left]. }
        rewrite set_fresh by exact Hfresh. rewrite IH.
        * rewrite <- app_assoc. reflexivity.
        * rewrite keys_app. cbn [keys map fst]. rewrite <- app_assoc. exact Hnd.
      + rewrite IH by exact Hnd. reflexivity. }
  intros Hnd. apply (Hgen []). exact Hnd.
Qed.

Lemma update_fresh {V} (d d2 : odict V) :
  NoDup (keys d ++ keys d2) -> update d d2 = d ++ d2.
Proof.
  unfold update. revert d. induction d2 as [|[k v] d2 IH]; intros d Hnd;
    cbn [fold_left fst snd].
  - rewrite app_nil_r. reflexivity.
  - cbn [keys map fst] in Hnd. fold (keys d2) in Hnd.
    assert (Hfresh : ~ In k (keys d)).
    { intros Hin. apply NoDup_app in Hnd as (_ & Hdisj & _).
      apply (Hdisj k); [apply list_elem_of_In, Hin|left]. }
    rewrite set_fresh by exact Hfresh. rewrite IH.
    + rewrite <- app_assoc. reflexivity.
    + rewrite keys_app. cbn [keys map fst]. rewrite <- app_assoc. exact Hnd.
Qed.

Lemma NoDup_map_inj_in {A B} (f : A -> B) (l : list A) :
  (forall x y, In x l -> In y l -> f x = f y -> x = y) ->
  NoDup l -> NoDup (map f l).
Proof.
  intros Hinj Hnd. induction Hnd as [|x l Hx Hnd IH]; cbn [map]; constructor.
  - intros Hin. apply list_elem_of_In, in_map_iff in Hin as (y & Hxy & Hy).
    apply Hx, list_elem_of_In.
    rewrite (Hinj x y (or_introl eq_refl) (or_intror Hy) (eq_sym Hxy)). exact Hy.
  - apply IH. intros a b Ha Hb. apply Hinj; right; assumption.
Qed.

Lemma startswith_app_l p q s : startswith (p ++ q) s = true -> startswith p s = true.
Proof.
  rewrite !startswith_spec. intros [r ->]. exists (q ++ r)%string.
  apply append_assoc.
Qed.

Lemma append_inj_l p x y : (p ++ x)%string = (p ++ y)%string -> x = y.
Proof.
  induction p as [|a p IH]; [rewrite !append_nil; auto|].
  rewrite !append_cons. intros [= Hxy]. auto.
Qed.

Lemma filter_all {A} (l : list A) : List.filter (fun _ => true) l = l.
Proof. induction l as [|x l IH]; cbn [List.filter]; congruence. Qed.

Lemma flat_map_singleton {A B} (f : A -> B) (l : list A) :
  flat_map (fun x => [f x]) l = map f l.
Proof. induction l as [|x l IH]; cbn [flat_map map app]; congruence. Qed.

(** A comprehension that renames every key, no two to the same name. *)
Lemma comprehension_rename {V} (f : string -> string) (d : odict V) :
  (forall x y, f x = f y -> x = y) -> wf d ->
  comprehension (fun _ => true) f d = map (fun kv => (f (fst kv), snd kv)) d.
Proof.
  intros Hinj Hwf. rewrite comprehension_fresh.
  - apply (flat_map_singleton (fun kv => (f (fst kv), snd kv))).
  - rewrite filter_all. apply NoDup_map_inj_in; [|exact Hwf].
    intros x y _ _. apply Hinj.
Qed.

Lemma keys_map_rename {V} (f : string -> string) (d : odict V) :
  keys (map (fun kv => (f (fst kv), snd kv)) d) = map f (keys d).
Proof. unfold keys. rewrite !map_map. reflexivity. Qed.

End PyMoreFacts.

(** ** [audio_asr.py]: how [_run_model] fails *)

Module AudioASRFailures.
Import Py PyFacts AudioASR AudioASRProofs.
Local Open Scope py_scope.

Section RunModel.
Context `{Env}.

(** A [_run_model] that raises has not written to any dict: the prompt is
    assigned last, after everything that can fail. At most the line with the
    transcription went to the log. *)
Theorem run_model_failure_keeps_inputs (s s' : state) (inputs : loc) (e : exn) :
  _run_model inputs s = (Raise e, s') ->
  heap s' = heap s /\
  (log s' = log s \/ exists line, log s' = log s ++ [line]).
Proof.
  unfold _run_model, setitem, bind, deref, lift, getitem, logger_info, modify, ret.
  intros Hrun.
  destruct (heap s !! inputs) as [d|] eqn:Hd;
    [|injection Hrun as _ <-; auto].
  repeat first
    [ rewrite Hd in Hrun
    | match type of Hrun with
      | context [match ?x with _ => _ end] =>
          destruct x eqn:?; cbn [heap log fst snd] in Hrun
      end ];
    try discriminate; injection Hrun as _ <-; cbn [heap log]; eauto.
Qed.

(** A prompt that is neither [None] nor a [str] gets past [_preprocess];
    [_run_model] then transcribes the audio, logs the result and only then
    fails, with an [AttributeError], on [prompt.format]. *)
Theorem run_model_rejects_non_str_prompt
    (s : state) (inputs : loc) (d : dict) (audio v : pyval) (res : dict)
    (text : pyval) (line : string) :
  heap s !! inputs = Some d ->
  d !! "audio" = Some audio -> audio <> VNone ->
  d !! "prompt" = Some v -> v <> VNone -> (forall p, v <> VStr p) ->
  whisper_executor (executor_args d audio) = Ok res ->
  res !! "text" = Some text ->
  str_format "Audio File ASR Result: {}" [text] = Ok line ->
  _preprocess inputs s = (Ok inputs, s) /\
  _run_model inputs s
  = (Raise (Exn AttributeError "object has no attribute 'format'"),
     State (heap s) (log s ++ [line])).
Proof.
  intros Hd Ha Hna Hp Hnp Hstr Hw Ht Hl. split.
  - unfold _preprocess. rewrite (bind_ok _ _ _ _ _ (deref_ok _ _ _ Hd)).
    unfold dict_get. rewrite Ha, Hp. cbn [default].
    destruct audio; try congruence; destruct v; try congruence; reflexivity.
  - unfold _run_model. rewrite (bind_ok _ _ _ _ _ (deref_ok _ _ _ Hd)).
    unfold executor_args in Hw.
    unfold bind, lift, getitem, logger_info, modify.
    rewrite Ha, Hw, Ht, Hl, Hp. cbn [heap log].
    destruct v; try reflexivity. exfalso. eapply Hstr. reflexivity.
Qed.

End RunModel.

Lemma run_model_failure_keeps_inputs_example :
  heap (snd (@_run_model Samples.asr_env 1%positive EdgeSamples.asr_state_no_audio))
  = heap EdgeSamples.asr_state_no_audio.
Proof.
  apply (@run_model_failure_keeps_inputs Samples.asr_env
           EdgeSamples.asr_state_no_audio _ 1%positive (Exn KeyError "audio")).
  vm_compute. reflexivity.
Defined.

Lemma run_model_rejects_non_str_prompt_example :
  fst (@_run_model Samples.asr_env 1%positive EdgeSamples.asr_state_int_prompt)
  = Raise (Exn AttributeError "object has no attribute 'format'").
Proof.
  rewrite (proj2 (@run_model_rejects_non_str_prompt Samples.asr_env
             EdgeSamples.asr_state_int_prompt 1%positive
             EdgeSamples.asr_inputs_int_prompt (VStr "speech.wav") (VInt 3)
             {[ "text" := VStr "hello world" ]} (VStr "hello world")
             "Audio File ASR Result: hello world"
             ltac:(vm_compute; reflexivity) ltac:(vm_compute; reflexivity)
             ltac:(discriminate) ltac:(vm_compute; reflexivity)
             ltac:(discriminate) ltac:(intros p; discriminate)
             ltac:(vm_compute; reflexivity) ltac:(vm_compute; reflexivity)
             ltac:(vm_compute; reflexivity))).
  reflexivity.
Defined.

End AudioASRFailures.

(** ** [lora.py]: more on loading and fusing *)

Module LoraBehaviour.
Import Py PyFacts PyFrame PyFrameFacts PyStrFacts Lora LoraLayout.
Local Open Scope py_scope.

Section Behaviour.
Context {Tensor Unet LoraLayer Linear UnetConfig HubArgs : Type}.
Context `{E : @Env Tensor Unet LoraLayer Linear UnetConfig HubArgs}.

Abbreviation pipeline := (@pipeline Unet LoraLayer Linear).
Abbreviation kwargs := (@kwargs UnetConfig HubArgs).
Abbreviation proj := (@proj LoraLayer Linear).
Abbreviation text_encoder_t := (@text_encoder_t LoraLayer Linear).

(** *** [lora_state_dict] on a path or model id *)

(** The checkpoint file decides the [from_diffusers] flag that
    [lora_state_dict] returns: [True] for a file in the "pt" format, [False]
    for one in the "pd" format, whatever the caller asked for; the caller's
    value (or the default) only for another format. *)
Theorem lora_state_dict_flag_follows_file
    (path : string) (kw : kwargs) (sd : gmap string Tensor)
    (na : option (gmap string float)) (fd : bool) :
  lora_state_dict (inl path) kw = Ok (sd, na, fd) ->
  exists f fmt loaded,
    load_state_dict f = Ok (fmt, loaded) /\
    fd = (if String.eqb fmt "pd" then false
          else if String.eqb fmt "pt" then true
          else default FROM_DIFFUSERS (kw_from_diffusers kw)) /\
    (all_keys is_kohya_key loaded = false -> sd = loaded /\ na = None).
Proof.
  unfold lora_state_dict. intros Hrun.
  apply rbind_ok_inv in Hrun as ([loaded fd0] & Hfile & Hrun).
  apply rbind_ok_inv in Hfile as (mf & _ & Hfile).
  apply rbind_ok_inv in Hfile as (f & _ & Hfile).
  apply rbind_ok_inv in Hfile as ([fmt loaded0] & Hload & Hfile).
  injection Hfile as <- <-.
  exists f, fmt, loaded0. split; [exact Hload|].
  destruct (all_keys is_kohya_key loaded0) eqn:Hk.
  - apply rbind_ok_inv in Hrun as (sd1 & _ & Hrun).
    apply rbind_ok_inv in Hrun as ([sd2 na2] & _ & Hrun).
    injection Hrun as _ _ <-. split; [reflexivity|discriminate].
  - injection Hrun as <- <- <-. auto.
Qed.

(** With no [weight_name], a failed search for the safetensors file, be it
    an exception or no file, is not an error: [lora_state_dict] goes on as
    if [use_safetensors=False] had been passed. *)
Theorem safetensors_lookup_failure_falls_back (path : string) (kw : kwargs) :
  kw_weight_name kw = None ->
  (forall f,
     _get_model_file path
       (if default FROM_DIFFUSERS (kw_from_diffusers kw)
        then TORCH_LORA_WEIGHT_NAME_SAFE else PADDLE_LORA_WEIGHT_NAME_SAFE)
       (default FROM_DIFFUSERS (kw_from_diffusers kw)) (kw_hub kw)
     <> Ok (Some f)) ->
  lora_state_dict (inl path) kw
  = lora_state_dict (inl path)
      (Kwargs (kw_from_diffusers kw) None (kw_unet_config kw) (Some false)
         (kw_low_cpu_mem_usage kw) (kw_hub kw)).
Proof.
  intros Hw Hsafe. unfold lora_state_dict. cbn [kw_from_diffusers kw_weight_name
    kw_unet_config kw_use_safetensors kw_hub default].
  rewrite Hw. cbn [str_or is_Some]. rewrite andb_false_l, orb_false_r. cbn [orb].
  destruct (default true (kw_use_safetensors kw) && negb (bool_decide (is_Some None)));
    [|reflexivity].
  set (fd := default FROM_DIFFUSERS (kw_from_diffusers kw)) in *.
  destruct fd; cbn [str_or] in *.
  all: match goal with
       | |- context [_get_model_file ?a ?b ?c ?d] =>
           destruct (_get_model_file a b c d) as [[f|]|e]; try reflexivity;
           exfalso; apply (Hsafe f); reflexivity
       end.
Qed.

(** *** What fusing leaves alone *)

Lemma on_patched_keeps (op : M LoraLayer unit) :
  keeps is_patched (on_patched op : M proj unit).
Proof.
  intros [w|l]; unfold on_patched; [reflexivity|]. destruct (op l). reflexivity.
Qed.

Lemma each_patched_projection_keeps_layout (op : M LoraLayer unit) :
  keeps (@layout LoraLayer Linear) (each_patched_projection op).
Proof.
  pose proof (on_patched_keeps op) as Hop.
  unfold each_patched_projection. apply keeps_bind; [|intros _].
  - apply (zoom_keeps_part _ _ _
             (map (fun na => (fst na, attn_layout (snd na))))
             (fun c te => (c, map (fun nm => (fst nm, mlp_layout (snd nm)))
                                (mlp_modules te))));
      [reflexivity|reflexivity|].
    apply for_elems_keeps.
    apply (zoom_keeps_part _ _ _ attn_layout (fun c na => (fst na, c)));
      [reflexivity|reflexivity|].
    apply keeps_bind; [intros a; reflexivity|intros q].
    destruct (is_patched q); [|apply keeps_ret].
    repeat (apply keeps_bind; [|intros _]).
    + apply (zoom_keeps_part _ _ _ is_patched
               (fun c a => [c; is_patched (k_proj a); is_patched (v_proj a);
                            is_patched (out_proj a)])); auto.
    + apply (zoom_keeps_part _ _ _ is_patched
               (fun c a => [is_patched (q_proj a); c; is_patched (v_proj a);
                            is_patched (out_proj a)])); auto.
    + apply (zoom_keeps_part _ _ _ is_patched
               (fun c a => [is_patched (q_proj a); is_patched (k_proj a); c;
                            is_patched (out_proj a)])); auto.
    + apply (zoom_keeps_part _ _ _ is_patched
               (fun c a => [is_patched (q_proj a); is_patched (k_proj a);
                            is_patched (v_proj a); c])); auto.
  - apply (zoom_keeps_part _ _ _
             (map (fun nm => (fst nm, mlp_layout (snd nm))))
             (fun c te => (map (fun na => (fst na, attn_layout (snd na)))
                             (attn_modules te), c)));
      [reflexivity|reflexivity|].
    apply for_elems_keeps.
    apply (zoom_keeps_part _ _ _ mlp_layout (fun c nm => (fst nm, c)));
      [reflexivity|reflexivity|].
    apply keeps_bind; [intros a; reflexivity|intros q].
    destruct (is_patched q); [|apply keeps_ret].
    apply keeps_bind; [|intros _].
    + apply (zoom_keeps_part _ _ _ is_patched
               (fun c a => [c; is_patched (fc2 a)])); auto.
    + apply (zoom_keeps_part _ _ _ is_patched
               (fun c a => [is_patched (fc1 a); c])); auto.
Qed.

Lemma each_patched_projection_unpatched (op : M LoraLayer unit)
    (te : text_encoder_t) :
  unpatched te = true -> each_patched_projection op te = (Ok tt, te).
Proof.
  unfold unpatched. intros Hu. apply andb_true_iff in Hu as [Ha Hm].
  rewrite forallb_forall in Ha, Hm.
  unfold each_patched_projection, bind, zoom.
  rewrite for_elems_skip.
  - cbn [mlp_modules attn_modules]. rewrite for_elems_skip; [destruct te; reflexivity|].
    apply Forall_forall. intros [n m] Hin. apply list_elem_of_In, Hm in Hin.
    cbn [snd] in Hin. unfold gets. cbn [fst snd].
    destruct (is_patched (fc1 m)); [discriminate|reflexivity].
  - apply Forall_forall. intros [n a] Hin. apply list_elem_of_In, Ha in Hin.
    cbn [snd] in Hin. unfold gets. cbn [fst snd].
    destruct (is_patched (q_proj a)); [discriminate|reflexivity].
Qed.

(** The two text encoders of a pipeline, and their layouts. *)
Local Abbreviation encoders :=
  (fun p : pipeline => (text_encoder p, text_encoder_2 p)).
Local Abbreviation layouts :=
  (fun p : pipeline =>
     (option_map layout (text_encoder p), option_map layout (text_encoder_2 p))).
Local Abbreviation both_unpatched :=
  (fun tes : option text_encoder_t * option text_encoder_t =>
     (forall te, fst tes = Some te -> unpatched te = true) /\
     (forall te, snd tes = Some te -> unpatched te = true)).

Lemma if_has_text_encoder_keeps_layout (m : M text_encoder_t unit) :
  keeps layout m -> keeps layouts (if_has_text_encoder m).
Proof.
  intros Hm p. unfold if_has_text_encoder.
  destruct (text_encoder p) as [te|] eqn:Hte; cbn [snd]; [|rewrite Hte; reflexivity].
  specialize (Hm te). destruct (m te) as [r te']. cbn [snd text_encoder text_encoder_2 option_map] in *.
  rewrite Hm. reflexivity.
Qed.

Lemma if_has_text_encoder_2_keeps_layout (m : M text_encoder_t unit) :
  keeps layout m -> keeps layouts (if_has_text_encoder_2 m).
Proof.
  intros Hm p. unfold if_has_text_encoder_2.
  destruct (text_encoder_2 p) as [te|] eqn:Hte; cbn [snd]; [|rewrite Hte; reflexivity].
  specialize (Hm te). destruct (m te) as [r te']. cbn [snd text_encoder text_encoder_2 option_map] in *.
  rewrite Hm. reflexivity.
Qed.

Lemma if_has_text_encoder_unpatched (m : M text_encoder_t unit) :
  (forall te, unpatched te = true -> snd (m te) = te) ->
  keeps_when both_unpatched encoders (if_has_text_encoder m).
Proof.
  intros Hm p [H1 _]. unfold if_has_text_encoder. cbn [fst] in H1.
  destruct (text_encoder p) as [te|] eqn:Hte; cbn [snd]; [|rewrite Hte; reflexivity].
  specialize (Hm te (H1 te eq_refl)). destruct (m te) as [r te'].
  cbn [snd text_encoder text_encoder_2] in *. rewrite Hm. reflexivity.
Qed.

Lemma if_has_text_encoder_2_unpatched (m : M text_encoder_t unit) :
  (forall te, unpatched te = true -> snd (m te) = te) ->
  keeps_when both_unpatched encoders (if_has_text_encoder_2 m).
Proof.
  intros Hm p [_ H2]. unfold if_has_text_encoder_2. cbn [snd] in H2.
  destruct (text_encoder_2 p) as [te|] eqn:Hte; cbn [snd]; [|rewrite Hte; reflexivity].
  specialize (Hm te (H2 te eq_refl)). destruct (m te) as [r te'].
  cbn [snd text_encoder text_encoder_2] in *. rewrite Hm. reflexivity.
Qed.

Lemma on_unet_keeps_encoders {A B} (f : option text_encoder_t * option text_encoder_t -> B)
    (m : M Unet A) :
  keeps (fun p : pipeline => f (text_encoder p, text_encoder_2 p)) (on_unet m).
Proof. intros p. unfold on_unet, zoom. destruct (m (unet p)). reflexivity. Qed.

(** The steps of [fuse_lora] and [unfuse_lora], one rule each. *)
Ltac frame_steps text_encoder_rule text_encoder_2_rule :=
  repeat first
    [ apply keeps_when_bind; [|intros ?]
    | apply keeps_when_if
    | apply keeps_when_ret
    | apply keeps_when_gets
    | progress cbv zeta
    | progress unfold deprecate, logger_warn, set_num_fused_loras
    | apply keeps_when_modify; intros ?; reflexivity
    | apply keeps_always;
      first [ apply (on_unet_keeps_encoders (fun tes => tes))
            | apply (on_unet_keeps_encoders
                       (fun tes => (option_map layout (fst tes),
                                    option_map layout (snd tes)))) ]
    | text_encoder_rule
    | text_encoder_2_rule ].

(** [fuse_lora] and [unfuse_lora] never add, drop, rename or reorder a
    module of a text encoder, and never turn a plain projection into a
    patched one or back, whether they return or raise. *)
Theorem fuse_lora_keeps_layout
    (fuse_unet fuse_text_encoder safe_fusing : bool) (scale : float)
    (self : pipeline) :
  layouts (snd (fuse_lora fuse_unet fuse_text_encoder scale safe_fusing self))
  = layouts self /\
  layouts (snd (unfuse_lora fuse_unet fuse_text_encoder self)) = layouts self.
Proof.
  assert (Hte : forall op : M LoraLayer unit, forall name,
            keeps (@layout LoraLayer Linear)
              (if USE_PPPEFT_BACKEND then throw NameError name
               else each_patched_projection op)).
  { intros op name. destruct USE_PPPEFT_BACKEND.
    - intros te. reflexivity.
    - apply each_patched_projection_keeps_layout. }
  split.
  - apply (keeps_when_true layouts). unfold fuse_lora.
    frame_steps
      ltac:(apply keeps_always, if_has_text_encoder_keeps_layout, Hte)
      ltac:(apply keeps_always, if_has_text_encoder_2_keeps_layout, Hte).
  - apply (keeps_when_true layouts). unfold unfuse_lora.
    frame_steps
      ltac:(apply keeps_always, if_has_text_encoder_keeps_layout, Hte)
      ltac:(apply keeps_always, if_has_text_encoder_2_keeps_layout, Hte).
Qed.

(** A text encoder that was not monkey-patched is left exactly as it is by
    [fuse_lora] and by [unfuse_lora]: fusing "won't have any effect" on it,
    as the docstring says. *)
Theorem fuse_lora_skips_unpatched_text_encoders
    (fuse_unet fuse_text_encoder safe_fusing : bool) (scale : float)
    (self : pipeline) :
  (forall te, text_encoder self = Some te -> unpatched te = true) ->
  (forall te, text_encoder_2 self = Some te -> unpatched te = true) ->
  encoders (snd (fuse_lora fuse_unet fuse_text_encoder scale safe_fusing self))
  = encoders self /\
  encoders (snd (unfuse_lora fuse_unet fuse_text_encoder self)) = encoders self.
Proof.
  intros H1 H2.
  assert (Hte : forall op : M LoraLayer unit, forall name,
            forall te : text_encoder_t, unpatched te = true ->
            snd ((if USE_PPPEFT_BACKEND then throw NameError name
                  else each_patched_projection op : M text_encoder_t unit) te)
            = te).
  { intros op name te Hu. destruct USE_PPPEFT_BACKEND; [reflexivity|].
    rewrite each_patched_projection_unpatched by exact Hu. reflexivity. }
  assert (HQ : both_unpatched (encoders self)) by (split; assumption).
  split.
  - revert HQ. generalize self. change (keeps_when both_unpatched encoders
      (fuse_lora fuse_unet fuse_text_encoder scale safe_fusing)).
    unfold fuse_lora.
    frame_steps
      ltac:(apply if_has_text_encoder_unpatched, Hte)
      ltac:(apply if_has_text_encoder_2_unpatched, Hte).
  - revert HQ. generalize self. change (keeps_when both_unpatched encoders
      (unfuse_lora fuse_unet fuse_text_encoder)).
    unfold unfuse_lora.
    frame_steps
      ltac:(apply if_has_text_encoder_unpatched, Hte)
      ltac:(apply if_has_text_encoder_2_unpatched, Hte).
Qed.

(** *** Corners of [fuse_lora] and [unfuse_lora] *)

(** With the PEFT backend the inner functions [fuse_text_encoder_lora] and
    [unfuse_text_encoder_lora] are never defined. On a pipeline with a text
    encoder, [fuse_lora] asked to fuse the text encoder has counted the
    fusion and fused the UNet when it fails on the unbound name;
    [unfuse_lora] fails on it before it lowers the counter. *)
Theorem fuse_lora_peft_backend_unbound
    (fuse_unet unfuse_unet safe_fusing : bool) (scale : float) (self : pipeline)
    (te : text_encoder_t) :
  USE_PPPEFT_BACKEND = true ->
  text_encoder self = Some te ->
  (fuse_unet = true -> fst (unet_fuse_lora scale safe_fusing (unet self)) = Ok tt) ->
  fst (fuse_lora fuse_unet true scale safe_fusing self)
  = Raise (Exn NameError "fuse_text_encoder_lora") /\
  num_fused_loras (snd (fuse_lora fuse_unet true scale safe_fusing self))
  = num_fused_loras self + 1 /\
  (fuse_unet = true ->
   unet (snd (fuse_lora fuse_unet true scale safe_fusing self))
   = snd (unet_fuse_lora scale safe_fusing (unet self))) /\
  unfuse_lora unfuse_unet true self
  = (Raise (Exn NameError "unfuse_text_encoder_lora"), self).
Proof.
  intros HP Hte Hu. split; [|split; [|split]].
  - unfold fuse_lora. rewrite HP, orb_true_r.
    unfold logger_warn, set_num_fused_loras, on_unet, zoom, if_has_text_encoder,
      bind, gets, modify, ret, throw.
    destruct fuse_unet; destruct (1 <? _); cbn -[Z.add];
      try (specialize (Hu eq_refl);
           destruct (unet_fuse_lora scale safe_fusing (unet self)) as [r u'];
           cbn [fst] in Hu; subst r; cbn -[Z.add]);
      rewrite Hte; reflexivity.
  - apply LoraProofs.fuse_lora_counter. apply orb_true_r.
  - intros ->. specialize (Hu eq_refl).
    unfold fuse_lora. rewrite HP.
    unfold logger_warn, set_num_fused_loras, on_unet, zoom, if_has_text_encoder,
      bind, gets, modify, ret, throw. cbn [orb].
    destruct (1 <? _); cbn -[Z.add];
      destruct (unet_fuse_lora scale safe_fusing (unet self)) as [r u'];
      cbn [fst] in Hu; subst r; cbn -[Z.add]; rewrite Hte; reflexivity.
  - unfold unfuse_lora. rewrite HP.
    unfold bind, ret, if_has_text_encoder, throw. cbn [negb].
    destruct self as [n u t1 t2 ls ws]. cbn [text_encoder] in Hte. subst t1.
    destruct unfuse_unet; reflexivity.
Qed.

(** With neither flag set [fuse_lora] counts nothing and fuses nothing,
    yet [unfuse_lora] with neither flag set still lowers the counter: the
    pair leaves [num_fused_loras] one lower, and the models as they were. *)
Theorem fuse_unfuse_without_flags
    (safe_fusing : bool) (scale : float) (self : pipeline) :
  exists self1 self2,
    fuse_lora false false scale safe_fusing self = (Ok tt, self1) /\
    unfuse_lora false false self1 = (Ok tt, self2) /\
    num_fused_loras self1 = num_fused_loras self /\
    num_fused_loras self2 = num_fused_loras self - 1 /\
    unet self2 = unet self /\ encoders self2 = encoders self.
Proof.
  unfold fuse_lora, unfuse_lora, deprecate, logger_warn, set_num_fused_loras,
    bind, gets, modify, ret. cbn [orb].
  destruct USE_PPPEFT_BACKEND, version_gt_0_23;
    (eexists; eexists; split; [reflexivity|]; split; [reflexivity|]);
    cbn [num_fused_loras unet text_encoder text_encoder_2]; auto.
Qed.

(** *** The SDXL loader on a checkpoint for the UNet alone *)

Lemma keys_containing_none (sub : string) (sd : gmap string Tensor) :
  (forall k, is_Some (sd !! k) -> str_in sub k = false) ->
  keys_containing sub sd = ∅.
Proof.
  intros Hnone. unfold keys_containing. apply map_empty. intros k.
  destruct (filter _ sd !! k) as [v|] eqn:Hk; [|reflexivity].
  apply map_lookup_filter_Some in Hk as [Hk Hsub]. cbn [fst] in Hsub.
  rewrite Hnone in Hsub by eauto. discriminate.
Qed.

(** When no key of the state dict mentions a text encoder, the SDXL
    [load_lora_weights] loads the UNet and stops there: no text encoder is
    looked up, so none is needed. *)
Theorem sdxl_unet_only_checkpoint
    (sd : gmap string Tensor) (na : option (gmap string float)) (fd : bool)
    (adapter_name : option string) (self : pipeline) :
  (forall k, is_Some (sd !! k) -> str_in "text_encoder" k = false) ->
  sdxl_load_into_models sd na fd adapter_name self
  = load_lora_into_unet sd na None adapter_name fd self.
Proof.
  intros Hnone. unfold sdxl_load_into_models.
  rewrite !keys_containing_none.
  - rewrite map_size_empty. unfold bind, ret. cbn [Z.of_nat Z.ltb Z.compare].
    destruct (load_lora_into_unet sd na None adapter_name fd self) as [[[]|e] p];
      reflexivity.
  - intros k Hk. apply (str_in_false_trans "text_encoder"); [reflexivity|auto].
  - intros k Hk. apply (str_in_false_trans "text_encoder"); [reflexivity|auto].
Qed.

End Behaviour.

Lemma lora_state_dict_flag_follows_file_example :
  exists sd na,
    @lora_state_dict _ _ _ _ _ _ EdgeSamples.hub_env (inl "user/repo")
      Samples.lora_kwargs = Ok (sd, na, true).
Proof.
  eexists. eexists.
  assert (Hrun : @lora_state_dict _ _ _ _ _ _ EdgeSamples.hub_env (inl "user/repo")
                   Samples.lora_kwargs
                 = Ok ({[ "unet.attn.lora.up.weight" := 1 ]}, None, true))
    by (vm_compute; reflexivity).
  destruct (@lora_state_dict_flag_follows_file _ _ _ _ _ _ EdgeSamples.hub_env
              _ _ _ _ _ Hrun) as (f & fmt & loaded & Hload & _ & _).
  exact Hrun.
Defined.

Lemma safetensors_lookup_failure_falls_back_example :
  @lora_state_dict _ _ _ _ _ _ EdgeSamples.hub_env (inl "user/repo")
    Samples.lora_kwargs
  = Ok ({[ "unet.attn.lora.up.weight" := 1 ]}, None, true).
Proof.
  rewrite (@safetensors_lookup_failure_falls_back _ _ _ _ _ _ EdgeSamples.hub_env
             "user/repo" Samples.lora_kwargs eq_refl).
  - vm_compute. reflexivity.
  - intros f. vm_compute. discriminate.
Defined.

Lemma fuse_lora_skips_unpatched_text_encoders_example :
  text_encoder
    (snd (@fuse_lora _ _ _ _ _ _ Samples.lora_env true true 1%float false
            EdgeSamples.plain_pipeline))
  = Some EdgeSamples.plain_text_encoder.
Proof.
  pose proof (proj1 (@fuse_lora_skips_unpatched_text_encoders _ _ _ _ _ _
                Samples.lora_env true true false 1%float EdgeSamples.plain_pipeline
                ltac:(intros te [= <-]; reflexivity)
                ltac:(intros te [=]))) as Hkeep.
  apply (f_equal fst) in Hkeep. exact Hkeep.
Defined.

Lemma fuse_lora_peft_backend_unbound_example :
  fst (@fuse_lora _ _ _ _ _ _ EdgeSamples.peft_env true true 1%float false
         Samples.lora_pipeline)
  = Raise (Exn NameError "fuse_text_encoder_lora").
Proof.
  apply (@fuse_lora_peft_backend_unbound _ _ _ _ _ _ EdgeSamples.peft_env
           true true false 1%float Samples.lora_pipeline Samples.lora_text_encoder
           eq_refl eq_refl (fun _ => eq_refl)).
Defined.

Lemma sdxl_unet_only_checkpoint_example :
  fst (@sdxl_load_into_models _ _ _ _ _ _ Samples.lora_env
         {[ "unet.attn.lora.up.weight" := 1 ]} None false None
         EdgeSamples.plain_pipeline) = Ok tt.
Proof.
  rewrite (@sdxl_unet_only_checkpoint _ _ _ _ _ _ Samples.lora_env).
  - reflexivity.
  - intros k [v Hk]. apply lookup_singleton_Some in Hk as [<- _]. reflexivity.
Defined.

End LoraBehaviour.

(** ** [pipeline_controlnet_img2img.py]: what validation lets through *)

Module ControlNetValidation.
Import Py PyFacts ControlNetImg2Img ControlNetProofs.
Local Open Scope py_scope.

Lemma is_nan_true_Prim2SF x : is_nan x = true -> Prim2SF x = S754_nan.
Proof.
  intros Hn. destruct (Prim2SF x) eqn:Hx; try reflexivity;
    assert (Hf : is_nan x = false)
      by (apply Binary64.is_nan_Prim2SF; rewrite Hx; discriminate);
    rewrite Hf in Hn; discriminate.
Qed.

(** Every comparison with a NaN is false. *)
Lemma ltb_nan_r x y : is_nan y = true -> PrimFloat.ltb x y = false.
Proof.
  intros Hn. rewrite FloatAxioms.ltb_spec, (is_nan_true_Prim2SF y Hn).
  unfold SFltb. destruct (Prim2SF x) as [| | |? ? ?]; reflexivity.
Qed.

Lemma ltb_nan_l x y : is_nan x = true -> PrimFloat.ltb x y = false.
Proof.
  intros Hn. rewrite FloatAxioms.ltb_spec, (is_nan_true_Prim2SF x Hn). reflexivity.
Qed.

Lemma leb_nan_r x y : is_nan y = true -> PrimFloat.leb x y = false.
Proof.
  intros Hn. rewrite FloatAxioms.leb_spec, (is_nan_true_Prim2SF y Hn).
  unfold SFleb. destruct (Prim2SF x) as [| | |? ? ?]; reflexivity.
Qed.

Lemma leb_nan_l x y : is_nan x = true -> PrimFloat.leb x y = false.
Proof.
  intros Hn. rewrite FloatAxioms.leb_spec, (is_nan_true_Prim2SF x Hn). reflexivity.
Qed.

Lemma check_guidance_pairs_ok l s e :
  check_guidance_pairs l = Ok tt -> In (s, e) l -> bad_window s e = false.
Proof.
  unfold bad_window. induction l as [|[s0 e0] l IH]; simpl; [tauto|].
  destruct (PyFloat.geb s0 e0) eqn:H1; [discriminate|].
  destruct (PrimFloat.ltb s0 0) eqn:H2; [discriminate|].
  destruct (PyFloat.gtb e0 1) eqn:H3; [discriminate|].
  intros Hl [[= <- <-]|Hin]; [rewrite H1, H2, H3; reflexivity|auto].
Qed.

(** What [check_inputs] has established when it returns: a positive
    [callback_steps]; a prompt ([str] or [list]) or prompt embeddings, not
    both; no negative prompt next to negative embeddings; a ControlNet or
    several, with a float scale for one and as many images and window
    bounds as there are ControlNets for several; and for each window
    neither [start >= end] nor [start < 0.0] nor [end > 1.0], which for
    bounds that are numbers is [0.0 <= start < end <= 1.0]. *)
Theorem check_inputs_accepts (a : check_args) :
  check_inputs a = Ok tt ->
  (exists n, ca_callback_steps a = CbInt n /\ 0 < n) /\
  (ca_prompt a = PromptNone <-> ca_prompt_embeds a <> None) /\
  ca_prompt a <> PromptOther /\
  (ca_negative_prompt a = true -> ca_negative_prompt_embeds a = None) /\
  ca_controlnet a <> OtherControlNet /\
  (is_single (ca_controlnet a) = true ->
   is_scalar (ca_controlnet_conditioning_scale a) = true) /\
  (forall nets, ca_controlnet a = MultiControlNetModel nets ->
     length (ca_control_guidance_start a) = length nets /\
     exists l, ca_image a = ImList l /\ length l = length nets) /\
  length (ca_control_guidance_start a) = length (ca_control_guidance_end a) /\
  forall start end_,
    In (start, end_)
       (combine (ca_control_guidance_start a) (ca_control_guidance_end a)) ->
    PyFloat.geb start end_ = false /\ PrimFloat.ltb start 0 = false /\
    PyFloat.gtb end_ 1 = false /\
    (is_nan start = false -> is_nan end_ = false ->
     PrimFloat.leb 0 start = true /\ PrimFloat.ltb start end_ = true /\
     PrimFloat.leb end_ 1 = true).
Proof.
  unfold check_inputs. intros Hrun.
  apply rbind_ok_inv in Hrun as ([] & Hhead & Hguid).
  unfold check_inputs_head in Hhead.
  apply rbind_ok_inv in Hhead as ([] & Hcb & Hhead).
  apply rbind_ok_inv in Hhead as ([] & Hprompt & Hhead).
  apply rbind_ok_inv in Hhead as ([] & Hneg & Hhead).
  apply rbind_ok_inv in Hhead as ([] & _ & Hhead).
  apply rbind_ok_inv in Hhead as ([] & Himg & Hscale).
  unfold check_control_guidance, len_Z in Hguid.
  destruct (Z.eqb_spec (Z.of_nat (length (ca_control_guidance_start a)))
              (Z.of_nat (length (ca_control_guidance_end a)))) as [Hlen|Hlen];
    [|discriminate].
  cbn [negb] in Hguid. apply rbind_ok_inv in Hguid as ([] & Hnets & Hpairs).
  split; [|split; [|split; [|split; [|split; [|split; [|split; [|split]]]]]]].
  - destruct (ca_callback_steps a) as [|n|]; try discriminate.
    destruct (Z.leb_spec n 0); [discriminate|]. exists n. split; [reflexivity|lia].
  - destruct (ca_prompt a), (ca_prompt_embeds a); try discriminate;
      split; intros H; congruence.
  - destruct (ca_prompt a), (ca_prompt_embeds a); discriminate.
  - intros Hn. rewrite Hn in Hneg.
    destruct (ca_negative_prompt_embeds a); [discriminate|reflexivity].
  - destruct (ca_controlnet a); discriminate.
  - destruct (ca_controlnet a); try discriminate.
    destruct (ca_controlnet_conditioning_scale a); [reflexivity|discriminate].
  - intros nets Hc. rewrite Hc in Himg, Hnets. unfold len_Z in Himg. split.
    + destruct (Z.eqb_spec (Z.of_nat (length (ca_control_guidance_start a)))
                  (Z.of_nat (length nets))); [lia|discriminate].
    + destruct (ca_image a) as [| | |l|]; try discriminate.
      destruct (existsb is_im_list l); [discriminate|].
      destruct (Z.eqb_spec (Z.of_nat (length l)) (Z.of_nat (length nets)));
        [|discriminate].
      exists l. split; [reflexivity|lia].
  - lia.
  - intros s e Hin.
    pose proof (check_guidance_pairs_ok _ s e Hpairs Hin) as Hok.
    unfold bad_window in Hok.
    apply orb_false_iff in Hok as [Hok H3]. apply orb_false_iff in Hok as [H1 H2].
    split; [exact H1|]. split; [exact H2|]. split; [exact H3|].
    intros Hs He. split; [|split].
    + rewrite (Binary64.ltb_negb_leb s 0 Hs) in H2 by reflexivity.
      apply negb_false_iff in H2. exact H2.
    + unfold PyFloat.geb in H1.
      rewrite (Binary64.ltb_negb_leb s e Hs He), H1. reflexivity.
    + unfold PyFloat.gtb in H3.
      rewrite (Binary64.ltb_negb_leb 1 e) in H3 by (reflexivity || assumption).
      apply negb_false_iff in H3. exact H3.
Qed.

(** A bound that is NaN gets past [check_inputs], since every comparison
    with it is false, and then never closes the window: with a NaN start
    the ControlNet is kept from the first step on, up to [end]; with a NaN
    end it is kept from [start] on to the last step. *)
Theorem nan_guidance_bound_is_ignored (start end_ : float) (i n : nat) :
  is_nan start = true \/ is_nan end_ = true ->
  (i < n)%nat ->
  check_guidance_pairs [(start, end_)]
  = (if PrimFloat.ltb start 0
     then Raise (Exn ValueError "control guidance start can't be smaller than 0.")
     else if PyFloat.gtb end_ 1
     then Raise (Exn ValueError "control guidance end can't be larger than 1.0.")
     else Ok tt) /\
  (is_nan start = true ->
   keeps (Z.of_nat i) (Z.of_nat n) [(start, end_)]
   = Ok [if PyFloat.gtb (fraction (Z.of_nat i + 1) (Z.of_nat n)) end_
         then 0%float else 1%float]) /\
  (is_nan end_ = true ->
   keeps (Z.of_nat i) (Z.of_nat n) [(start, end_)]
   = Ok [if PrimFloat.ltb (fraction (Z.of_nat i) (Z.of_nat n)) start
         then 0%float else 1%float]).
Proof.
  intros Hnan Hi.
  destruct (fraction_ok i n Hi) as (Hx & Hy & _).
  pose proof (keeps_spec _ _ [(start, end_)] _ _ Hx Hy) as Hk.
  cbn [map] in Hk. unfold keep_factor, in_window in Hk. cbn [fst snd] in Hk.
  split; [|split].
  - cbn [check_guidance_pairs]. unfold PyFloat.geb.
    destruct Hnan as [Hn|Hn];
      [rewrite (leb_nan_r _ _ Hn)|rewrite (leb_nan_l _ _ Hn)]; reflexivity.
  - intros Hn. rewrite Hk, (ltb_nan_r _ _ Hn). cbn [negb andb].
    destruct (PyFloat.gtb _ end_); reflexivity.
  - intros Hn. rewrite Hk. unfold PyFloat.gtb. rewrite (ltb_nan_l _ _ Hn).
    cbn [negb]. rewrite andb_true_r.
    destruct (PrimFloat.ltb _ start); reflexivity.
Qed.

(** Of a list, [check_image] looks at the first element only: lists that
    agree on it and on their length fare the same, whatever else they hold.
    On an empty list the look at [image[0]] fails with an [IndexError]. *)
Theorem check_image_looks_at_first_element
    (x : image_arg) (l l' : list image_arg) (prompt : prompt_arg)
    (prompt_embeds : option (list Z)) :
  length l = length l' ->
  check_image (ImList (x :: l)) prompt prompt_embeds
  = check_image (ImList (x :: l')) prompt prompt_embeds /\
  check_image (ImList []) prompt prompt_embeds
  = Raise (Exn IndexError "list index out of range").
Proof.
  intros Hlen. split; [|reflexivity].
  unfold check_image, list_of, len_Z. cbn [length]. rewrite Hlen. reflexivity.
Qed.


(** When both bounds of the guidance window are floats, [__call__] makes
    them lists of the right length, so that of the checks on the control
    guidance only those on the pair itself can fail. *)
Theorem float_guidance_bounds_check (a : check_args) (start end_ : float) :
  (ca_control_guidance_start a, ca_control_guidance_end a)
  = normalize_control_guidance (ca_controlnet a) (Scalar start) (Scalar end_) ->
  is_ok (check_control_guidance a)
  = negb (bad_window start end_) ||
    match ca_controlnet a with MultiControlNetModel [] => true | _ => false end.
Proof.
  unfold normalize_control_guidance, check_control_guidance, len_Z.
  intros [= Hs He]. rewrite Hs, He, !repeat_length, Z.eqb_refl. cbn [negb].
  assert (Hrep : forall m,
            is_ok (check_guidance_pairs
                     (combine (repeat start (S m)) (repeat end_ (S m))))
            = negb (bad_window start end_)).
  { intros m. unfold bad_window.
    induction m as [|m IH]; cbn [repeat combine check_guidance_pairs] in *;
      destruct (PyFloat.geb start end_); try reflexivity;
      destruct (PrimFloat.ltb start 0); try reflexivity;
      destruct (PyFloat.gtb end_ 1); try reflexivity.
    exact IH. }
  destruct (ca_controlnet a) as [g|nets|]; cbn [rbind].
  - rewrite (Hrep 0%nat), orb_false_r. reflexivity.
  - rewrite Z.eqb_refl. cbn [negb rbind]. destruct nets as [|b nets].
    + rewrite orb_true_r. reflexivity.
    + cbn [length]. rewrite (Hrep (length nets)), orb_false_r. reflexivity.
  - rewrite (Hrep 0%nat), orb_false_r. reflexivity.
Qed.

Lemma check_inputs_accepts_example :
  exists n, ca_callback_steps EdgeSamples.good_check_args = CbInt n /\ 0 < n.
Proof.
  apply (check_inputs_accepts EdgeSamples.good_check_args).
  vm_compute. reflexivity.
Defined.

Lemma nan_guidance_bound_is_ignored_example :
  check_guidance_pairs [(PrimFloat.nan, 0.5%float)] = Ok tt /\
  keeps 0 2 [(PrimFloat.nan, 0.5%float)] = Ok [1%float] /\
  keeps 1 2 [(PrimFloat.nan, 0.5%float)] = Ok [0%float].
Proof.
  destruct (nan_guidance_bound_is_ignored PrimFloat.nan 0.5%float 0 2
              (or_introl eq_refl) ltac:(lia)) as (Hc & Hk0 & _).
  destruct (nan_guidance_bound_is_ignored PrimFloat.nan 0.5%float 1 2
              (or_introl eq_refl) ltac:(lia)) as (_ & Hk1 & _).
  split; [rewrite Hc; vm_compute; reflexivity|].
  split; [refine (eq_trans (Hk0 eq_refl) _)|refine (eq_trans (Hk1 eq_refl) _)];
    vm_compute; reflexivity.
Defined.

Lemma check_image_looks_at_first_element_example :
  check_image (ImList [ImPIL; ImOther]) (PromptStr "a bird") None
  = check_image (ImList [ImPIL; ImPIL]) (PromptStr "a bird") None.
Proof.
  apply (check_image_looks_at_first_element ImPIL [ImOther] [ImPIL]). reflexivity.
Defined.


Lemma float_guidance_bounds_check_example :
  is_ok (check_control_guidance EdgeSamples.good_check_args) = true.
Proof.
  rewrite (float_guidance_bounds_check EdgeSamples.good_check_args 0%float 1%float
             eq_refl).
  vm_compute. reflexivity.
Defined.

End ControlNetValidation.

(** ** [pipeline_controlnet_img2img.py]: the loop as a whole, the latents *)

Module ControlNetSampling.
Import Py PyFacts ControlNetImg2Img ControlNetTrace ControlNetProofs.
Local Open Scope py_scope.

Section Sampling.
Context {Tensor Timestep Generator Dtype StepKwargs AttnKwargs Ext : Type}.
Context `{E : @Env Tensor Timestep Generator Dtype StepKwargs AttnKwargs Ext}.

Abbreviation world := (@world Tensor Timestep Generator Dtype StepKwargs AttnKwargs Ext).
Abbreviation generator_arg := (@generator_arg Generator).
Abbreviation event := (@event Tensor Timestep Generator Dtype StepKwargs AttnKwargs).
Abbreviation loop_args := (@loop_args Tensor Timestep StepKwargs AttnKwargs).
Abbreviation latent_image := (@latent_image Tensor).

Lemma call_ok_world {A} (f : Ext -> result A * Ext) (ev : A -> event) (w w' : world) a :
  call f ev w = (Ok a, w') ->
  trace w' = trace w ++ [ev a] /\
  timesteps_of_scheduler w' = timesteps_of_scheduler w.
Proof.
  intros Hc. apply call_ok_inv in Hc as (Ht & x' & _ & ->). auto.
Qed.

Lemma modulo_ok_inv a b r : modulo a b = Ok r -> b <> 0 /\ r = a mod b.
Proof.
  unfold modulo. destruct (Z.eqb_spec b 0); [discriminate|].
  intros [= <-]. auto.
Qed.

(** The calls of one iteration that returns, in their order. *)
Lemma denoise_step_shape (a : loop_args) (i : nat) (t : Timestep)
    (latents latents' : Tensor) (w w' : world) :
  denoise_step a i t latents w = (Ok latents', w') ->
  exists first pre controlnet_call unet_call noise_pred post,
    trace w'
    = trace w ++ first :: pre ++
      [controlnet_call; unet_call;
       EvSchedulerStep noise_pred t latents (la_extra_step_kwargs a) latents'] ++
      post /\
    (exists x y, first = EvScaleModelInput x t y) /\
    (pre = [] \/ exists x y, pre = [EvScaleModelInput x t y]) /\
    (exists x e c s g r, controlnet_call = EvControlNet x t e c s g r) /\
    (exists x e k d m r, unet_call = EvUNet x t e k d m r) /\
    (post = [] \/ post = [EvProgressBarUpdate] \/
     post = [EvProgressBarUpdate; EvCallback (Z.of_nat i) t latents'] /\
     la_callback a = true /\ la_callback_steps a <> 0 /\
     Z.of_nat i mod la_callback_steps a = 0) /\
    timesteps_of_scheduler w' = timesteps_of_scheduler w.
Proof.
  intros Hrun. unfold denoise_step in Hrun. cbv zeta in Hrun.
  apply bind_ok_inv in Hrun as (lmi & w1 & H1 & Hrun).
  apply call_ok_world in H1 as (T1 & S1).
  apply bind_ok_inv in Hrun as (ci & w2 & H2 & Hrun).
  assert (Hpre : exists pre,
             trace w2 = trace w1 ++ pre /\
             timesteps_of_scheduler w2 = timesteps_of_scheduler w1 /\
             (pre = [] \/ exists x y, pre = [EvScaleModelInput x t y])).
  { match type of H2 with (if ?c then _ else _) _ = _ => destruct c end.
    - apply bind_ok_inv in H2 as (cmi & w1' & Hc & H2).
      apply call_ok_world in Hc as (Tc & Sc).
      apply bind_ok_inv in H2 as (emb & w1'' & He & H2).
      apply lift_ok_inv in He as [_ ->]. apply ret_inv in H2 as [_ ->].
      eexists. split; [exact Tc|]. split; [exact Sc|]. right. eauto.
    - apply ret_inv in H2 as [-> ->]. exists []. rewrite app_nil_r. auto. }
  destruct Hpre as (pre & T2 & S2 & Hpre).
  apply bind_ok_inv in Hrun as (keep & w2' & Hk & Hrun).
  apply lift_ok_inv in Hk as [_ ->].
  apply bind_ok_inv in Hrun as (cs & w2' & Hcs & Hrun).
  apply lift_ok_inv in Hcs as [_ ->].
  apply bind_ok_inv in Hrun as (res & w3 & H3 & Hrun).
  apply call_ok_world in H3 as (T3 & S3).
  apply bind_ok_inv in Hrun as (raw & w4 & H4 & Hrun).
  apply call_ok_world in H4 as (T4 & S4).
  apply bind_ok_inv in Hrun as (noise_pred & w4' & H5 & Hrun).
  assert (Hw4 : w4' = w4).
  { match type of H5 with (if ?c then _ else _) _ = _ => destruct c end.
    - apply bind_ok_inv in H5 as (ut & w4'' & Hu & H5).
      apply lift_ok_inv in Hu as [_ ->]. apply ret_inv in H5 as [_ ->]. reflexivity.
    - apply ret_inv in H5 as [_ ->]. reflexivity. }
  subst w4'.
  apply bind_ok_inv in Hrun as (next & w5 & H6 & Hrun).
  apply call_ok_world in H6 as (T6 & S6).
  apply bind_ok_inv in Hrun as ([] & w6 & H7 & Hrun).
  apply ret_inv in Hrun as [-> ->].
  assert (Hpost : exists post,
             trace w6 = trace w5 ++ post /\
             timesteps_of_scheduler w6 = timesteps_of_scheduler w5 /\
             (post = [] \/ post = [EvProgressBarUpdate] \/
              post = [EvProgressBarUpdate; EvCallback (Z.of_nat i) t next] /\
              la_callback a = true /\ la_callback_steps a <> 0 /\
              Z.of_nat i mod la_callback_steps a = 0)).
  { match type of H7 with (if ?c then _ else _) _ = _ => destruct c end.
    - apply bind_ok_inv in H7 as ([] & w5' & Hp & H7).
      unfold emit, modify in Hp. injection Hp as <-.
      destruct (la_callback a) eqn:Hcb.
      + apply bind_ok_inv in H7 as (r & w5'' & Hm & H7).
        apply lift_ok_inv in Hm as [Hm ->]. apply modulo_ok_inv in Hm as [Hnz ->].
        destruct (Z.eqb_spec (Z.of_nat i mod la_callback_steps a) 0) as [Hz|Hz].
        * apply call_ok_world in H7 as (Tc & Sc). cbn [trace timesteps_of_scheduler] in Tc, Sc.
          exists [EvProgressBarUpdate; EvCallback (Z.of_nat i) t next].
          split; [rewrite Tc, <- app_assoc; reflexivity|].
          split; [exact Sc|]. right. right. auto.
        * apply ret_inv in H7 as [_ ->]. exists [EvProgressBarUpdate]. auto.
      + apply ret_inv in H7 as [_ ->]. exists [EvProgressBarUpdate]. auto.
    - apply ret_inv in H7 as [_ ->]. exists []. rewrite app_nil_r. auto. }
  destruct Hpost as (post & T7 & S7 & Hpost).
  eexists _, pre, _, _, noise_pred, post.
  split; [|split; [|split; [|split; [|split; [|split]]]]].
  - rewrite T7, T6, T4, T3, T2, T1. rewrite <- !app_assoc. reflexivity.
  - eauto.
  - exact Hpre.
  - eauto 10.
  - eauto 10.
  - exact Hpost.
  - congruence.
Qed.

Lemma denoise_step_summary (a : loop_args) (i : nat) (t : Timestep)
    (latents latents' : Tensor) (w w' : world) :
  denoise_step a i t latents w = (Ok latents', w') ->
  exists new,
    trace w' = trace w ++ new /\
    map kind_of (List.filter is_model_call new) = [KControlNet; KUNet; KSchedulerStep] /\
    controlnet_timesteps new = [t] /\
    unet_timesteps new = [t] /\
    scheduler_steps new = [(t, latents, latents')] /\
    Forall (fun j => la_callback a = true /\ j mod la_callback_steps a = 0)
      (callback_indices new).
Proof.
  intros Hrun. apply denoise_step_shape in Hrun
    as (first & pre & cn & un & np & post & Ht & (x0 & y0 & ->) & Hpre &
        (x1 & e1 & c1 & s1 & g1 & r1 & ->) & (x2 & e2 & k2 & d2 & m2 & r2 & ->) &
        Hpost & _).
  eexists. split; [exact Ht|].
  destruct Hpre as [->|(x & y & ->)];
    destruct Hpost as [->|[->|(-> & Hcb & Hnz & Hmod)]];
    repeat split; cbn; auto.
Qed.

Lemma chained_app (first mid last : Tensor)
    (l1 l2 : list (Timestep * Tensor * Tensor)) :
  chained first l1 mid -> chained mid l2 last -> chained first (l1 ++ l2) last.
Proof.
  revert first. induction l1 as [|[[t s] o] l1 IH]; intros first; cbn [chained app].
  - intros ->. auto.
  - intros [-> H1] H2. split; [reflexivity|]. apply IH; assumption.
Qed.

(** A denoising loop that returns has, for each timestep in turn, called
    the ControlNet, then the UNet, then the scheduler's step, each once and
    at that timestep; every step starts from the latents the step before
    returned, the first from the latents given and the last returns the
    result; and the callback was called only at indices that are multiples
    of [callback_steps]. *)
Theorem denoising_loop_runs_each_timestep
    (a : loop_args) (ts : list Timestep) (i : nat) (latents final : Tensor)
    (w w' : world) :
  denoising_loop a i ts latents w = (Ok final, w') ->
  exists new,
    trace w' = trace w ++ new /\
    map kind_of (List.filter is_model_call new)
    = List.concat (repeat [KControlNet; KUNet; KSchedulerStep] (length ts)) /\
    controlnet_timesteps new = ts /\
    unet_timesteps new = ts /\
    map (fun s => fst (fst s)) (scheduler_steps new) = ts /\
    chained latents (scheduler_steps new) final /\
    Forall (fun j => la_callback a = true /\ j mod la_callback_steps a = 0)
      (callback_indices new).
Proof.
  revert i latents w. induction ts as [|t ts IH]; intros i latents w Hrun.
  - cbn [denoising_loop] in Hrun. apply ret_inv in Hrun as [-> ->].
    exists []. rewrite app_nil_r. repeat split; constructor.
  - cbn [denoising_loop] in Hrun.
    apply bind_ok_inv in Hrun as (latents1 & w1 & Hstep & Hrun).
    apply denoise_step_summary in Hstep as (new1 & T1 & K1 & N1 & U1 & S1 & C1).
    apply IH in Hrun as (new2 & T2 & K2 & N2 & U2 & S2 & Ch2 & C2).
    exists (new1 ++ new2).
    unfold controlnet_timesteps, unet_timesteps, scheduler_steps, callback_indices in *.
    rewrite List.filter_app, map_app, !flat_map_app, map_app.
    rewrite K1, K2, N1, N2, U1, U2, S1, S2.
    cbn [length repeat List.concat map fst app].
    split; [rewrite T2, T1, app_assoc; reflexivity|].
    repeat split; auto.
    + apply Forall_app. split; assumption.
Qed.

(** *** The ends of the strength scale *)

(** With [strength = 1.0] the whole schedule is run, with [strength = 0.0]
    none of it: [get_timesteps] returns all timesteps and
    [num_inference_steps], resp. the timesteps after the first
    [num_inference_steps * order] and zero steps. *)
Theorem get_timesteps_at_the_ends (num_inference_steps : Z) (w : world) :
  1 <= num_inference_steps < 2 ^ 53 ->
  get_timesteps num_inference_steps 1%float w
  = (Ok (timesteps_of_scheduler w, num_inference_steps), w) /\
  get_timesteps num_inference_steps 0%float w
  = (Ok (skipn (Z.to_nat (num_inference_steps * Zpos scheduler_order))
           (timesteps_of_scheduler w), 0), w).
Proof.
  intros [Hn Hlt].
  destruct (Binary64Exact.to_int_of_int_exact num_inference_steps) as (f & Hf & Hk);
    [split; [lia|exact Hlt]|].
  assert (Hn0 : 0 <= num_inference_steps) by lia.
  pose proof (Binary64.of_int_sign _ f Hn0 Hf) as Hsign.
  unfold get_timesteps, bind, lift, gets, ret, PyFloat.int_mul. rewrite Hf. split.
  - rewrite Binary64.mul_one_r, Hk.
    rewrite Z.min_id, Z.sub_diag, Z.max_id, Z.mul_0_l, Z.sub_0_r. reflexivity.
  - rewrite (Binary64Exact.to_int_mul_zero f Hsign).
    rewrite Z.min_l, Z.sub_0_r, Z.max_l by lia.
    rewrite slice_from_nonneg by (apply Z.mul_nonneg_nonneg; lia).
    rewrite Z.sub_diag. reflexivity.
Qed.

(** *** [prepare_latents]: what is not encoded, what is refused *)

(** An image with four channels is taken to be latents: it is cast and
    used as it is. The VAE is not called, the scaling factor not applied,
    and a list of generators is not even measured. *)
Theorem prepare_latents_takes_latents_as_they_are
    (t timestep : Tensor) (batch_size num_images_per_prompt : Z) (dtype : Dtype)
    (generator : generator_arg) (w : world) :
  shape_at (shape (cast t dtype)) 1 = Ok 4 ->
  encode_init_latents (LTensor t) (batch_size * num_images_per_prompt) dtype
    generator w
  = (Ok (cast t dtype), w) /\
  prepare_latents (LTensor t) timestep batch_size num_images_per_prompt dtype
    generator w
  = (init_latents <- match_batch_size (batch_size * num_images_per_prompt)
                       (cast t dtype) ;;
     add_initial_noise init_latents timestep dtype generator) w.
Proof.
  intros Hch.
  assert (Henc : encode_init_latents (LTensor t)
                   (batch_size * num_images_per_prompt) dtype generator w
                 = (Ok (cast t dtype), w)).
  { unfold encode_init_latents, bind, ret, lift. rewrite Hch. reflexivity. }
  split; [exact Henc|].
  unfold prepare_latents. cbv zeta. rewrite (bind_ok _ _ _ _ _ Henc). reflexivity.
Qed.

(** [prepare_latents] refuses, before anything is encoded or sampled: an
    image that is neither tensor, PIL image nor list, with a [ValueError];
    a PIL image or a list, which pass that test, with the [AttributeError]
    of the [cast] they do not have; an image to encode together with a list
    of generators whose length is not the effective batch size, with a
    [ValueError]. *)
Theorem prepare_latents_input_errors
    (image : latent_image) (timestep : Tensor)
    (batch_size num_images_per_prompt : Z) (dtype : Dtype)
    (generator : generator_arg) (w : world) :
  (image = LOther ->
   prepare_latents image timestep batch_size num_images_per_prompt dtype generator w
   = (Raise (Exn ValueError "`image` has to be of type `paddle.Tensor`, `PIL.Image.Image` or list"), w)) /\
  (image = LPIL \/ image = LList ->
   prepare_latents image timestep batch_size num_images_per_prompt dtype generator w
   = (Raise (Exn AttributeError "cast"), w)) /\
  (forall t gs channels,
     image = LTensor t -> generator = GenList gs ->
     shape_at (shape (cast t dtype)) 1 = Ok channels -> channels <> 4 ->
     len_Z gs <> batch_size * num_images_per_prompt ->
     prepare_latents image timestep batch_size num_images_per_prompt dtype generator w
     = (Raise (Exn ValueError "You have passed a list of generators whose length does not match the requested effective batch size."), w)).
Proof.
  split; [|split].
  - intros ->. reflexivity.
  - intros [->| ->]; reflexivity.
  - intros t gs channels -> -> Hch Hne Hlen.
    unfold prepare_latents, encode_init_latents, bind, ret, lift, throw.
    rewrite Hch.
    destruct (Z.eqb_spec channels 4) as [|_]; [contradiction|].
    destruct (Z.eqb_spec (len_Z gs) (batch_size * num_images_per_prompt))
      as [|_]; [contradiction|].
    reflexivity.
Qed.

End Sampling.

Lemma denoising_loop_runs_each_timestep_example :
  exists new,
    trace (snd (@denoising_loop _ _ _ _ _ _ _ Samples.sampling_env
                  Samples.toy_loop_args 0 [900; 800] [1%float] Samples.toy_world))
    = trace Samples.toy_world ++ new /\
    controlnet_timesteps new = [900; 800] /\
    unet_timesteps new = [900; 800].
Proof.
  destruct (@denoising_loop _ _ _ _ _ _ _ Samples.sampling_env
              Samples.toy_loop_args 0 [900; 800] [1%float] Samples.toy_world)
    as [[final|e] w'] eqn:Hrun; [|vm_compute in Hrun; discriminate].
  destruct (@denoising_loop_runs_each_timestep _ _ _ _ _ _ _ Samples.sampling_env
              _ _ _ _ _ _ _ Hrun) as (new & Ht & _ & Hn & Hu & _).
  exists new. repeat split; assumption.
Defined.

Lemma get_timesteps_at_the_ends_example :
  @get_timesteps _ _ _ _ _ _ _ Samples.sampling_env 10 1%float Samples.toy_world
  = (Ok ([900; 800; 700; 600; 500; 400; 300; 200; 100; 0], 10), Samples.toy_world).
Proof.
  apply (proj1 (@get_timesteps_at_the_ends _ _ _ _ _ _ _ Samples.sampling_env 10
                  Samples.toy_world ltac:(split; [lia|reflexivity]))).
Defined.

Lemma prepare_latents_takes_latents_as_they_are_example :
  @encode_init_latents _ _ _ _ _ _ _ Samples.sampling_env (LTensor [1%float]) (1 * 1)
    tt GenNone Samples.toy_world
  = (Ok [1%float], Samples.toy_world).
Proof.
  apply (proj1 (@prepare_latents_takes_latents_as_they_are _ _ _ _ _ _ _
                  Samples.sampling_env [1%float] [900%float] 1 1 tt GenNone
                  Samples.toy_world eq_refl)).
Defined.

Lemma prepare_latents_input_errors_example :
  @prepare_latents _ _ _ _ _ _ _ Samples.sampling_env LPIL [900%float] 1 1 tt
    GenNone Samples.toy_world
  = (Raise (Exn AttributeError "cast"), Samples.toy_world).
Proof.
  apply (proj1 (proj2 (@prepare_latents_input_errors _ _ _ _ _ _ _
                         Samples.sampling_env LPIL [900%float] 1 1 tt GenNone
                         Samples.toy_world))).
  left. reflexivity.
Defined.

End ControlNetSampling.

(** ** [lora.py]: saving, and loading into the UNet *)

Module LoraIOProofs.
Import Py PyFacts PyStr PyDict PyMoreFacts LoraIO.
Local Open Scope py_scope.

Lemma flat_map_under_prefix {V} (prefix : string) (d : odict V)
    (sel : string -> bool) :
  (forall k, In k (keys d) -> sel k = startswith prefix k) ->
  (forall k, In k (keys d) -> startswith prefix k = true ->
     exists name, k = ((prefix ++ ".") ++ name)%string /\
                  replace (prefix ++ ".") "" k = name) ->
  flat_map (fun kv => if sel (fst kv)
                      then [(replace (prefix ++ ".") "" (fst kv), snd kv)] else []) d
  = under_prefix prefix d.
Proof.
  induction d as [|[k v] d IH]; intros Hsel Hstrip; [reflexivity|].
  cbn [flat_map under_prefix fst snd].
  rewrite IH by (intros; first [apply Hsel|apply Hstrip]; try right; assumption).
  rewrite (Hsel k (or_introl eq_refl)).
  destruct (startswith prefix k) eqn:Hp.
  - destruct (Hstrip k (or_introl eq_refl) Hp) as (name & Hk & Hr).
    rewrite Hr, (proj2 (after_prefix_spec _ _ _) Hk). reflexivity.
  - rewrite after_prefix_startswith; [reflexivity|].
    destruct (startswith (prefix ++ ".") k) eqn:Hq; [|reflexivity].
    apply startswith_app_l in Hq. congruence.
Qed.

(** On a dict whose keys under [prefix] are cleanly prefixed, removing
    every [prefix + "."] from the selected keys is taking the prefix off. *)
Lemma select_and_strip_clean {V} (prefix : string) (d : odict V) :
  wf d -> cleanly_prefixed prefix d ->
  select_and_strip prefix d = under_prefix prefix d.
Proof.
  unfold wf, cleanly_prefixed, select_and_strip. intros Hnd Hclean.
  set (old := (prefix ++ ".")%string).
  assert (Hold : old <> EmptyString).
  { unfold old. destruct prefix; discriminate. }
  assert (Hstrip : forall k, In k (keys d) -> startswith prefix k = true ->
            exists name, k = (old ++ name)%string /\ replace old "" k = name).
  { intros k Hk Hp. rewrite Forall_forall in Hclean.
    destruct (Hclean k (proj2 (list_elem_of_In _ _) Hk) Hp) as (name & -> & Hname).
    exists name. unfold old. rewrite append_assoc. split; [reflexivity|].
    rewrite <- append_assoc. apply replace_prefix; assumption. }
  assert (Hsel : forall k, In k (keys d) ->
            in_list k (List.filter (startswith prefix) (keys d)) = startswith prefix k).
  { intros k Hk. destruct (startswith prefix k) eqn:Hp.
    - apply in_list_spec, filter_In. auto.
    - destruct (in_list k _) eqn:Hin; [|reflexivity].
      apply in_list_spec, filter_In in Hin as [_ Hin]. congruence. }
  rewrite comprehension_fresh.
  - apply (flat_map_under_prefix prefix d
             (fun k => in_list k (List.filter (startswith prefix) (keys d))));
      assumption.
  - apply NoDup_map_inj_in;
      [|apply NoDup_ListNoDup, List.NoDup_filter, NoDup_ListNoDup; exact Hnd].
    intros x y Hx Hy Hxy. apply filter_In in Hx as [Hx Hsx], Hy as [Hy Hsy].
    rewrite Hsel in Hsx, Hsy by assumption.
    destruct (Hstrip x Hx Hsx) as (nx & -> & Hrx).
    destruct (Hstrip y Hy Hsy) as (ny & -> & Hry).
    congruence.
Qed.

Section Files.
Context {Tensor Layer SaveFunction Ext : Type}.
Context `{E : @Env Tensor Layer SaveFunction Ext}.

Abbreviation world := (@world Tensor SaveFunction Ext).
Abbreviation layers_arg := (@layers_arg Tensor Layer).

(** *** [load_lora_into_unet] *)

(** A state dict in the new format, all keys under "unet" or
    "text_encoder", reaches [unet.load_attn_procs] as its entries under
    "unet." with that prefix taken off, in their order, and so do the
    network alphas; the entries of the text encoder are left out. This
    needs that "unet." occurs in no key but as its prefix, for it is
    removed wherever it occurs. A state dict with any other key is handed
    on whole, after a warning about the old format. *)
Theorem load_lora_into_unet_formats
    (state_dict : odict Tensor) (network_alphas : option (odict float))
    (low_cpu_mem_usage from_diffusers : option bool) (adapter_name : option string)
    (w : world) :
  let new_format :=
    forallb (fun key => startswith "unet" key || startswith "text_encoder" key)
      (keys state_dict) in
  let low := default LOW_CPU_MEM_USAGE_DEFAULT low_cpu_mem_usage in
  let fd := default FROM_DIFFUSERS from_diffusers in
  (new_format = true ->
   wf state_dict -> cleanly_prefixed "unet" state_dict ->
   (forall alphas, network_alphas = Some alphas ->
      wf alphas /\ cleanly_prefixed "unet" alphas) ->
   load_lora_into_unet state_dict network_alphas low_cpu_mem_usage adapter_name
     from_diffusers w
   = call (unet_load_attn_procs (under_prefix "unet" state_dict)
             (option_map (under_prefix "unet") network_alphas) low fd)
          (EvLoadAttnProcs (under_prefix "unet" state_dict)
             (option_map (under_prefix "unet") network_alphas) low fd)
          (World (ext w) (trace w) (log w ++ [(LInfo, "Loading unet.")]))) /\
  (new_format = false ->
   load_lora_into_unet state_dict network_alphas low_cpu_mem_usage adapter_name
     from_diffusers w
   = call (unet_load_attn_procs state_dict network_alphas low fd)
          (EvLoadAttnProcs state_dict network_alphas low fd)
          (World (ext w) (trace w) (log w ++ [(LWarning, OLD_FORMAT_WARNING)]))).
Proof.
  intros new_format low fd. split.
  - intros Hnew Hwf Hclean Halphas. unfold load_lora_into_unet.
    fold new_format. rewrite Hnew.
    rewrite (select_and_strip_clean "unet" state_dict Hwf Hclean).
    assert (Hna : option_map (select_and_strip "unet") network_alphas
                  = option_map (under_prefix "unet") network_alphas).
    { destruct network_alphas as [alphas|]; [|reflexivity]. cbn [option_map].
      destruct (Halphas alphas eq_refl) as [Hw Hc].
      rewrite (select_and_strip_clean "unet" alphas Hw Hc). reflexivity. }
    rewrite Hna. reflexivity.
  - intros Hold. unfold load_lora_into_unet. fold new_format. rewrite Hold.
    reflexivity.
Qed.

(** *** Saving, and loading what was saved *)

Lemma pack_weights_dict (to_diffusers : bool) (d : odict Tensor) (prefix : string) :
  wf d ->
  pack_weights to_diffusers (LayersDict d) prefix
  = Ok (map (fun kv => ((prefix ++ "." ++ fst kv)%string, snd kv)) d).
Proof.
  intros Hwf. unfold pack_weights. cbn [rbind]. f_equal.
  apply (comprehension_rename (fun k => prefix ++ "." ++ k)%string d); [|exact Hwf].
  intros x y Hxy. apply append_inj_l in Hxy. apply append_inj_l in Hxy. exact Hxy.
Qed.

(** The state dict that [save_lora_weights] builds from two dicts. *)
Lemma save_lora_weights_dicts (unet_weights text_encoder_weights : odict Tensor)
    (save_directory : string) (is_main_process : bool) (weight_name : option string)
    (save_function : option SaveFunction) (safe_serialization : bool)
    (to_diffusers : option bool) (w : world) :
  wf unet_weights -> wf text_encoder_weights ->
  let saved :=
    map (fun kv => (("unet" ++ "." ++ fst kv)%string, snd kv)) unet_weights ++
    map (fun kv => (("text_encoder" ++ "." ++ fst kv)%string, snd kv))
      text_encoder_weights in
  wf saved /\
  save_lora_weights save_directory (Some (LayersDict unet_weights))
    (Some (LayersDict text_encoder_weights)) is_main_process weight_name
    save_function safe_serialization to_diffusers w
  = write_lora_layers saved save_directory is_main_process weight_name
      save_function safe_serialization (Some (default TO_DIFFUSERS to_diffusers)) w.
Proof.
  intros Hu Ht saved.
  assert (Hku : NoDup (keys (map (fun kv => (("unet" ++ "." ++ fst kv)%string, snd kv))
                               unet_weights))).
  { rewrite (keys_map_rename (fun k => "unet" ++ "." ++ k)%string).
    apply NoDup_map_inj_in; [|exact Hu]. intros x y _ _ Hxy.
    apply (append_inj_l "unet."). exact Hxy. }
  assert (Hkt : NoDup (keys (map (fun kv => (("text_encoder" ++ "." ++ fst kv)%string,
                                             snd kv)) text_encoder_weights))).
  { rewrite (keys_map_rename (fun k => "text_encoder" ++ "." ++ k)%string).
    apply NoDup_map_inj_in; [|exact Ht]. intros x y _ _ Hxy.
    apply (append_inj_l "text_encoder."). exact Hxy. }
  assert (Hwf : wf saved).
  { unfold wf, saved. rewrite keys_app. apply NoDup_app. split; [exact Hku|].
    split; [|exact Hkt]. intros k Hk1 Hk2.
    rewrite (keys_map_rename (fun k => "unet" ++ "." ++ k)%string) in Hk1.
    rewrite (keys_map_rename (fun k => "text_encoder" ++ "." ++ k)%string) in Hk2.
    apply list_elem_of_In, in_map_iff in Hk1 as (x & <- & _).
    apply list_elem_of_In, in_map_iff in Hk2 as (y & Hxy & _). discriminate Hxy. }
  split; [exact Hwf|].
  unfold save_lora_weights. cbv zeta. unfold bind at 1. unfold bind at 1.
  unfold lift. rewrite (pack_weights_dict _ unet_weights "unet" Hu). unfold ret at 1.
  unfold bind at 1. unfold bind at 1.
  rewrite (pack_weights_dict _ text_encoder_weights "text_encoder" Ht).
  unfold ret at 1.
  rewrite (update_fresh [] _) by exact Hku. cbn [app].
  rewrite update_fresh by (rewrite <- keys_app; exact Hwf). reflexivity.
Qed.

(** What [save_lora_weights] writes for a dict of UNet weights and a dict
    of text-encoder weights, [load_lora_into_unet] reads back: the UNet gets
    the UNet weights under their own names, and only them. This needs that
    no name of a UNet weight has "unet." in it. *)
Theorem saved_unet_weights_load_back
    (unet_weights text_encoder_weights : odict Tensor)
    (save_directory : string) (is_main_process : bool) (weight_name : option string)
    (save_function : option SaveFunction) (safe_serialization : bool)
    (to_diffusers low_cpu_mem_usage from_diffusers : option bool)
    (adapter_name : option string) (w w' : world) :
  wf unet_weights -> wf text_encoder_weights ->
  Forall (fun name => str_in "unet." name = false) (keys unet_weights) ->
  exists saved,
    save_lora_weights save_directory (Some (LayersDict unet_weights))
      (Some (LayersDict text_encoder_weights)) is_main_process weight_name
      save_function safe_serialization to_diffusers w
    = write_lora_layers saved save_directory is_main_process weight_name
        save_function safe_serialization (Some (default TO_DIFFUSERS to_diffusers)) w /\
    keys saved
    = map (String.append "unet.") (keys unet_weights) ++
      map (String.append "text_encoder.") (keys text_encoder_weights) /\
    load_lora_into_unet saved None low_cpu_mem_usage adapter_name from_diffusers w'
    = call (unet_load_attn_procs unet_weights None
              (default LOW_CPU_MEM_USAGE_DEFAULT low_cpu_mem_usage)
              (default FROM_DIFFUSERS from_diffusers))
           (EvLoadAttnProcs unet_weights None
              (default LOW_CPU_MEM_USAGE_DEFAULT low_cpu_mem_usage)
              (default FROM_DIFFUSERS from_diffusers))
           (World (ext w') (trace w') (log w' ++ [(LInfo, "Loading unet.")])).
Proof.
  intros Hu Ht Hnames.
  destruct (save_lora_weights_dicts unet_weights text_encoder_weights save_directory
              is_main_process weight_name save_function safe_serialization
              to_diffusers w Hu Ht) as [Hwf Hsave].
  eexists. split; [exact Hsave|]. split.
  { rewrite keys_app,
      (keys_map_rename (fun k => "unet" ++ "." ++ k)%string),
      (keys_map_rename (fun k => "text_encoder" ++ "." ++ k)%string). reflexivity. }
  match goal with |- load_lora_into_unet ?sd _ _ _ _ _ = _ => set (saved := sd) in * end.
  assert (Hkeys : forall k, In k (keys saved) ->
            (exists name, In name (keys unet_weights) /\ k = ("unet." ++ name)%string) \/
            (exists name, k = ("text_encoder." ++ name)%string)).
  { intros k Hk. unfold saved in Hk. rewrite keys_app in Hk.
    rewrite (keys_map_rename (fun k => "unet" ++ "." ++ k)%string),
      (keys_map_rename (fun k => "text_encoder" ++ "." ++ k)%string) in Hk.
    apply in_app_iff in Hk as [Hk|Hk]; apply in_map_iff in Hk as (name & <- & Hin);
      [left|right]; eauto. }
  assert (Hunder : under_prefix "unet" saved = unet_weights).
  { unfold saved. clear. induction unet_weights as [|[k v] l IH].
    - cbn [map app]. induction text_encoder_weights as [|[k v] l IH]; [reflexivity|].
      cbn [map under_prefix fst snd]. exact IH.
    - cbn [map app under_prefix fst snd].
      rewrite (proj2 (after_prefix_spec ("unet" ++ ".") ("unet" ++ "." ++ k) k) eq_refl).
      rewrite IH. reflexivity. }
  pose proof (proj1 (load_lora_into_unet_formats saved None low_cpu_mem_usage
                       from_diffusers adapter_name w')) as Hload.
  cbv zeta in Hload. rewrite Hunder in Hload. apply Hload.
  - apply forallb_forall. intros k Hk.
    destruct (Hkeys k Hk) as [(name & _ & ->)|(name & ->)]; reflexivity.
  - exact Hwf.
  - unfold cleanly_prefixed. apply Forall_forall. intros k Hk Hp.
    apply list_elem_of_In in Hk.
    destruct (Hkeys k Hk) as [(name & Hin & ->)|(name & ->)]; [|discriminate Hp].
    exists name. split; [reflexivity|].
    rewrite Forall_forall in Hnames. apply Hnames, list_elem_of_In, Hin.
  - intros alphas [=].
Qed.

(** *** [write_lora_layers] *)

Lemma io_call_ok_inv {A} (f : Ext -> result A * Ext) (ev : event) (w w' : world) a :
  call f ev w = (Ok a, w') ->
  exists x', f (ext w) = (Ok a, x') /\ w' = World x' (trace w ++ [ev]) (log w).
Proof.
  unfold call. destruct (f (ext w)) as [[b|e] x'] eqn:Hf; [|discriminate].
  intros [= -> <-]. eauto.
Qed.

Lemma choose_save_function_inv (to_diffusers safe_serialization : bool)
    (w w1 : world) r :
  choose_save_function to_diffusers safe_serialization w = (r, w1) ->
  ext w1 = ext w /\ trace w1 = trace w.
Proof.
  unfold choose_save_function, bind, logger, modify, ret, throw.
  destruct to_diffusers, safe_serialization, is_torch_available,
    is_safetensors_available; cbn; intros [= <- <-]; auto.
Qed.

(** A [write_lora_layers] that returns has either found a file where the
    directory should be, and then written nothing, or made the directory
    and called one save function once: on the state dict it was given, at
    the given name, or the default name, inside the directory; the save
    function is the caller's when there is one. *)
Theorem write_lora_layers_writes_one_file
    (state_dict : odict Tensor) (save_directory : string) (is_main_process : bool)
    (weight_name : option string) (save_function : option SaveFunction)
    (safe_serialization : bool) (to_diffusers : option bool) (w w' : world) :
  write_lora_layers state_dict save_directory is_main_process weight_name
    save_function safe_serialization to_diffusers w = (Ok tt, w') ->
  if os_path_isfile save_directory (ext w)
  then ext w' = ext w /\ trace w' = trace w /\
       exists msg, log w' = log w ++ [(LError, msg)]
  else exists save,
         trace w'
         = trace w ++
           [EvMakedirs save_directory;
            EvSave save state_dict
              (path_join save_directory
                 (default (default_weight_name (default TO_DIFFUSERS to_diffusers)
                             safe_serialization) weight_name))] /\
         (forall f, save_function = Some f -> save = UserSaveFunction f).
Proof.
  unfold write_lora_layers. cbv zeta. unfold bind at 1. unfold gets at 1.
  destruct (os_path_isfile save_directory (ext w)).
  - unfold logger, modify. intros [= <-]. cbn [ext trace log]. eauto.
  - intros Hrun.
    apply bind_ok_inv in Hrun as ([] & w1 & Hmk & Hrun).
    apply io_call_ok_inv in Hmk as (x1 & _ & ->).
    assert (Hname : forall td,
              fst (match weight_name with
                   | Some name => (name, td name)
                   | None => (default_weight_name (default TO_DIFFUSERS to_diffusers)
                                safe_serialization,
                              default TO_DIFFUSERS to_diffusers)
                   end)
              = default (default_weight_name (default TO_DIFFUSERS to_diffusers)
                           safe_serialization) weight_name)
      by (intros td; destruct weight_name; reflexivity).
    match type of Hrun with
    | (let (_, _) := ?p in _) _ = _ =>
        destruct p as [name td] eqn:Hp; apply (f_equal fst) in Hp
    end.
    rewrite Hname in Hp. cbn [fst] in Hp. subst name.
    apply bind_ok_inv in Hrun as (save & w2 & Hsave & Hrun).
    apply bind_ok_inv in Hrun as ([] & w3 & Hcall & Hrun).
    apply io_call_ok_inv in Hcall as (x3 & _ & ->).
    unfold logger, modify in Hrun. injection Hrun as <-. cbn [trace].
    exists save.
    assert (Hs : trace w2 = trace w ++ [EvMakedirs save_directory] /\
                 (forall f, save_function = Some f -> save = UserSaveFunction f)).
    { destruct save_function as [f|].
      - apply ret_inv in Hsave as [-> ->]. cbn [trace]. split; [reflexivity|].
        intros f0 [= <-]. reflexivity.
      - apply choose_save_function_inv in Hsave as [_ ->]. cbn [trace].
        split; [reflexivity|]. intros f [=]. }
    destruct Hs as [-> Hf]. rewrite <- app_assoc. split; [reflexivity|exact Hf].
Qed.

Lemma choose_save_function_saver (to_diffusers safe_serialization : bool)
    (w w1 : world) (save : saver) :
  choose_save_function to_diffusers safe_serialization w = (Ok save, w1) ->
  save
  = if to_diffusers then
      if safe_serialization || negb is_torch_available then
        if is_torch_available then TorchSafeSaveFilePt else NumpySafeSaveFilePt
      else TorchSave
    else if safe_serialization then NumpySafeSaveFilePd else PaddleSave.
Proof.
  unfold choose_save_function, bind, logger, modify, ret, throw.
  destruct to_diffusers, safe_serialization, is_torch_available,
    is_safetensors_available; cbn; intros [= <- <-]; reflexivity.
Qed.

(** A [weight_name] decides the framework, whatever [to_diffusers] says.
    When the call returns, has written, and was passed no save function:
    with "paddle" or "pdparams" in the lowered name the file is written by
    a Paddle saver; else, with "torch" or "bin" in it, by a PyTorch saver
    (the safetensors one also when PyTorch is not installed). *)
Theorem weight_name_overrides_to_diffusers
    (state_dict : odict Tensor) (save_directory : string) (is_main_process : bool)
    (name : string) (safe_serialization : bool) (to_diffusers : option bool)
    (w w' : world) :
  write_lora_layers state_dict save_directory is_main_process (Some name)
    None safe_serialization to_diffusers w = (Ok tt, w') ->
  os_path_isfile save_directory (ext w) = false ->
  (str_in "paddle" (lower name) || str_in "pdparams" (lower name) = true ->
   trace w'
   = trace w ++
     [EvMakedirs save_directory;
      EvSave (if safe_serialization then NumpySafeSaveFilePd else PaddleSave)
        state_dict (path_join save_directory name)]) /\
  (str_in "paddle" (lower name) || str_in "pdparams" (lower name) = false ->
   str_in "torch" (lower name) || str_in "bin" (lower name) = true ->
   trace w'
   = trace w ++
     [EvMakedirs save_directory;
      EvSave (if safe_serialization || negb is_torch_available
              then if is_torch_available then TorchSafeSaveFilePt
                   else NumpySafeSaveFilePt
              else TorchSave)
        state_dict (path_join save_directory name)]).
Proof.
  unfold write_lora_layers. cbv zeta. unfold bind at 1. unfold gets at 1.
  intros Hrun Hfile. rewrite Hfile in Hrun.
  apply bind_ok_inv in Hrun as ([] & w1 & Hmk & Hrun).
  apply io_call_ok_inv in Hmk as (x1 & _ & ->).
  apply bind_ok_inv in Hrun as (save & w2 & Hsave & Hrun).
  apply bind_ok_inv in Hrun as ([] & w3 & Hcall & Hrun).
  apply io_call_ok_inv in Hcall as (x3 & _ & ->).
  unfold logger, modify in Hrun. injection Hrun as <-. cbn [trace].
  pose proof (choose_save_function_saver _ _ _ _ _ Hsave) as Hs.
  apply choose_save_function_inv in Hsave as [_ ->]. cbn [trace].
  rewrite <- app_assoc. cbn [app].
  split.
  - intros Hp. rewrite Hp in Hs. subst save. reflexivity.
  - intros Hp Ht. rewrite Hp, Ht in Hs. subst save. reflexivity.
Qed.

(** *** The SDXL [save_lora_weights] *)

(** With nothing to save the SDXL [save_lora_weights] raises a
    [ValueError] and writes nothing. The layers of the first text encoder
    are saved only together with those of the second: passed without them
    they are left out silently, and passed alone they make the call write a
    checkpoint with no weights. *)
Theorem sdxl_save_needs_both_text_encoders
    (save_directory : string)
    (unet_lora_layers text_encoder_lora_layers text_encoder_2_lora_layers
       : option layers_arg)
    (is_main_process : bool) (weight_name : option string)
    (save_function : option SaveFunction) (safe_serialization : bool)
    (to_diffusers : option bool) (w : world) :
  (given unet_lora_layers = false -> given text_encoder_lora_layers = false ->
   given text_encoder_2_lora_layers = false ->
   sdxl_save_lora_weights save_directory unet_lora_layers text_encoder_lora_layers
     text_encoder_2_lora_layers is_main_process weight_name save_function
     safe_serialization to_diffusers w
   = (Raise (Exn ValueError "You must pass at least one of `unet_lora_layers`, `text_encoder_lora_layers` or `text_encoder_2_lora_layers`."), w)) /\
  (given text_encoder_lora_layers = true ->
   given text_encoder_2_lora_layers = false ->
   sdxl_save_lora_weights save_directory unet_lora_layers text_encoder_lora_layers
     text_encoder_2_lora_layers is_main_process weight_name save_function
     safe_serialization to_diffusers w
   = if given unet_lora_layers
     then sdxl_save_lora_weights save_directory unet_lora_layers None None
            is_main_process weight_name save_function safe_serialization
            to_diffusers w
     else write_lora_layers [] save_directory is_main_process weight_name
            save_function safe_serialization
            (Some (default TO_DIFFUSERS to_diffusers)) w).
Proof.
  split.
  - intros Hu Ht Ht2. unfold sdxl_save_lora_weights. rewrite Hu, Ht, Ht2. reflexivity.
  - intros Ht Ht2. unfold sdxl_save_lora_weights. rewrite Ht, Ht2.
    rewrite orb_true_r, orb_false_r. cbn [negb orb given].
    destruct text_encoder_lora_layers as [te|]; [|discriminate Ht].
    cbn [given] in Ht. rewrite Ht.
    destruct text_encoder_2_lora_layers as [te2|]; cbn [given] in Ht2;
      rewrite ?Ht2; cbn [andb];
      (destruct unet_lora_layers as [u|]; cbn [given];
       [destruct (truthy u); cbn [negb]; reflexivity|reflexivity]).
Qed.

(** *** [_best_guess_weight_name] *)

(** A name that [_best_guess_weight_name] returns is one of the files
    listed (in the directory, or else in the repository), ends with the
    file extension asked for, and has none of "scheduler", "optimizer",
    "checkpoint" in it. *)
Theorem best_guess_weight_name_is_a_listed_file
    (path file_extension : string) (x : Ext) (name : string) :
  _best_guess_weight_name path file_extension x = Ok (Some name) ->
  os_path_isfile path x = false /\
  (exists files,
     (if os_path_isdir path x then os_listdir path x
      else model_info_siblings path x) = Ok files /\
     In name files) /\
  endswith file_extension name = true /\
  str_in "scheduler" name = false /\ str_in "optimizer" name = false /\
  str_in "checkpoint" name = false.
Proof.
  unfold _best_guess_weight_name.
  destruct (os_path_isfile path x); [discriminate|]. intros Hrun.
  apply rbind_ok_inv in Hrun as (targeted & Hlist & Hrun).
  assert (Hfiles : exists files,
            (if os_path_isdir path x then os_listdir path x
             else model_info_siblings path x) = Ok files /\
            targeted = List.filter (endswith file_extension) files).
  { destruct (os_path_isdir path x);
      apply rbind_ok_inv in Hlist as (files & Hf & [= <-]); eauto. }
  destruct Hfiles as (files & Hfiles & ->).
  destruct (Nat.eqb _ 0); [discriminate|].
  cbv zeta in Hrun.
  set (allowed := List.filter _ (List.filter (endswith file_extension) files)) in Hrun.
  assert (Hin : In name allowed).
  { destruct (1 <? _)%nat; [discriminate|].
    match type of Hrun with
    | match ?l with _ => _ end = _ =>
        assert (Hsub : forall f, In f l -> In f allowed);
        [|destruct l as [|f l']; [discriminate|]]
    end.
    - intros f. destruct (existsb _ allowed); [intros Hf; apply filter_In in Hf; tauto|].
      destruct (existsb _ allowed); [intros Hf; apply filter_In in Hf; tauto|auto].
    - injection Hrun as <-. apply Hsub. left. reflexivity. }
  unfold allowed in Hin. apply filter_In in Hin as [Hin Hallowed].
  apply filter_In in Hin as [Hin Hext]. cbn [forallb] in Hallowed.
  apply andb_true_iff in Hallowed as [H1 Hallowed].
  apply andb_true_iff in Hallowed as [H2 Hallowed].
  apply andb_true_iff in Hallowed as [H3 _].
  apply negb_true_iff in H1, H2, H3.
  split; [reflexivity|]. split; [eauto|]. auto.
Qed.

(** When files with the extension are listed but every one of them is
    unallowed, [_best_guess_weight_name] does not return [None]: it fails
    with an [IndexError] on [targeted_files[0]]. *)
Theorem best_guess_weight_name_unallowed_only
    (path file_extension : string) (x : Ext) (files : list string) :
  os_path_isfile path x = false ->
  (if os_path_isdir path x then os_listdir path x
   else model_info_siblings path x) = Ok files ->
  (exists f, In f files /\ endswith file_extension f = true) ->
  (forall f, In f files -> endswith file_extension f = true ->
     str_in "scheduler" f = true \/ str_in "optimizer" f = true \/
     str_in "checkpoint" f = true) ->
  _best_guess_weight_name path file_extension x
  = Raise (Exn IndexError "list index out of range").
Proof.
  intros Hfile Hfiles (f0 & Hf0 & Hext0) Hbad. unfold _best_guess_weight_name.
  rewrite Hfile.
  assert (Hlist : (if os_path_isdir path x
                   then let? files := os_listdir path x in
                        Ok (List.filter (endswith file_extension) files)
                   else let? files_in_repo := model_info_siblings path x in
                        Ok (List.filter (endswith file_extension) files_in_repo))
                  = Ok (List.filter (endswith file_extension) files)).
  { destruct (os_path_isdir path x); rewrite Hfiles; reflexivity. }
  rewrite Hlist. cbn [rbind].
  destruct (List.filter (endswith file_extension) files) as [|g l] eqn:Hfl.
  { assert (Hin : In f0 (List.filter (endswith file_extension) files))
      by (apply filter_In; auto).
    rewrite Hfl in Hin. destruct Hin. }
  cbn [length Nat.eqb]. cbv zeta.
  assert (Hnone : List.filter
                    (fun x0 => forallb (fun substring => negb (str_in substring x0))
                                 ["scheduler"; "optimizer"; "checkpoint"])
                    (g :: l) = []).
  { rewrite <- Hfl.
    destruct (List.filter _ (List.filter (endswith file_extension) files))
      as [|h t] eqn:Hflt; [reflexivity|].
    assert (Hh : In h (h :: t)) by (left; reflexivity).
    rewrite <- Hflt in Hh. apply filter_In in Hh as [Hh Hallowed].
    apply filter_In in Hh as [Hh Hext]. cbn [forallb] in Hallowed.
    apply andb_true_iff in Hallowed as [H1 Hallowed].
    apply andb_true_iff in Hallowed as [H2 Hallowed].
    apply andb_true_iff in Hallowed as [H3 _].
    apply negb_true_iff in H1, H2, H3.
    destruct (Hbad h Hh Hext) as [Hb|[Hb|Hb]]; congruence. }
  rewrite Hnone. reflexivity.
Qed.

End Files.

(** *** Saved under the default name, found under the default name *)

Section Names.
Context {Tensor Unet LoraLayer Linear UnetConfig HubArgs : Type}.
Context `{L : @Lora.Env Tensor Unet LoraLayer Linear UnetConfig HubArgs}.

(** The name [write_lora_layers] gives a file for [to_diffusers] and
    [safe_serialization] is the name [lora_state_dict] looks for with
    [from_diffusers] and [use_safetensors] set the same way: when the hub
    or the directory has a file of that name, that file is loaded. *)
Theorem default_weight_name_is_looked_up
    (path : string) (kw : @Lora.kwargs UnetConfig HubArgs)
    (to_diffusers safe_serialization : bool) (f fmt : string)
    (loaded : gmap string Tensor) :
  Lora.kw_weight_name kw = None ->
  Lora.kw_from_diffusers kw = Some to_diffusers ->
  Lora.kw_use_safetensors kw = Some safe_serialization ->
  Lora._get_model_file path (default_weight_name to_diffusers safe_serialization)
    to_diffusers (Lora.kw_hub kw) = Ok (Some f) ->
  Lora.load_state_dict f = Ok (fmt, loaded) ->
  all_keys Lora.is_kohya_key loaded = false ->
  Lora.lora_state_dict (inl path) kw
  = Ok (loaded, None,
        if String.eqb fmt "pd" then false
        else if String.eqb fmt "pt" then true else to_diffusers).
Proof.
  intros Hw Hfd Hs Hget Hload Hk. unfold Lora.lora_state_dict.
  rewrite Hw, Hfd, Hs. cbn [default from_option Lora.str_or]. unfold id.
  assert (Hnone : bool_decide (is_Some (@None string)) = false)
    by (apply bool_decide_eq_false_2; intros [? [=]]).
  rewrite Hnone. unfold default_weight_name in Hget.
  destruct safe_serialization, to_diffusers; cbn [andb orb negb];
    rewrite ?Hget; cbn [rbind]; rewrite ?Hget; cbn [rbind];
    rewrite Hload; cbn [rbind]; rewrite Hk;
    destruct (String.eqb fmt "pd"), (String.eqb fmt "pt"); reflexivity.
Qed.

End Names.

Lemma load_lora_into_unet_formats_example :
  trace (snd (@load_lora_into_unet _ _ _ _ EdgeSamples.io_env
                [("unet.attn.lora.up.weight", 1); ("text_encoder.q.lora.up.weight", 2)]
                None None None None (EdgeSamples.io_world [])))
  = [EvLoadAttnProcs [("attn.lora.up.weight", 1)] None true false].
Proof.
  rewrite (proj1 (@load_lora_into_unet_formats _ _ _ _ EdgeSamples.io_env
                    [("unet.attn.lora.up.weight", 1);
                     ("text_encoder.q.lora.up.weight", 2)]
                    None None None None (EdgeSamples.io_world []))).
  - reflexivity.
  - reflexivity.
  - apply NoDup_ListNoDup. cbn. repeat constructor; cbn; intuition discriminate.
  - unfold cleanly_prefixed. cbn. repeat constructor.
    + intros _. exists "attn.lora.up.weight". split; reflexivity.
    + intros Hp. discriminate Hp.
  - intros alphas [=].
Defined.

Lemma saved_unet_weights_load_back_example :
  exists saved,
    keys saved
    = ["unet.down.attn.lora.up.weight"; "unet.down.attn.lora.down.weight";
       "text_encoder.layers.0.q_proj.lora.up.weight"] /\
    trace (snd (@load_lora_into_unet _ _ _ _ EdgeSamples.io_env saved None None None
                  None (EdgeSamples.io_world [])))
    = [EvLoadAttnProcs EdgeSamples.unet_weights None true false].
Proof.
  destruct (@saved_unet_weights_load_back _ _ _ _ EdgeSamples.io_env
              EdgeSamples.unet_weights EdgeSamples.text_encoder_weights "out" true
              None None true None None None None (EdgeSamples.io_world [])
              (EdgeSamples.io_world []))
    as (saved & _ & Hkeys & Hload).
  - apply NoDup_ListNoDup. cbn. repeat constructor; cbn; intuition discriminate.
  - apply NoDup_ListNoDup. cbn. repeat constructor; cbn; intuition discriminate.
  - repeat constructor.
  - exists saved. split; [exact Hkeys|]. rewrite Hload. reflexivity.
Defined.

Lemma write_lora_layers_writes_one_file_example :
  exists save,
    trace (snd (@write_lora_layers _ _ _ _ EdgeSamples.io_env
                  EdgeSamples.unet_weights "out" true None None true None
                  (EdgeSamples.io_world [])))
    = [EvMakedirs "out";
       EvSave save EdgeSamples.unet_weights "out/paddle_lora_weights.safetensors"].
Proof.
  destruct (@write_lora_layers _ _ _ _ EdgeSamples.io_env
              EdgeSamples.unet_weights "out" true None None true None
              (EdgeSamples.io_world [])) as [[[]|e] w'] eqn:Hrun;
    [|vm_compute in Hrun; discriminate].
  apply (@write_lora_layers_writes_one_file _ _ _ _ EdgeSamples.io_env) in Hrun.
  destruct Hrun as (save & Ht & _). exists save. exact Ht.
Defined.

Lemma weight_name_overrides_to_diffusers_example :
  trace (snd (@write_lora_layers _ _ _ _ EdgeSamples.io_env
                EdgeSamples.unet_weights "out" true (Some "robin.safetensors") None
                true (Some false) (EdgeSamples.io_world [])))
  = [EvMakedirs "out";
     EvSave NumpySafeSaveFilePt EdgeSamples.unet_weights "out/robin.safetensors"].
Proof.
  refine (proj2 (@weight_name_overrides_to_diffusers _ _ _ _ EdgeSamples.io_env
                   EdgeSamples.unet_weights "out" true "robin.safetensors"
                   true (Some false) (EdgeSamples.io_world []) _ _ _) _ _);
    reflexivity.
Defined.

Lemma sdxl_save_needs_both_text_encoders_example :
  trace (snd (@sdxl_save_lora_weights _ _ _ _ EdgeSamples.io_env "out" None
                (Some (LayersDict EdgeSamples.text_encoder_weights)) None true None
                None true None (EdgeSamples.io_world [])))
  = [EvMakedirs "out"; EvSave NumpySafeSaveFilePd [] "out/paddle_lora_weights.safetensors"].
Proof.
  rewrite (proj2 (@sdxl_save_needs_both_text_encoders _ _ _ _ EdgeSamples.io_env
                    "out" None (Some (LayersDict EdgeSamples.text_encoder_weights))
                    None true None None true None (EdgeSamples.io_world []))
             eq_refl eq_refl).
  reflexivity.
Defined.

Lemma best_guess_weight_name_is_a_listed_file_example :
  endswith ".safetensors" "my_lora.safetensors" = true.
Proof.
  apply (@best_guess_weight_name_is_a_listed_file _ _ _ _ EdgeSamples.io_env
           "loras" ".safetensors"
           ["loras/my_lora.safetensors"; "loras/scheduler.safetensors";
            "loras/notes.txt"] "my_lora.safetensors").
  vm_compute. reflexivity.
Defined.

Lemma best_guess_weight_name_unallowed_only_example :
  @_best_guess_weight_name _ _ _ _ EdgeSamples.io_env "run" ".safetensors"
    ["run/checkpoint-500.safetensors"]
  = Raise (Exn IndexError "list index out of range").
Proof.
  apply (@best_guess_weight_name_unallowed_only _ _ _ _ EdgeSamples.io_env
           "run" ".safetensors" ["run/checkpoint-500.safetensors"]
           ["checkpoint-500.safetensors"]).
  - reflexivity.
  - reflexivity.
  - exists "checkpoint-500.safetensors". split; [left|]; reflexivity.
  - intros f [<-|[]] _. right. right. reflexivity.
Defined.

Lemma default_weight_name_is_looked_up_example :
  @Lora.lora_state_dict _ _ _ _ _ _ EdgeSamples.hub_env (inl "user/repo")
    EdgeSamples.pickled_paddle_kwargs
  = Ok ({[ "unet.attn.lora.up.weight" := 1 ]}, None, true).
Proof.
  apply (@default_weight_name_is_looked_up _ _ _ _ _ _ EdgeSamples.hub_env
           "user/repo" EdgeSamples.pickled_paddle_kwargs false false
           "user/repo/paddle_lora_weights.pdparams" "pt");
    reflexivity.
Defined.

End LoraIOProofs.
